(** * tk-clarisse: scene-event watcher, context refresh, UI pump and
      startup-command dispatch

    A shallow embedding of [engine.py] and
    [python/tk_clarisse/pyside_clarisse.py].  Python code that mutates the
    host application object, the watcher objects or the module-level
    singletons is written in a state-and-exception monad over an explicit
    store; Python functions held as values (the host's entry points and the
    closures made by [wrapped]) are first-order data interpreted by [call]. *)

From stdpp Require Import gmap strings list.

Set Default Proof Using "Type".
Open Scope string_scope.
Open Scope list_scope.
Open Scope stdpp_scope.

(** ** Exceptions and the state-and-exception monad *)

(** The exception classes the code distinguishes: [except Exception]
    catches every one of them, [except tank.TankError] only the third. *)
Inductive exn_class :=
| AttributeError
| NameError
| TankError
| OtherException (name : string).

(** What [sys.exc_info()] returns: class, value and traceback. *)
Record exn := Exn {
  exc_type : exn_class;
  exc_value : string;
  exc_traceback : list string
}.

Inductive result (A : Type) :=
| Ok (a : A)
| Raise (e : exn).
Arguments Ok {A} a.
Arguments Raise {A} e.

(** A computation reads and writes the store [S]; a raised exception keeps
    the store as it was when it was raised (Python does not roll back). *)
Definition M (S A : Type) : Type := S -> result A * S.

Definition ret {S A} (a : A) : M S A := fun s => (Ok a, s).

Definition raise {S A} (e : exn) : M S A := fun s => (Raise e, s).

Definition bind {S A B} (m : M S A) (k : A -> M S B) : M S B :=
  fun s =>
    match m s with
    | (Ok a, s') => k a s'
    | (Raise e, s') => (Raise e, s')
    end.

Notation "'let*' x := m 'in' k" := (bind m (fun x => k))
  (at level 10, x name, m at level 200, k at level 200).

Definition get {S} : M S S := fun s => (Ok s, s).
Definition modify {S} (f : S -> S) : M S unit := fun s => (Ok tt, f s).

(** [try: body except <classes selected by catches>: handler]. *)
Definition try_except {S A} (body : M S A) (catches : exn -> bool)
    (handler : exn -> M S A) : M S A :=
  fun s =>
    match body s with
    | (Ok a, s') => (Ok a, s')
    | (Raise e, s') => if catches e then handler e s' else (Raise e, s')
    end.

(** [for x in l: body x]. *)
Fixpoint for_each {S A} (l : list A) (body : A -> M S unit) : M S unit :=
  match l with
  | [] => ret tt
  | x :: l' => let* _ := body x in for_each l' body
  end.

(** The store a computation leaves behind, whether it returned or raised. *)
Definition exec {S A} (m : M S A) (s : S) : S := (m s).2.

(** ** Python dictionaries in insertion order *)

Fixpoint dict_set {V} (k : string) (v : V) (d : list (string * V))
    : list (string * V) :=
  match d with
  | [] => [(k, v)]
  | (k', v') :: d' =>
      if decide (k = k') then (k, v) :: d' else (k', v') :: dict_set k v d'
  end.

Fixpoint dict_get {V} (k : string) (d : list (string * V)) : option V :=
  match d with
  | [] => None
  | (k', v) :: d' => if decide (k = k') then Some v else dict_get k d'
  end.

Definition dict_keys {V} (d : list (string * V)) : list string := d.*1.

(** ** The scene-event watcher ([engine.py], lines 93-213) *)

Module Watcher.

(** Positional and keyword arguments of a host call, and its result. *)
Definition args := list string.
Definition value := string.

(** The two static methods of [SceneEventWatcher] handed to [wrapped]. *)
Inductive callback :=
| scene_event_callback
| clarisse_exiting_callback.

(** A callable stored in an attribute of [ix.application]: an entry point
    of the host itself, or the closure [wrapper] returned by
    [wrapped(function, watcher, post_callback, pre_callback)], which keeps
    what it closes over; [function] is also its [_original]. *)
Inductive fn :=
| HostFn (name : string) (behaviour : args -> result value)
| Closure (function : fn) (watcher : nat)
    (post_callback pre_callback : option callback).

(** The user callback [cb_fn]: opaque code, which returns or raises, and is
    taken to leave the entry points and the watchers alone. *)
Record callable := Callable {
  cb_label : string;
  cb_raises : option exn
}.

Record SceneEventWatcher := Build_watcher {
  __cb_fn : callable;
  __run_once : bool;
  __wrapped_fns : list (string * fn)
}.

(** What the session can observe.  [UserCallback] records, with the watcher
    whose callback ran, the attributes of [ix.application] at that moment. *)
Inductive entry :=
| HostCall (name : string) (a : args)
| UserCallback (watcher : nat) (label : string) (attrs : gmap string fn)
| PrintExc (e : exn)
| LogInfo (msg : string).

Record State := Build_State {
  application : gmap string fn;        (* attributes of ix.application *)
  watchers : list SceneEventWatcher;   (* SceneEventWatcher objects, by address *)
  environ : gmap string string;        (* os.environ *)
  asctime : string;                    (* time.asctime(time.localtime()) *)
  log : list entry
}.

Definition set_application (f : gmap string fn -> gmap string fn)
    (s : State) : State :=
  Build_State (f (application s)) (watchers s) (environ s) (asctime s) (log s).

Definition set_watchers (f : list SceneEventWatcher -> list SceneEventWatcher)
    (s : State) : State :=
  Build_State (application s) (f (watchers s)) (environ s) (asctime s) (log s).

Definition emit (e : entry) (s : State) : State :=
  Build_State (application s) (watchers s) (environ s) (asctime s)
    (log s ++ [e]).

Definition attribute_error (name : string) : exn :=
  Exn AttributeError name [].

(** [getattr(ix.application, name)]. *)
Definition getattr (name : string) : M State fn :=
  fun s =>
    match application s !! name with
    | Some f => (Ok f, s)
    | None => (Raise (attribute_error name), s)
    end.

(** [setattr(ix.application, name, f)]. *)
Definition setattr (name : string) (f : fn) : M State unit :=
  modify (set_application (insert name f)).

(** [event_fn._original]: only the closures made by [wrapped] have it. *)
Definition _original (f : fn) : M State fn :=
  match f with
  | Closure function _ _ _ => ret function
  | HostFn _ _ => raise (attribute_error "_original")
  end.

Definition get_watcher (self : nat) : M State SceneEventWatcher :=
  fun s =>
    match watchers s !! self with
    | Some w => (Ok w, s)
    | None => (Raise (Exn (OtherException "ReferenceError") "" []), s)
    end.

Definition set_wrapped_fns (self : nat)
    (f : list (string * fn) -> list (string * fn)) : M State unit :=
  modify (set_watchers (fun ws =>
    match ws !! self with
    | Some w =>
        <[self := Build_watcher (__cb_fn w) (__run_once w)
                    (f (__wrapped_fns w))]> ws
    | None => ws
    end)).

(** [display_debug(msg)], lines 87-90. *)
Definition display_debug (msg : string) : M State unit :=
  fun s =>
    if decide (environ s !! "TK_DEBUG" = Some "1") then
      (Ok tt, emit (LogInfo (asctime s +:+ " - Shotgun Debug | Clarisse engine | "
                               +:+ msg +:+ " ")) s)
    else (Ok tt, s).

(** [traceback.print_exc()] inside an [except] block. *)
Definition print_exc (e : exn) : M State unit :=
  modify (emit (PrintExc e)).

(** The body of the closure [wrapper] of [wrapped], lines 98-110, over the
    variables it closes over.  [try: ... except: raise] re-raises whatever
    the body raises. *)
Definition wrapper {A} (function : args -> M State A) (watcher : nat)
    (post_callback pre_callback : option (nat -> M State unit))
    (a : args) : M State A :=
  try_except
    (let* _ := match pre_callback with
               | Some pre => pre watcher
               | None => ret tt
               end in
     let* result := function a in
     let* _ := match post_callback with
               | Some post => post watcher
               | None => ret tt
               end in
     ret result)
    (fun _ => true)
    (fun e => raise e).

(** [wrapped(function, watcher, post_callback, pre_callback)], lines 96-113:
    the closure, with [_original] set to [function]. *)
Definition wrapped (function : fn) (watcher : nat)
    (post_callback pre_callback : option callback) : fn :=
  Closure function watcher post_callback pre_callback.

Definition SCENE_EVENT_NAMES : list string :=
  ["new_project"; "clear_project"; "import_project"; "load_project";
   "save_project"; "load_startup_scene"].

Definition SCENE_QUIT_EVENT_NAME : string := "quit".

(** [SceneEventWatcher.stop_watching], lines 191-197. *)
Definition stop_watching (self : nat) : M State unit :=
  let* w := get_watcher self in
  let* _ := for_each (__wrapped_fns w) (fun item =>
              let* original := _original item.2 in
              setattr item.1 original) in
  set_wrapped_fns self (fun _ => []).

(** [SceneEventWatcher.start_watching], lines 156-189. *)
Definition start_watching (self : nat) : M State unit :=
  let* _ := stop_watching self in
  let* _ := for_each SCENE_EVENT_NAMES (fun event_name =>
       try_except
         (let* event_fn := getattr event_name in
          let event_fn :=
            wrapped event_fn self (Some scene_event_callback) None in
          let* _ := set_wrapped_fns self (dict_set event_name event_fn) in
          let* _ := setattr event_name event_fn in
          display_debug ("Registered callback on " +:+ event_name +:+ " "))
         (fun _ => true)
         (fun e => print_exc e)) in
  let* event_fn := getattr SCENE_QUIT_EVENT_NAME in
  let event_fn :=
    wrapped event_fn self None (Some clarisse_exiting_callback) in
  let* _ := set_wrapped_fns self (dict_set SCENE_QUIT_EVENT_NAME event_fn) in
  setattr SCENE_QUIT_EVENT_NAME event_fn.

(** [watcher.__cb_fn()]: the user callback runs, and returns or raises. *)
Definition invoke_cb_fn (watcher : nat) : M State unit :=
  let* w := get_watcher watcher in
  fun s =>
    let s' := emit (UserCallback watcher (cb_label (__cb_fn w))
                      (application s)) s in
    match cb_raises (__cb_fn w) with
    | None => (Ok tt, s')
    | Some e => (Raise e, s')
    end.

(** [SceneEventWatcher.__scene_event_callback], lines 199-206. *)
Definition __scene_event_callback (watcher : nat) : M State unit :=
  let* w := get_watcher watcher in
  let* _ := (if __run_once w then stop_watching watcher else ret tt) in
  invoke_cb_fn watcher.

(** [SceneEventWatcher.__clarisse_exiting_callback], lines 208-213. *)
Definition __clarisse_exiting_callback (watcher : nat) : M State unit :=
  stop_watching watcher.

Definition run_callback (c : callback) : nat -> M State unit :=
  match c with
  | scene_event_callback => __scene_event_callback
  | clarisse_exiting_callback => __clarisse_exiting_callback
  end.

(** Calling a callable: a host entry point runs (observably) and returns or
    raises; a closure runs the body of [wrapper]. *)
Fixpoint call (f : fn) (a : args) : M State value :=
  match f with
  | HostFn name behaviour =>
      fun s => (behaviour a, emit (HostCall name a) s)
  | Closure function watcher post_callback pre_callback =>
      wrapper (call function) watcher
        (option_map run_callback post_callback)
        (option_map run_callback pre_callback) a
  end.

(** [SceneEventWatcher.__init__], lines 139-154: the new object, then
    [start_watching()].  The object lives at the next free address. *)
Definition __init__ (cb_fn : callable) (run_once : bool) : M State nat :=
  let* s := get in
  let self := length (watchers s) in
  let* _ := modify (set_watchers
                      (fun ws => ws ++ [Build_watcher cb_fn run_once []])) in
  let* _ := start_watching self in
  ret self.

(** The host (or a script) calls the attribute [name] of [ix.application]
    with the arguments [a]. *)
Definition fire (name : string) (a : args) : M State value :=
  let* f := getattr name in
  call f a.

End Watcher.

(** ** The engine context refresher ([engine.py], lines 216-359) *)

Module Refresh.

(** A toolkit context: compared with [==] and [!=], and read for its
    [project] entity dictionary. *)
Record Context := Build_Context {
  project : string;
  entity : string
}.

#[global] Instance Context_eq_dec : EqDecision Context.
Proof. solve_decision. Defined.

(** The engine object returned by [tank.platform.current_engine()]. *)
Record Engine := Build_Engine {
  context : Context;
  sgtk : string;                    (* the toolkit API instance *)
  _menu_name : string;
  _menu_handle : option string
}.

(** Calls that leave the module, in the order they happen. *)
Inductive action :=
| TankFromPath (path : string)
| ContextFromPath (tk path : string) (previous : Context)
| ContextFromEntityDictionary (tk project : string)
| ChangeContext (ctx : Context)
| MenuGeneratorCreateMenu (menu_handle : string)
| Print (msg : string)
| LogError (msg : string).

Record World := Build_World {
  current_engine : option Engine;       (* tank.platform.current_engine() *)
  current_project_filename : string;    (* ix.application.get_current_project_filename() *)
  is_gui_application : bool;            (* ix.is_gui_application() *)
  main_menu : gmap string string;       (* item path -> script, of
                                           ix.application.get_main_menu() *)
  menu_callbacks : gmap string string;  (* ix.shotgun.menu_callbacks *)
  asctime : string;                     (* time.asctime(time.localtime()) *)
  trace : list action
}.

(** The toolkit and the operating system, as the functions the module
    calls: each returns or raises. *)
Record Toolkit := Build_Toolkit {
  tank_from_path : string -> result string;
  context_from_path : string -> string -> Context -> result Context;
  context_from_entity_dictionary : string -> string -> result Context;
  abspath : string -> string
}.

Definition set_engine (f : Engine -> Engine) (w : World) : World :=
  Build_World (f <$> current_engine w) (current_project_filename w)
    (is_gui_application w) (main_menu w) (menu_callbacks w) (asctime w)
    (trace w).

Definition set_main_menu (f : gmap string string -> gmap string string)
    (w : World) : World :=
  Build_World (current_engine w) (current_project_filename w)
    (is_gui_application w) (f (main_menu w)) (menu_callbacks w) (asctime w)
    (trace w).

Definition set_menu_callbacks (f : gmap string string -> gmap string string)
    (w : World) : World :=
  Build_World (current_engine w) (current_project_filename w)
    (is_gui_application w) (main_menu w) (f (menu_callbacks w)) (asctime w)
    (trace w).

Definition record (a : action) (w : World) : World :=
  Build_World (current_engine w) (current_project_filename w)
    (is_gui_application w) (main_menu w) (menu_callbacks w) (asctime w)
    (trace w ++ [a]).

(** An external call: recorded, then it returns or raises. *)
Definition external {A} (a : action) (r : result A) : M World A :=
  fun w => (r, record a w).

Definition is_TankError (e : exn) : bool :=
  match exc_type e with TankError => true | _ => false end.

(** How ["%s"] prints an exception class. *)
Definition show_class (c : exn_class) : string :=
  match c with
  | AttributeError => "<type 'exceptions.AttributeError'>"
  | NameError => "<type 'exceptions.NameError'>"
  | TankError => "<class 'tank.errors.TankError'>"
  | OtherException name => "<type '" +:+ name +:+ "'>"
  end.

(** A field of the engine the variable [current_engine] points to. *)
Definition engine_field {A} (field : Engine -> A) : M World A :=
  fun w =>
    match current_engine w with
    | Some eng => (Ok (field eng), w)
    | None =>
        (Raise (Exn AttributeError "'NoneType' object has no attribute" []), w)
    end.

(** [current_engine.change_context(ctx)], a method of the toolkit's engine
    base class: the engine takes the new context. *)
Definition change_context (ctx : Context) : M World unit :=
  modify (fun w =>
    record (ChangeContext ctx)
      (set_engine (fun eng =>
         Build_Engine ctx (sgtk eng) (_menu_name eng) (_menu_handle eng)) w)).

(** [display_error(msg)], lines 69-72. *)
Definition display_error (msg : string) : M World unit :=
  fun w =>
    let line := asctime w +:+ " - Shotgun Error | Clarisse engine | "
                  +:+ msg +:+ " " in
    (Ok tt, record (LogError line) (record (Print line) w)).

(** [get_sgtk_root_menu(menu_name)], lines 329-335: the root item, added
    when [get_item] finds none. *)
Definition get_sgtk_root_menu (menu_name : string) : M World string :=
  fun w =>
    let path := menu_name +:+ ">" in
    match main_menu w !! path with
    | Some _ => (Ok path, w)
    | None => (Ok path, set_main_menu (insert path "") w)
    end.

(** [menu.remove_all_commands(path)] of the host: every item under [path]
    goes. *)
Definition remove_all_commands (path : string) : M World unit :=
  modify (set_main_menu
            (filter (fun item => String.prefix path item.1 = false))).

(** [clear_sgtk_menu(menu_name)], lines 318-326.  The root item that
    [get_sgtk_root_menu] returns is an object, hence true. *)
Definition clear_sgtk_menu (menu_name : string) : M World unit :=
  let* w := get in
  if negb (is_gui_application w) then ret tt
  else
    let* _ := get_sgtk_root_menu menu_name in
    let* _ := remove_all_commands (menu_name +:+ ">") in
    modify (set_menu_callbacks (fun _ => ∅)).

Definition disabled_item (menu_name : string) : string :=
  menu_name +:+ ">Sgtk is disabled.".

(** [create_sgtk_disabled_menu(menu_name)], lines 338-352. *)
Definition create_sgtk_disabled_menu (menu_name : string) : M World unit :=
  let* w := get in
  if negb (is_gui_application w) then ret tt
  else
    let* sg_menu := get_sgtk_root_menu menu_name in
    let menu_item := menu_name +:+ ">Sgtk is disabled." in
    let* _ := modify (set_menu_callbacks
                        (insert menu_item "sgtk_disabled_message")) in
    modify (set_main_menu
              (insert (menu_name +:+ ">Sgtk is disabled.")
                 ("ix.shotgun.menu_callbacks[" +:+ menu_item +:+ "]"))).

(** [remove_sgtk_disabled_menu(menu_name)], lines 355-359. *)
Definition remove_sgtk_disabled_menu (menu_name : string) : M World unit :=
  clear_sgtk_menu menu_name.

(** Modelled from the spec: [tk_clarisse.MenuGenerator] is not among the
    sources; its [create_menu()] rebuilds the menu under the handle it is
    given, which is kept here as one recorded call. *)
Definition MenuGenerator_create_menu (menu_handle : string) : M World unit :=
  modify (record (MenuGeneratorCreateMenu menu_handle)).

(** [ClarisseEngine.create_shotgun_menu], lines 585-605; [has_ui] is
    [ix.is_gui_application()], lines 935-944. *)
Definition create_shotgun_menu : M World bool :=
  let* w := get in
  if is_gui_application w then
    let* name := engine_field _menu_name in
    let* handle := get_sgtk_root_menu name in
    let* _ := modify (set_engine (fun eng =>
                Build_Engine (context eng) (sgtk eng) (_menu_name eng)
                  (Some handle))) in
    let* _ := MenuGenerator_create_menu handle in
    ret true
  else ret false.

(** The line feed of the message literals. *)
Definition LF : string := String (Ascii.ascii_of_nat 10) "".

(** The diagnostic built at lines 259-266 from [sys.exc_info()]. *)
Definition cannot_start_message (e : exn) : string :=
  "" +:+ "Shotgun Clarisse Engine cannot be started:." +:+ LF
     +:+ "Please contact you technical support team for more "
     +:+ "information." +:+ LF +:+ LF
     +:+ "Exception: " +:+ show_class (exc_type e) +:+ " - "
     +:+ exc_value e +:+ LF
     +:+ "Traceback (most recent call last):" +:+ LF
     +:+ String.concat LF (exc_traceback e).

Section refresh.

Context (tk_api : Toolkit).

(** [refresh_engine(engine_name, prev_context, menu_name)], lines 221-282.
    The [try] statement yields the context to go on with, or nothing when
    its innermost handler returned. *)
Definition refresh_engine (engine_name : string) (prev_context : Context)
    (menu_name : string) : M World unit :=
  let* w := get in
  match current_engine w with
  | None => ret tt
  | Some _ =>
      let scene_name := current_project_filename w in
      if decide (scene_name = "") then
        let* ctx := engine_field context in
        if decide (prev_context ≠ ctx) then change_context prev_context
        else ret tt
      else
        let new_path := abspath tk_api scene_name in
        let* resolved :=
          try_except
            (let* tk := external (TankFromPath new_path)
                          (tank_from_path tk_api new_path) in
             let* ctx := external (ContextFromPath tk new_path prev_context)
                           (context_from_path tk_api tk new_path prev_context) in
             ret (Some ctx))
            is_TankError
            (fun _ =>
               try_except
                 (let* tk := engine_field sgtk in
                  let* ctx := engine_field context in
                  let* ctx := external
                                (ContextFromEntityDictionary tk (project ctx))
                                (context_from_entity_dictionary tk_api tk
                                   (project ctx)) in
                  ret (Some ctx))
                 is_TankError
                 (fun e =>
                    let message := cannot_start_message e in
                    let* _ := create_sgtk_disabled_menu menu_name in
                    let* _ := display_error message in
                    ret None)) in
        match resolved with
        | None => ret tt
        | Some ctx =>
            let* _ := remove_sgtk_disabled_menu menu_name in
            let* _ := create_shotgun_menu in
            let* current := engine_field context in
            if decide (ctx ≠ current) then change_context ctx else ret tt
        end
  end.

End refresh.

End Refresh.

(** ** The UI pump ([python/tk_clarisse/pyside_clarisse.py]) *)

Module Pump.

(** An instance of [PySideAppClarisseHelper]: the attributes [__init__]
    sets, and the instance attribute [_helper], absent until assigned
    through [self]. *)
Record Helper := Build_Helper {
  app : option string;                (* the QApplication, or None *)
  instance_helper : option (option nat)
}.

Inductive qt_call :=
| ProcessEvents (helper : nat)
| SendPostedEvents (helper : nat).

Record State := Build_State {
  _helper : option nat;            (* the class attribute
                                      PySideAppClarisseHelper._helper *)
  instances : list Helper;         (* helper objects, by address *)
  event_loop_single : list nat;    (* process_events of these helpers is to
                                      run once, on the next idle tick *)
  windows_visible : bool;          (* are_windows_visible() *)
  closing_down : bool;             (* QApplication.closingDown() *)
  qt_calls : list qt_call
}.

(** [ix.application.add_to_event_loop_single(helper.process_events)]. *)
Definition add_to_event_loop_single (helper : nat) : M State unit :=
  modify (fun s =>
    Build_State (_helper s) (instances s) (event_loop_single s ++ [helper])
      (windows_visible s) (closing_down s) (qt_calls s)).

Definition qt (c : qt_call) : M State unit :=
  modify (fun s =>
    Build_State (_helper s) (instances s) (event_loop_single s)
      (windows_visible s) (closing_down s) (qt_calls s ++ [c])).

Definition get_instance (self : nat) : M State Helper :=
  fun s =>
    match instances s !! self with
    | Some h => (Ok h, s)
    | None => (Raise (Exn (OtherException "ReferenceError") "" []), s)
    end.

(** [self._helper = v]: an assignment through the instance writes the
    instance's own attribute. *)
Definition set_instance_helper (self : nat) (v : option nat) : M State unit :=
  modify (fun s =>
    Build_State (_helper s)
      (match instances s !! self with
       | Some h => <[self := Build_Helper (app h) (Some v)]> (instances s)
       | None => instances s
       end)
      (event_loop_single s) (windows_visible s) (closing_down s) (qt_calls s)).

(** [PySideAppClarisseHelper.exec_(app)], lines 18-23. *)
Definition exec_ (application : option string) : M State (option nat) :=
  let* s := get in
  let* _ :=
    match _helper s with
    | Some _ => ret tt
    | None =>
        let self := length (instances s) in
        let* _ := modify (fun s =>
          Build_State (Some self)
            (instances s ++ [Build_Helper application None])
            (event_loop_single s) (windows_visible s) (closing_down s)
            (qt_calls s)) in
        add_to_event_loop_single self
    end in
  let* s := get in
  ret (_helper s).

(** [PySideAppClarisseHelper.process_events], lines 29-38. *)
Definition process_events (self : nat) : M State unit :=
  let* s := get in
  let* h := get_instance self in
  let* _ := if windows_visible s then
              let* _ := qt (ProcessEvents self) in
              match app h with
              | Some _ => qt (SendPostedEvents self)
              | None =>
                  raise (Exn AttributeError
                           "'NoneType' object has no attribute" [])
              end
            else ret tt in
  let* s := get in
  if bool_decide (is_Some (app h)) && negb (closing_down s) then
    add_to_event_loop_single self
  else set_instance_helper self None.

(** One idle tick of the host: every callback registered for a single run
    is taken off the list and run. *)
Definition idle_tick : M State unit :=
  let* s := get in
  let pending := event_loop_single s in
  let* _ := modify (fun s =>
    Build_State (_helper s) (instances s) [] (windows_visible s)
      (closing_down s) (qt_calls s)) in
  for_each pending process_events.

(** The toolkit application starts to shut down. *)
Definition begin_shutdown (s : State) : State :=
  Build_State (_helper s) (instances s) (event_loop_single s)
    (windows_visible s) true (qt_calls s).

Definition initial : State := Build_State None [] [] false false [].

End Pump.

(** ** Startup commands ([engine.py], lines 678-764) *)

Module Startup.

(** An entry of [self.commands]: the app that registered the command
    (the [instance_name] of [properties["app"]], when there is one) and its
    callback. *)
Record Command := Build_Command {
  properties_app : option string;
  callback : string
}.

(** An entry of the [run_at_startup] setting. *)
Record Setting := Build_Setting {
  app_instance : string;
  name : string
}.

Inductive record :=
| Debug (msg : string)
| Warning (msg : string).

Record State := Build_State {
  deferred : list string;    (* callbacks handed to the host for its idle tick *)
  executed : list string;    (* callbacks that ran *)
  logger : list record
}.

Definition log_record (r : record) : M State unit :=
  modify (fun s => Build_State (deferred s) (executed s) (logger s ++ [r])).

(** The names bound at the top level of [engine.py]: its imports
    (lines 13-28), assignments, functions and classes. *)
Definition module_globals : list string :=
  ["os"; "sys"; "time"; "re"; "inspect"; "logging"; "traceback"; "wraps";
   "partial"; "tank"; "LogManager"; "Engine"; "SHOTGUN_ENGINE_NAME"; "ix";
   "pyside_clarisse"; "__author__"; "__contact__"; "show_error";
   "show_warning"; "show_info"; "display_error"; "display_warning";
   "display_info"; "display_debug"; "wrapped"; "SCENE_EVENT_NAMES";
   "SCENE_QUIT_EVENT_NAME"; "SceneEventWatcher"; "refresh_engine";
   "on_scene_event_callback"; "sgtk_disabled_message"; "clear_sgtk_menu";
   "get_sgtk_root_menu"; "create_sgtk_disabled_menu";
   "remove_sgtk_disabled_menu"; "ClarisseEngine"].

(** Reading a global name inside a function of the module: a name the
    module does not bind (and [clarisse], the one name read here, is no
    builtin either) raises NameError. *)
Definition load_global (name : string) : M State unit :=
  if bool_decide (name ∈ module_globals) then ret tt
  else raise (Exn NameError ("name '" +:+ name +:+ "' is not defined") []).

(** [clarisse.utils.executeDeferred(command_function)], lines 734 and 749:
    the name [clarisse] is looked up first; the host then keeps the
    function for its next idle tick. *)
Definition executeDeferred (command_function : string) : M State unit :=
  let* _ := load_global "clarisse" in
  modify (fun s =>
    Build_State (deferred s ++ [command_function]) (executed s) (logger s)).

(** The host's idle tick runs what was deferred. *)
Definition idle_tick (s : State) : State :=
  Build_State [] (executed s ++ deferred s) (logger s).

(** [dict.setdefault(k, {})] followed by [command_dict[name] = f]. *)
Definition add_command (instance_name command_name f : string)
    (d : list (string * list (string * string)))
    : list (string * list (string * string)) :=
  match dict_get instance_name d with
  | Some command_dict =>
      dict_set instance_name (dict_set command_name f command_dict) d
  | None => dict_set instance_name [(command_name, f)] d
  end.

(** The first loop, lines 686-695. *)
Definition build_app_instance_commands (commands : list (string * Command))
    : list (string * list (string * string)) :=
  foldl (fun acc item =>
           match properties_app item.2 with
           | Some instance_name =>
               add_command instance_name item.1 (callback item.2) acc
           | None => acc
           end) [] commands.

Definition known_commands (command_dict : list (string * string)) : string :=
  String.concat ", "
    (map (fun name => "'" +:+ name +:+ "'") (dict_keys command_dict)).

(** [ClarisseEngine._run_app_instance_commands], lines 678-764, for the
    engine [self_name] with the registered [commands] and the value of the
    setting [run_at_startup]. *)
Definition _run_app_instance_commands (self_name : string)
    (commands : list (string * Command)) (run_at_startup : list Setting)
    : M State unit :=
  let app_instance_commands := build_app_instance_commands commands in
  for_each run_at_startup (fun app_setting_dict =>
    let app_instance_name := app_instance app_setting_dict in
    let setting_command_name := name app_setting_dict in
    match dict_get app_instance_name app_instance_commands with
    | None =>
        log_record (Warning
          (self_name +:+ " configuration setting 'run_at_startup'"
             +:+ " requests app '" +:+ app_instance_name
             +:+ "' that is not installed."))
    | Some command_dict =>
        if decide (setting_command_name = "") then
          for_each command_dict (fun item =>
            let* _ := log_record (Debug
              (self_name +:+ " startup running app '" +:+ app_instance_name
                 +:+ "' command '" +:+ item.1 +:+ "'.")) in
            executeDeferred item.2)
        else
          match dict_get setting_command_name command_dict with
          | Some command_function =>
              let* _ := log_record (Debug
                (self_name +:+ " startup running app '" +:+ app_instance_name
                   +:+ "' command '" +:+ setting_command_name +:+ "'.")) in
              executeDeferred command_function
          | None =>
              log_record (Warning
                (self_name +:+ " configuration setting 'run_at_startup' "
                   +:+ "requests app '" +:+ app_instance_name
                   +:+ "' unknown command '" +:+ setting_command_name
                   +:+ "'. " +:+ "Known commands: "
                   +:+ known_commands command_dict))
          end
    end).

End Startup.

(** ** Vocabulary of the statements about the watcher *)

Module WatcherSpec.
Import Watcher.

(** How many closures made for [watcher] a callable is wrapped in. *)
Fixpoint layers (watcher : nat) (f : fn) : nat :=
  match f with
  | HostFn _ _ => 0
  | Closure function w _ _ =>
      (if decide (w = watcher) then 1 else 0) + layers watcher function
  end.

(** The entry points [start_watching] patches. *)
Definition WATCHED : list string :=
  SCENE_EVENT_NAMES ++ [SCENE_QUIT_EVENT_NAME].

(** The closure [start_watching] makes for the entry point [name]. *)
Definition wrap_for (self : nat) (name : string) (f : fn) : fn :=
  if decide (name = SCENE_QUIT_EVENT_NAME)
  then wrapped f self None (Some clarisse_exiting_callback)
  else wrapped f self (Some scene_event_callback) None.

(** The attribute [name] of a host whose unpatched attributes are [base],
    once [self] has patched every watched entry point the host exposes. *)
Definition patched (self : nat) (base : gmap string fn) (name : string)
    : option fn :=
  if decide (name ∈ WATCHED) then wrap_for self name <$> base !! name
  else base !! name.

(** The attribute [name] is, now, a closure made for [self]. *)
Definition patched_by (self : nat) (s : State) (name : string) : Prop :=
  ∃ f post pre, application s !! name = Some (Closure f self post pre).

(** The table [__wrapped_fns] of the watcher at [self]. *)
Definition table (self : nat) (s : State) : list (string * fn) :=
  match watchers s !! self with
  | Some w => __wrapped_fns w
  | None => []
  end.

Inductive op := Start | Stop.

Definition run_op (self : nat) (o : op) : M State unit :=
  match o with
  | Start => start_watching self
  | Stop => stop_watching self
  end.

(** A sequence of calls; what a call raises goes to its caller, and the
    next call finds the store as the previous one left it. *)
Definition run_ops (self : nat) (ops : list op) (s : State) : State :=
  foldl (fun s o => exec (run_op self o) s) s ops.

(** A sequence of host lifecycle events, each with its arguments. *)
Definition fire_all (events : list (string * args)) (s : State) : State :=
  foldl (fun s ev => exec (fire ev.1 ev.2) s) s events.

(** The entries of the log in which the callback of [watcher] ran. *)
Definition is_run_of (watcher : nat) (e : entry) : bool :=
  match e with
  | UserCallback w _ _ => bool_decide (w = watcher)
  | _ => false
  end.

Definition callback_runs (watcher : nat) (l : list entry) : list entry :=
  List.filter (is_run_of watcher) l.

Definition runs (self : nat) (s : State) : list entry :=
  callback_runs self (log s).

(** The table of [self] and the host agree: every entry of the table is the
    closure over the unpatched attribute, and an attribute is the table's
    entry if there is one and the unpatched attribute otherwise. *)
Definition consistent (self : nat) (base : gmap string fn) (s : State)
    : Prop :=
  is_Some (watchers s !! self) ∧
  (∀ n f, (n, f) ∈ table self s →
     ∃ f0, base !! n = Some f0 ∧ f = wrap_for self n f0) ∧
  (∀ n, application s !! n =
        match dict_get n (table self s) with
        | Some f => Some f
        | None => base !! n
        end).

(** The restoring loop of [stop_watching] on a table of closures. *)
Definition restore (tbl : list (string * fn)) (m : gmap string fn)
    : gmap string fn :=
  foldl (fun m item =>
           match item.2 with
           | Closure f0 _ _ _ => <[item.1 := f0]> m
           | HostFn _ _ => m
           end) m tbl.

(** The store [stop_watching] leaves: the unpatched host, an empty table. *)
Definition stopped (self : nat) (base : gmap string fn) (s : State) : State :=
  Build_State base
    (match watchers s !! self with
     | Some w =>
         <[self := Build_watcher (__cb_fn w) (__run_once w) []]> (watchers s)
     | None => watchers s
     end) (environ s) (asctime s) (log s).

(** Only the table of [self] differs between the watchers of two stores. *)
Definition retabled (self : nat) (s s' : State) : Prop :=
  ∃ w tbl', watchers s !! self = Some w ∧
    watchers s'
    = <[self := Build_watcher (__cb_fn w) (__run_once w) tbl']> (watchers s).

(** The store in which [__init__] calls [start_watching]. *)
Definition allocated (cb_fn : callable) (run_once : bool) (s : State)
    : State :=
  set_watchers (fun ws => ws ++ [Build_watcher cb_fn run_once []]) s.

(** Nothing in the store refers to the watcher about to be made. *)
Definition fresh_for (self : nat) (s : State) : Prop :=
  map_Forall (fun _ f => layers self f = 0) (application s) ∧
  (∀ i w, watchers s !! i = Some w →
     ∀ n f, (n, f) ∈ __wrapped_fns w → layers self f = 0).

(** The invariant of a [run_once] watcher under host events: its table
    holds closures over callables that do not refer to it, no other
    watcher's table refers to it, and a host attribute that refers to it is
    an entry of its table. *)
Definition armed (self : nat) (s : State) : Prop :=
  (∃ w, watchers s !! self = Some w ∧ __run_once w = true) ∧
  (∀ n f, (n, f) ∈ table self s →
     ∃ f0, f = wrap_for self n f0 ∧ layers self f0 = 0) ∧
  (∀ i w, i ≠ self → watchers s !! i = Some w →
     ∀ n f, (n, f) ∈ __wrapped_fns w → layers self f = 0) ∧
  (∀ n f, application s !! n = Some f →
     layers self f = 0 ∨ (n, f) ∈ table self s).

(** The watcher is stopped and the host holds no closure of it. *)
Definition unpatched (self : nat) (s : State) : Prop :=
  table self s = [] ∧
  map_Forall (fun _ f => layers self f = 0) (application s).

(** A step in which the callback of [self] does not run. *)
Definition quiet_step (self : nat) (s s' : State) : Prop :=
  armed self s →
  armed self s' ∧ (unpatched self s → unpatched self s') ∧
  runs self s' = runs self s.

(** A step in which the callback of [self] runs at most once, and if it
    runs, on a host the watcher has left. *)
Definition event_step (self : nat) (s s' : State) : Prop :=
  armed self s →
  armed self s' ∧
  (unpatched self s → unpatched self s' ∧ runs self s' = runs self s) ∧
  (runs self s' = runs self s ∨
   ∃ label attrs,
     runs self s' = runs self s ++ [UserCallback self label attrs] ∧
     map_Forall (fun _ f => layers self f = 0) attrs ∧
     unpatched self s').

Definition quiet {A} (self : nat) (m : M State A) : Prop :=
  ∀ s, quiet_step self s (exec m s).

(** The callback has not run since the log read [before], or it ran once,
    on a host without a closure of [self], and the watcher is stopped. *)
Definition at_most_once (self : nat) (before : list entry) (s : State)
    : Prop :=
  runs self s = before ∨
  ∃ label attrs,
    runs self s = before ++ [UserCallback self label attrs] ∧
    map_Forall (fun _ f => layers self f = 0) attrs ∧
    unpatched self s.

(** A host with every watched entry point, one without [quit], and one
    without [load_startup_scene]. *)
Definition host_fn (name : string) : fn := HostFn name (fun _ => Ok name).

Definition full_host : gmap string fn :=
  list_to_map (map (fun n => (n, host_fn n)) WATCHED).

Definition host_without_quit : gmap string fn :=
  list_to_map (map (fun n => (n, host_fn n)) SCENE_EVENT_NAMES).

Definition host_without_startup_scene : gmap string fn :=
  delete "load_startup_scene" full_host.

Definition session (host : gmap string fn) : State :=
  Build_State host [] ∅ "Tue Nov  3 10:00:00 2026" [].

Definition a_callback : callable := Callable "on_scene_event_callback" None.

(** A host entry point that fails, and a user callback that fails. *)
Definition disk_error : exn :=
  Exn (OtherException "RuntimeError") "cannot read the project file" [].

Definition failing_load : fn := HostFn "load_project" (fun _ => Raise disk_error).

Definition failing_callback : callable :=
  Callable "on_scene_event_callback" (Some disk_error).

End WatcherSpec.

(** ** Vocabulary of the statements about the context refresher *)

Module RefreshSpec.
Import Refresh.

(** Lines 250-252 as one outcome, and the calls made on the way. *)
Definition path_resolution (tk_api : Toolkit) (path : string)
    (prev_context : Context) : result Context :=
  match tank_from_path tk_api path with
  | Ok tk => context_from_path tk_api tk path prev_context
  | Raise e => Raise e
  end.

Definition path_actions (tk_api : Toolkit) (path : string)
    (prev_context : Context) : list action :=
  TankFromPath path ::
  match tank_from_path tk_api path with
  | Ok tk => [ContextFromPath tk path prev_context]
  | Raise _ => []
  end.

(** Lines 255-257 as one outcome, and the call made. *)
Definition fallback_resolution (tk_api : Toolkit) (eng : Engine)
    : result Context :=
  context_from_entity_dictionary tk_api (sgtk eng) (project (context eng)).

Definition fallback_action (eng : Engine) : action :=
  ContextFromEntityDictionary (sgtk eng) (project (context eng)).

(** The try statement of lines 249-272 as one outcome: the context to go
    on with, or the TankError of the fallback. *)
Definition resolution (tk_api : Toolkit) (eng : Engine) (path : string)
    (prev_context : Context) : result Context :=
  match path_resolution tk_api path prev_context with
  | Ok ctx => Ok ctx
  | Raise e =>
      if is_TankError e then fallback_resolution tk_api eng else Raise e
  end.

Definition resolution_actions (tk_api : Toolkit) (eng : Engine) (path : string)
    (prev_context : Context) : list action :=
  path_actions tk_api path prev_context ++
  match path_resolution tk_api path prev_context with
  | Ok _ => []
  | Raise e => if is_TankError e then [fallback_action eng] else []
  end.

(** The line [display_error] prints and logs. *)
Definition error_line (w : World) (msg : string) : string :=
  asctime w +:+ " - Shotgun Error | Clarisse engine | " +:+ msg +:+ " ".

(** The world after the calls [l]. *)
Definition after_calls (l : list action) (w : World) : World :=
  Build_World (current_engine w) (current_project_filename w)
    (is_gui_application w) (main_menu w) (menu_callbacks w) (asctime w)
    (trace w ++ l).

(** The contexts handed to [change_context], and the handles handed to the
    menu generator, in a trace. *)
Definition context_changes (l : list action) : list Context :=
  omap (fun a => match a with ChangeContext ctx => Some ctx | _ => None end) l.

Definition menu_builds (l : list action) : list string :=
  omap (fun a =>
          match a with MenuGeneratorCreateMenu h => Some h | _ => None end) l.

(** The main menu once [get_sgtk_root_menu(menu_name)] has run. *)
Definition with_root (menu_name : string) (m : gmap string string)
    : gmap string string :=
  match m !! (menu_name +:+ ">") with
  | Some _ => m
  | None => <[menu_name +:+ ">" := ""]> m
  end.

Fixpoint last_char (s : string) : option Ascii.ascii :=
  match s with
  | EmptyString => None
  | String c EmptyString => Some c
  | String _ s' => last_char s'
  end.

(** A session on a file no pipeline installation knows. *)
Definition a_context : Context := Build_Context "Project 65" "Shot 010".

Definition an_engine : Engine :=
  Build_Engine a_context "tk:/pipeline/project65" "Shotgun" None.

Definition unknown_file_error : exn :=
  Exn TankError "The path is not associated with any Shotgun object."
    ["  File tank/api.py, line 190, in context_from_path"].

Definition no_toolkit : Toolkit :=
  Build_Toolkit (fun _ => Raise unknown_file_error)
    (fun _ _ _ => Raise unknown_file_error)
    (fun _ _ => Raise unknown_file_error)
    (fun p => p).

(** The toolkit resolves every path to the context of the session. *)
Definition same_toolkit : Toolkit :=
  Build_Toolkit (fun _ => Ok "tk:/pipeline/project65")
    (fun _ _ _ => Ok a_context)
    (fun _ _ => Ok a_context)
    (fun p => p).

Definition world (gui : bool) (filename : string) : World :=
  Build_World (Some an_engine) filename gui ∅ ∅
    "Tue Nov  3 10:00:00 2026" [].

(** The menu after [remove_sgtk_disabled_menu] and [create_shotgun_menu]. *)
Definition rebuilt (menu_name name : string) (m : gmap string string)
    : gmap string string :=
  with_root name
    (filter (fun item => String.prefix (menu_name +:+ ">") item.1 = false)
       (with_root menu_name m)).

(** The engine with another menu handle. *)
Definition with_handle (handle : option string) (eng : Engine) : Engine :=
  Build_Engine (context eng) (sgtk eng) (_menu_name eng) handle.

(** The world a refresh leaves when the resolved context is the current
    one. *)
Definition refreshed (tk_api : Toolkit) (prev_context : Context)
    (menu_name : string) (eng : Engine) (w : World) : World :=
  let path := abspath tk_api (current_project_filename w) in
  let calls := resolution_actions tk_api eng path prev_context in
  if is_gui_application w then
    Build_World
      (Some (with_handle (Some (_menu_name eng +:+ ">")) eng))
      (current_project_filename w) true
      (rebuilt menu_name (_menu_name eng) (main_menu w)) ∅ (asctime w)
      (trace w ++ calls ++ [MenuGeneratorCreateMenu (_menu_name eng +:+ ">")])
  else after_calls calls w.

End RefreshSpec.

(** ** Vocabulary of the statements about the UI pump and the startup
       commands *)

Module PumpSpec.
Import Pump.

(** A session: the first dialog starts the pump, the host idles once, the
    toolkit application begins to shut down, the host idles again. *)
Definition after_shutdown : State :=
  exec idle_tick
    (begin_shutdown
       (exec idle_tick (exec (exec_ (Some "QApplication")) initial))).

End PumpSpec.

Module StartupSpec.
Import Startup.

(** The commands [{A: {cmd1, cmd2}, B: {cmd3}}] and the setting
    [[{A, ""}, {B, "cmd3"}]]. *)
Definition registered : list (string * Command) :=
  [("cmd1", Build_Command (Some "A") "run_cmd1");
   ("cmd2", Build_Command (Some "A") "run_cmd2");
   ("cmd3", Build_Command (Some "B") "run_cmd3")].

Definition run_at_startup : list Setting :=
  [Build_Setting "A" ""; Build_Setting "B" "cmd3"].

Definition idle : State := Build_State [] [] [].

(** A computation that hands nothing to the host and runs nothing. *)
Definition defers_nothing {A} (m : M State A) : Prop :=
  ∀ s, deferred (exec m s) = deferred s ∧ executed (exec m s) = executed s.

End StartupSpec.

(** ** Several watchers, and a watcher that stays ([engine.py], lines
       128-213, as [init_engine] and [post_context_change] use them) *)

Module WatcherUse.
Import Watcher WatcherSpec.

(** Watchers made one after the other and stopped in the reverse order:
    each [stop_watching] follows the whole life of the watchers made after
    its own. *)
Fixpoint nested (l : list (callable * bool)) (s : State) : State :=
  match l with
  | [] => s
  | (cb_fn, run_once) :: l' =>
      let self := length (watchers s) in
      exec (stop_watching self) (nested l' (exec (__init__ cb_fn run_once) s))
  end.

(** Two watchers made one after the other and stopped in the order they
    were made. *)
Definition crossed (cb1 cb2 : callable) (ro1 ro2 : bool) (s : State) : State :=
  let first := length (watchers s) in
  let second := S first in
  exec (stop_watching second)
    (exec (stop_watching first)
       (exec (__init__ cb2 ro2) (exec (__init__ cb1 ro1) s))).

(** A host whose attributes are its own entry points. *)
Definition unpatched_host (base : gmap string fn) : Prop :=
  map_Forall (fun _ f => ∃ name behaviour, f = HostFn name behaviour) base.

(** The scene event [ev] names a scene entry point the host has, and the
    host's function returns on its arguments. *)
Definition scene_event_returns (base : gmap string fn) (ev : string * args)
    : bool :=
  bool_decide (ev.1 ∈ SCENE_EVENT_NAMES) &&
  match base !! ev.1 with
  | Some (HostFn _ behaviour) =>
      match behaviour ev.2 with Ok _ => true | Raise _ => false end
  | _ => false
  end.

(** How often the callback of a watcher that is not [run_once] is due
    over [events]: once for each scene event that returns, up to the first
    [quit] the host has. *)
Fixpoint expected_runs (base : gmap string fn) (events : list (string * args))
    : nat :=
  match events with
  | [] => 0
  | ev :: rest =>
      if decide (ev.1 = SCENE_QUIT_EVENT_NAME) then
        match base !! SCENE_QUIT_EVENT_NAME with
        | Some _ => 0
        | None => expected_runs base rest
        end
      else
        (if scene_event_returns base ev then 1 else 0) + expected_runs base rest
  end.

(** [quit] was called, on a host that has it. *)
Definition has_quit (base : gmap string fn) (events : list (string * args))
    : bool :=
  bool_decide (is_Some (base !! SCENE_QUIT_EVENT_NAME)) &&
  bool_decide (SCENE_QUIT_EVENT_NAME ∈ events.*1).

(** What the constructor logs for the scene entry point [name]. *)
Definition registration_log (s : State) (name : string) : list entry :=
  match application s !! name with
  | Some _ =>
      if decide (environ s !! "TK_DEBUG" = Some "1") then
        [LogInfo (asctime s +:+ " - Shotgun Debug | Clarisse engine | "
                    +:+ ("Registered callback on " +:+ name +:+ " ") +:+ " ")]
      else []
  | None => [PrintExc (attribute_error name)]
  end.

(** A host on which loading a project fails. *)
Definition flaky_host : gmap string fn :=
  <["load_project" := failing_load]> full_host.

End WatcherUse.

(** ** The scene-event callback and the message boxes ([engine.py],
       lines 40-62 and 285-315) *)

Module Callback.
Import Refresh.

(** A call of [ix.application.message_box(msg, title, cancel, STYLE_OK)]. *)
Record message_box := Build_message_box {
  message : string;
  title : string
}.

(** The world of [refresh_engine], and the boxes shown to the user. *)
Record Host := Build_Host {
  host_world : World;
  message_boxes : list message_box
}.

Definition lift {A} (m : M World A) : M Host A :=
  fun h =>
    match m (host_world h) with
    | (r, w) => (r, Build_Host w (message_boxes h))
    end.

Definition application_message_box (msg title : string) : M Host unit :=
  modify (fun h =>
    Build_Host (host_world h) (message_boxes h ++ [Build_message_box msg title])).

(** [show_error(msg)], lines 40-47. *)
Definition show_error (msg : string) : M Host unit :=
  let* _ := lift (modify (record
              (Print ("Shotgun Error | Clarisse engine | " +:+ msg +:+ " ")))) in
  application_message_box msg "Shotgun Error | Clarisse engine".

(** [show_warning(msg)], lines 50-56. *)
Definition show_warning (msg : string) : M Host unit :=
  application_message_box msg "Shotgun Warning | Clarisse engine".

(** [show_info(msg)], lines 59-65. *)
Definition show_info (msg : string) : M Host unit :=
  application_message_box msg "Shotgun Info | Clarisse engine".

(** The message built at lines 293-301 from [sys.exc_info()]. *)
Definition context_problem_message (e : exn) : string :=
  "" +:+ "Message: Shotgun encountered a problem changing the "
     +:+ "Engine's context." +:+ LF
     +:+ "Please contact you technical support team for more "
     +:+ "information." +:+ LF +:+ LF
     +:+ "Exception: " +:+ show_class (exc_type e) +:+ " - "
     +:+ exc_value e +:+ LF
     +:+ "Traceback (most recent call last):" +:+ LF
     +:+ String.concat LF (exc_traceback e).

(** The [try ... except Exception] statement of lines 289-302 around a
    body: whatever the body raises is reported with [show_error]. *)
Definition report_exception (body : M Host unit) : M Host unit :=
  try_except body (fun _ => true)
    (fun e => show_error (context_problem_message e)).

(** [on_scene_event_callback(engine_name, prev_context, menu_name)],
    lines 285-302. *)
Definition on_scene_event_callback (tk_api : Toolkit) (engine_name : string)
    (prev_context : Context) (menu_name : string) : M Host unit :=
  report_exception
    (lift (refresh_engine tk_api engine_name prev_context menu_name)).

(** [sgtk_disabled_message()], lines 305-315. *)
Definition sgtk_disabled_message : M Host unit :=
  show_warning
    ("Shotgun integration is disabled because it cannot recognize "
       +:+ "the currently opened file.  Try opening another file or restarting "
       +:+ "Clarisse.").

End Callback.

(** ** Vocabulary of further statements about the context refresher *)

Module RefreshUse.
Import Refresh RefreshSpec.

(** The host opens, or saves, the scene as [filename]. *)
Definition open_scene (filename : string) (w : World) : World :=
  Build_World (current_engine w) filename (is_gui_application w)
    (main_menu w) (menu_callbacks w) (asctime w) (trace w).

(** The world a refresh leaves when the resolution yields [ctx]. *)
Definition resolved (tk_api : Toolkit) (prev_context : Context)
    (menu_name : string) (eng : Engine) (ctx : Context) (w : World) : World :=
  let w1 := refreshed tk_api prev_context menu_name eng w in
  if decide (ctx = context eng) then w1 else exec (change_context ctx) w1.

(** The world a refresh leaves when the fallback raised the TankError [e]. *)
Definition unresolved (tk_api : Toolkit) (prev_context : Context)
    (menu_name : string) (eng : Engine) (e : exn) (w : World) : World :=
  let path := abspath tk_api (current_project_filename w) in
  let line := error_line w (cannot_start_message e) in
  Build_World (Some eng) (current_project_filename w) (is_gui_application w)
    (if is_gui_application w then
       <[disabled_item menu_name :=
           "ix.shotgun.menu_callbacks[" +:+ disabled_item menu_name +:+ "]"]>
         (with_root menu_name (main_menu w))
     else main_menu w)
    (if is_gui_application w then
       <[disabled_item menu_name := "sgtk_disabled_message"]> (menu_callbacks w)
     else menu_callbacks w)
    (asctime w)
    (trace w ++ resolution_actions tk_api eng path prev_context
       ++ [Print line; LogError line]).

(** A toolkit that knows the files under [/jobs/]. *)
Definition jobs_toolkit : Toolkit :=
  Build_Toolkit
    (fun path => if String.prefix "/jobs/" path then Ok "tk:/pipeline/project65"
                 else Raise unknown_file_error)
    (fun _ _ _ => Ok (Build_Context "Project 65" "Shot 020"))
    (fun _ _ => Raise unknown_file_error)
    (fun p => p).

(** A toolkit whose database cannot be reached. *)
Definition connection_error : exn :=
  Exn (OtherException "socket.error") "Connection refused" [].

Definition offline_toolkit : Toolkit :=
  Build_Toolkit (fun _ => Raise connection_error)
    (fun _ _ _ => Raise connection_error)
    (fun _ _ => Raise connection_error)
    (fun p => p).

End RefreshUse.

(** ** Vocabulary of further statements about the UI pump and the startup
       commands *)

Module PumpUse.
Import Pump.


(** [n] idle ticks of the host. *)
Definition ticks (n : nat) (s : State) : State :=
  Nat.iter n (exec idle_tick) s.

(** What [n] runs of [process_events] of the helper [self] ask of Qt while
    a window is visible. *)
Definition rounds (n : nat) (self : nat) : list qt_call :=
  concat (replicate n [ProcessEvents self; SendPostedEvents self]).

End PumpUse.

Module StartupUse.
Import Startup.

(** The commands the app [instance_name] registered, in the order of
    registration. *)
Definition commands_of (instance_name : string)
    (commands : list (string * Command)) : list (string * string) :=
  omap (fun item =>
          if decide (properties_app item.2 = Some instance_name)
          then Some (item.1, callback item.2) else None) commands.

(** The setting names a command that is registered: with no command name,
    any command of the app; otherwise that command of the app. *)
Definition selects (commands : list (string * Command)) (setting : Setting)
    : bool :=
  match dict_get (app_instance setting) (build_app_instance_commands commands)
  with
  | None => false
  | Some command_dict =>
      if decide (name setting = "") then
        match command_dict with [] => false | _ :: _ => true end
      else bool_decide (is_Some (dict_get (name setting) command_dict))
  end.

(** The warning logged for a setting that selects nothing. *)
Definition warning_for (self_name : string)
    (commands : list (string * Command)) (setting : Setting) : record :=
  match dict_get (app_instance setting) (build_app_instance_commands commands)
  with
  | None =>
      Warning (self_name +:+ " configuration setting 'run_at_startup'"
                 +:+ " requests app '" +:+ app_instance setting
                 +:+ "' that is not installed.")
  | Some command_dict =>
      Warning (self_name +:+ " configuration setting 'run_at_startup' "
                 +:+ "requests app '" +:+ app_instance setting
                 +:+ "' unknown command '" +:+ name setting
                 +:+ "'. " +:+ "Known commands: "
                 +:+ known_commands command_dict)
  end.

(** The command a selecting setting asks for first. *)
Definition first_command (commands : list (string * Command))
    (setting : Setting) : string :=
  match dict_get (app_instance setting) (build_app_instance_commands commands)
  with
  | Some ((command_name, _) :: _) =>
      if decide (name setting = "") then command_name else name setting
  | _ => name setting
  end.

(** The debug line logged before a command is handed to the host. *)
Definition running_line (self_name : string)
    (commands : list (string * Command)) (setting : Setting) : record :=
  Debug (self_name +:+ " startup running app '" +:+ app_instance setting
           +:+ "' command '" +:+ first_command commands setting +:+ "'.").

(** The commands of a session with two apps, one command without app, and
    settings that name an app that is not installed and a command that is
    not registered. *)
Definition session_commands : list (string * Command) :=
  [("Publish...", Build_Command (Some "tk-multi-publish2") "show_publish");
   ("Jump to Shotgun", Build_Command None "jump_to_sg");
   ("File Open...", Build_Command (Some "tk-multi-workfiles2") "show_file_open");
   ("File Save...", Build_Command (Some "tk-multi-workfiles2") "show_file_save")].

Definition stale_settings : list Setting :=
  [Build_Setting "tk-multi-loader2" "";
   Build_Setting "tk-multi-workfiles2" "Change Context..."].

End StartupUse.

(** ** Log messages in the script editor ([engine.py], lines 69-90 and
       949-984) *)

Module Logging.

(** A [logging.LogRecord], as far as the formatter reads it: [message] is
    [record.getMessage()], [exc_text] the text of the exception the record
    carries ([formatException(record.exc_info)], or the cached
    [record.exc_text]) and [stack_info] its stack, each empty when the
    record has none. *)
Record LogRecord := Build_LogRecord {
  levelno : Z;
  basename : string;
  message : string;
  exc_text : string;
  stack_info : string
}.

(** What reaches the script editor and the standard output. *)
Inductive output :=
| Print (line : string)
| LogError (line : string)
| LogWarning (line : string)
| LogInfo (line : string).

Record State := Build_State {
  environ : gmap string string;   (* os.environ *)
  asctime : string;               (* time.asctime(time.localtime()) *)
  out : list output
}.

Definition write (o : output) : M State unit :=
  modify (fun s => Build_State (environ s) (asctime s) (out s ++ [o])).

(** [display_error(msg)], lines 69-72. *)
Definition display_error (msg : string) : M State unit :=
  let* s := get in
  let line := asctime s +:+ " - Shotgun Error | Clarisse engine | "
                +:+ msg +:+ " " in
  let* _ := write (Print line) in
  write (LogError line).

(** [display_warning(msg)], lines 75-79. *)
Definition display_warning (msg : string) : M State unit :=
  let* s := get in
  write (LogWarning (asctime s +:+ " - Shotgun Warning | Clarisse engine | "
                       +:+ msg +:+ " ")).

(** [display_info(msg)], lines 82-84. *)
Definition display_info (msg : string) : M State unit :=
  let* s := get in
  write (LogInfo (asctime s +:+ " - Shotgun Info | Clarisse engine | "
                    +:+ msg +:+ " ")).

(** [display_debug(msg)], lines 87-90. *)
Definition display_debug (msg : string) : M State unit :=
  let* s := get in
  if decide (environ s !! "TK_DEBUG" = Some "1") then
    write (LogInfo (asctime s +:+ " - Shotgun Debug | Clarisse engine | "
                      +:+ msg +:+ " "))
  else ret tt.

(** The levels of the module [logging]. *)
Definition INFO : Z := 20.
Definition WARNING : Z := 30.
Definition ERROR : Z := 40.

(** [s[-1:] == "\n"]. *)
Fixpoint ends_with_LF (s : string) : bool :=
  match s with
  | EmptyString => false
  | String c EmptyString => bool_decide (c = Ascii.ascii_of_nat 10)
  | String _ rest => ends_with_LF rest
  end.

(** What [Formatter.format] does with a text it finds on the record: the
    text goes on a line of its own. *)
Definition append_text (s text : string) : string :=
  if decide (text = EmptyString) then s
  else (if ends_with_LF s then s else s +:+ Refresh.LF) +:+ text.

(** [logging.Formatter(fmt).format(record)] for the two formats used: the
    format string filled in, then the exception text and the stack, if
    any. *)
Definition format (prefix : string) (record : LogRecord) : string :=
  let s := prefix +:+ "Shotgun " +:+ basename record +:+ ": "
             +:+ message record in
  append_text (append_text s (exc_text record)) (stack_info record).

(** [ClarisseEngine._emit_log_message(handler, record)], lines 949-984;
    [async_execute_in_main_thread(fct, msg)] calls [fct(msg)]. *)
Definition _emit_log_message (record : LogRecord) : M State unit :=
  let msg :=
    if (levelno record <? INFO)%Z then format "Debug: " record
    else format "" record in
  let fct :=
    if (ERROR <=? levelno record)%Z then display_error
    else if (WARNING <=? levelno record)%Z then display_warning
    else if (INFO <=? levelno record)%Z then display_info
    else display_debug in
  fct msg.

End Logging.

(** ** Closing the windows of the engine ([engine.py], lines 989-1011) *)

Module Windows.

(** A dialog made by the toolkit: its title, and what [close()] does. *)
Record Dialog := Build_Dialog {
  windowTitle : string;
  close_raises : option exn
}.

Inductive entry :=
| LoggerDebug (msg : string)
| LoggerError (msg : string)
| PrintExc (e : exn)
| Closed (dialog : nat).

Record State := Build_State {
  dialogs : list Dialog;            (* dialog objects, by address *)
  created_qt_dialogs : list nat;    (* the list the toolkit keeps *)
  log : list entry
}.

Definition emit (e : entry) : M State unit :=
  modify (fun s => Build_State (dialogs s) (created_qt_dialogs s) (log s ++ [e])).

Definition get_dialog (dialog : nat) : M State Dialog :=
  fun s =>
    match dialogs s !! dialog with
    | Some d => (Ok d, s)
    | None => (Raise (Exn (OtherException "RuntimeError")
                        "Internal C++ object already deleted." []), s)
    end.

(** [list.remove(x)]: the first occurrence goes. *)
Fixpoint list_remove (x : nat) (l : list nat) : list nat :=
  match l with
  | [] => []
  | y :: l' => if decide (x = y) then l' else y :: list_remove x l'
  end.

(** [dialog.close()]: it raises, or the dialog closes and its close
    callback takes it off [created_qt_dialogs]. *)
Definition close (dialog : nat) : M State unit :=
  let* d := get_dialog dialog in
  match close_raises d with
  | Some e => raise e
  | None =>
      let* _ := emit (Closed dialog) in
      modify (fun s =>
        Build_State (dialogs s) (list_remove dialog (created_qt_dialogs s))
          (log s))
  end.

(** [ClarisseEngine.close_windows], lines 989-1011. *)
Definition close_windows : M State unit :=
  let* s := get in
  let opened_dialog_list := created_qt_dialogs s in
  for_each opened_dialog_list (fun dialog =>
    let* d := get_dialog dialog in
    let dialog_window_title := windowTitle d in
    try_except
      (let* _ := emit (LoggerDebug
                         ("Closing dialog " +:+ dialog_window_title +:+ ".")) in
       close dialog)
      (fun _ => true)
      (fun exception =>
         let* _ := emit (PrintExc exception) in
         emit (LoggerError ("Cannot close dialog " +:+ dialog_window_title
                              +:+ ": " +:+ exc_value exception)))).

(** The dialog at [dialog] closes without raising. *)
Definition closes (s : State) (dialog : nat) : bool :=
  match dialogs s !! dialog with
  | Some d => match close_raises d with None => true | Some _ => false end
  | None => false
  end.

(** What [close_windows] writes for one dialog. *)
Definition closing_log (s : State) (dialog : nat) : list entry :=
  match dialogs s !! dialog with
  | Some d =>
      LoggerDebug ("Closing dialog " +:+ windowTitle d +:+ ".") ::
      match close_raises d with
      | None => [Closed dialog]
      | Some e =>
          [PrintExc e;
           LoggerError ("Cannot close dialog " +:+ windowTitle d +:+ ": "
                          +:+ exc_value e)]
      end
  | None => []
  end.

(** Three dialogs, the second of which cannot be closed. *)
Definition stuck : exn :=
  Exn (OtherException "RuntimeError") "wrapped C/C++ object has been deleted" [].

Definition three_dialogs : State :=
  Build_State
    [Build_Dialog "Publish" None; Build_Dialog "Loader" (Some stuck);
     Build_Dialog "File Open" None]
    [0; 1; 2] [].

End Windows.

(** ** The engine class ([engine.py], lines 366-944) *)

Module ClarisseEngine.

(** *** Values of Python the class computes with *)

(** A Python [float]: a double, by its value. *)
Inductive pyfloat :=
| Finite (q : QArith_base.Q)
| PosInf
| NegInf
| NaN.

(** [a < b] on floats; every comparison with NaN is false. *)
Definition float_lt (a b : pyfloat) : bool :=
  match a, b with
  | NaN, _ | _, NaN => false
  | Finite x, Finite y => negb (QArith_base.Qle_bool y x)
  | NegInf, NegInf => false
  | NegInf, _ => true
  | _, NegInf => false
  | PosInf, _ => false
  | Finite _, PosInf => true
  end.

(** The literals [3.6], the double next to it, and [5.0]. *)
Definition float_3_6 : pyfloat :=
  Finite (QArith_base.Qmake 8106479329266893 2251799813685248).

Definition float_5_0 : pyfloat := Finite (QArith_base.Qmake 5 1).

(** [s.split(sep)] for a separator of one character. *)
Fixpoint split (sep : Ascii.ascii) (s : string) : list string :=
  match s with
  | EmptyString => [""]
  | String c s' =>
      if Ascii.ascii_dec c sep then "" :: split sep s'
      else
        match split sep s' with
        | x :: xs => String c x :: xs
        | [] => [String c ""]
        end
  end.

Definition dot : Ascii.ascii := Ascii.ascii_of_nat 46.

(** [s.lower()] on the letters A to Z. *)
Definition lower_char (c : Ascii.ascii) : Ascii.ascii :=
  let n := Ascii.nat_of_ascii c in
  if (65 <=? n)%nat && (n <=? 90)%nat then Ascii.ascii_of_nat (n + 32) else c.

Fixpoint lower (s : string) : string :=
  match s with
  | EmptyString => EmptyString
  | String c s' => String (lower_char c) (lower s')
  end.

(** [s.isdigit()], and [int(s)] for such a string. *)
Definition digit_of (c : Ascii.ascii) : option Z :=
  let n := Ascii.nat_of_ascii c in
  if (48 <=? n)%nat && (n <=? 57)%nat then Some (Z.of_nat (n - 48)) else None.

Fixpoint digits (s : string) : option (list Z) :=
  match s with
  | EmptyString => Some []
  | String c s' =>
      match digit_of c, digits s' with
      | Some d, Some ds => Some (d :: ds)
      | _, _ => None
      end
  end.

Definition isdigit (s : string) : bool :=
  match s, digits s with
  | String _ _, Some _ => true
  | _, _ => false
  end.

Definition int (s : string) : Z :=
  foldl (fun n d => (10 * n + d)%Z) 0%Z (default [] (digits s)).

(** The operands of [and] and [or] in [set_proxy_size_to_hwnd]. *)
Inductive pyval :=
| PyBool (b : bool)
| PyInt (z : Z).

Definition truthy (v : pyval) : bool :=
  match v with
  | PyBool b => b
  | PyInt z => negb (z =? 0)%Z
  end.

Definition py_and (a b : pyval) : pyval := if truthy a then b else a.
Definition py_or (a b : pyval) : pyval := if truthy a then a else b.

(** A bool is an int where an int is asked for. *)
Definition as_int (v : pyval) : Z :=
  match v with
  | PyInt z => z
  | PyBool true => 1%Z
  | PyBool false => 0%Z
  end.

(** *** The session *)

(** The settings of the engine instance, as [get_setting] returns them. *)
Record Settings := Build_Settings {
  use_sgtk_as_menu_name : bool;
  automatic_context_switch : bool;
  compatibility_dialog_min_version : Z;
  run_at_startup : list Startup.Setting
}.

(** What the interpreter, the host and the Windows API answer. *)
Record Platform := Build_Platform {
  sys_platform : string;                       (* sys.platform *)
  get_version : string;                        (* ix.application.get_version() *)
  float : string -> result pyfloat;            (* float(s) *)
  str_of_float : pyfloat -> string;            (* "%s" % a float *)
  engine_repr : string;                        (* "%s" % self *)
  engine_name : string;                        (* self.name *)
  engine_instance_name : string;               (* self.instance_name *)
  QtCore_version : string;                     (* QtCore.__version__ *)
  find_main_windows : result (list Z);         (* find_windows(class_name="FLTK") *)
  find_proxy_windows : result (list Z);        (* find_windows(window_text=...) *)
  qwidget_winid_to_hwnd : nat -> result Z;
  GetWindowLong : Z -> result Z;
  WS_EX_NOPARENTNOTIFY : Z;                    (* win_32_api.WS_EX_NOPARENTNOTIFY *)
  get_win_size : option Z -> result (Z * Z);
  activeWindow : option nat                    (* QApplication.activeWindow() *)
}.

(** A Qt widget. *)
Record Widget := Build_Widget {
  windowTitle : string;
  isVisible : bool;
  has_parent : bool;
  geometry : Z * Z * Z * Z;      (* x, y, width, height *)
  deleted_later : bool
}.

(** Calls of the Windows API, of Qt's application object and of the
    toolkit's base class. *)
Inductive call :=
| FindWindows (class_name window_text : option string)
| QWidgetWinIdToHwnd (widget : nat)
| CallGetWindowLong (hwnd : Z)
| SetWindowLong (hwnd style : Z)
| SetParent (child parent : Z)
| GetWinSize (hwnd : option Z)
| ActiveWindow
| NewQApplication (app_name : string)
| SetWindowIcon
| SetQuitOnLastWindowClosed (quit : bool)
| InitializeDarkLookAndFeel.

Record State := Build_State {
  host : Watcher.State;             (* ix.application and os.environ *)
  ui : Callback.Host;               (* menus, message boxes; the engine's
                                       context, menu name and menu handle *)
  pump : Pump.State;
  startup : Startup.State;          (* self.logger, and what was deferred *)
  commands : list (string * Startup.Command);   (* self.commands *)
  qapplication : option string;     (* QApplication.instance() *)
  __watcher : option nat;           (* self.__watcher, once assigned *)
  widgets : list Widget;            (* Qt widgets, by address *)
  __qt_dialogs : list nat;
  _DIALOG_PARENT : option nat;
  _WIN32_CLARISSE_MAIN_HWND : option Z;
  _PROXY_WIN_HWND : option Z;
  calls : list call
}.

Definition set_host (f : Watcher.State -> Watcher.State) (s : State) : State :=
  Build_State (f (host s)) (ui s) (pump s) (startup s) (commands s)
    (qapplication s) (__watcher s) (widgets s) (__qt_dialogs s)
    (_DIALOG_PARENT s) (_WIN32_CLARISSE_MAIN_HWND s) (_PROXY_WIN_HWND s)
    (calls s).

Definition set_ui (f : Callback.Host -> Callback.Host) (s : State) : State :=
  Build_State (host s) (f (ui s)) (pump s) (startup s) (commands s)
    (qapplication s) (__watcher s) (widgets s) (__qt_dialogs s)
    (_DIALOG_PARENT s) (_WIN32_CLARISSE_MAIN_HWND s) (_PROXY_WIN_HWND s)
    (calls s).

Definition set_pump (f : Pump.State -> Pump.State) (s : State) : State :=
  Build_State (host s) (ui s) (f (pump s)) (startup s) (commands s)
    (qapplication s) (__watcher s) (widgets s) (__qt_dialogs s)
    (_DIALOG_PARENT s) (_WIN32_CLARISSE_MAIN_HWND s) (_PROXY_WIN_HWND s)
    (calls s).

Definition set_startup (f : Startup.State -> Startup.State) (s : State)
    : State :=
  Build_State (host s) (ui s) (pump s) (f (startup s)) (commands s)
    (qapplication s) (__watcher s) (widgets s) (__qt_dialogs s)
    (_DIALOG_PARENT s) (_WIN32_CLARISSE_MAIN_HWND s) (_PROXY_WIN_HWND s)
    (calls s).

Definition set_commands
    (f : list (string * Startup.Command) -> list (string * Startup.Command))
    (s : State) : State :=
  Build_State (host s) (ui s) (pump s) (startup s) (f (commands s))
    (qapplication s) (__watcher s) (widgets s) (__qt_dialogs s)
    (_DIALOG_PARENT s) (_WIN32_CLARISSE_MAIN_HWND s) (_PROXY_WIN_HWND s)
    (calls s).

Definition set_qapplication (v : option string) (s : State) : State :=
  Build_State (host s) (ui s) (pump s) (startup s) (commands s)
    v (__watcher s) (widgets s) (__qt_dialogs s)
    (_DIALOG_PARENT s) (_WIN32_CLARISSE_MAIN_HWND s) (_PROXY_WIN_HWND s)
    (calls s).

Definition set___watcher (v : option nat) (s : State) : State :=
  Build_State (host s) (ui s) (pump s) (startup s) (commands s)
    (qapplication s) v (widgets s) (__qt_dialogs s)
    (_DIALOG_PARENT s) (_WIN32_CLARISSE_MAIN_HWND s) (_PROXY_WIN_HWND s)
    (calls s).

Definition set_widgets (f : list Widget -> list Widget) (s : State) : State :=
  Build_State (host s) (ui s) (pump s) (startup s) (commands s)
    (qapplication s) (__watcher s) (f (widgets s)) (__qt_dialogs s)
    (_DIALOG_PARENT s) (_WIN32_CLARISSE_MAIN_HWND s) (_PROXY_WIN_HWND s)
    (calls s).

Definition set__DIALOG_PARENT (v : option nat) (s : State) : State :=
  Build_State (host s) (ui s) (pump s) (startup s) (commands s)
    (qapplication s) (__watcher s) (widgets s) (__qt_dialogs s)
    v (_WIN32_CLARISSE_MAIN_HWND s) (_PROXY_WIN_HWND s) (calls s).

Definition set__WIN32_CLARISSE_MAIN_HWND (v : option Z) (s : State) : State :=
  Build_State (host s) (ui s) (pump s) (startup s) (commands s)
    (qapplication s) (__watcher s) (widgets s) (__qt_dialogs s)
    (_DIALOG_PARENT s) v (_PROXY_WIN_HWND s) (calls s).

Definition set__PROXY_WIN_HWND (v : option Z) (s : State) : State :=
  Build_State (host s) (ui s) (pump s) (startup s) (commands s)
    (qapplication s) (__watcher s) (widgets s) (__qt_dialogs s)
    (_DIALOG_PARENT s) (_WIN32_CLARISSE_MAIN_HWND s) v (calls s).

Definition record_call (c : call) (s : State) : State :=
  Build_State (host s) (ui s) (pump s) (startup s) (commands s)
    (qapplication s) (__watcher s) (widgets s) (__qt_dialogs s)
    (_DIALOG_PARENT s) (_WIN32_CLARISSE_MAIN_HWND s) (_PROXY_WIN_HWND s)
    (calls s ++ [c]).

(** Code of the other modules, run on its part of the session. *)
Definition on_host {A} (m : M Watcher.State A) : M State A :=
  fun s => match m (host s) with (r, h) => (r, set_host (fun _ => h) s) end.

Definition on_ui {A} (m : M Callback.Host A) : M State A :=
  fun s => match m (ui s) with (r, h) => (r, set_ui (fun _ => h) s) end.

Definition on_world {A} (m : M Refresh.World A) : M State A :=
  on_ui (Callback.lift m).

Definition on_pump {A} (m : M Pump.State A) : M State A :=
  fun s => match m (pump s) with (r, h) => (r, set_pump (fun _ => h) s) end.

Definition on_startup {A} (m : M Startup.State A) : M State A :=
  fun s =>
    match m (startup s) with (r, h) => (r, set_startup (fun _ => h) s) end.

(** [self.logger.debug(msg)] and [self.logger.warning(msg)]. *)
Definition logger_debug (msg : string) : M State unit :=
  on_startup (Startup.log_record (Startup.Debug msg)).

Definition logger_warning (msg : string) : M State unit :=
  on_startup (Startup.log_record (Startup.Warning msg)).

(** A call that leaves the program: recorded, then it returns or raises. *)
Definition external {A} (c : call) (r : result A) : M State A :=
  fun s => (r, record_call c s).

(** [os.environ[key] = value]. *)
Definition setenv (key value : string) : M State unit :=
  on_host (modify (fun h =>
    Watcher.Build_State (Watcher.application h) (Watcher.watchers h)
      (<[key := value]> (Watcher.environ h)) (Watcher.asctime h)
      (Watcher.log h))).

(** Reading a global name of [engine.py] inside a method. *)
Definition load_global (name : string) : M State unit :=
  if bool_decide (name ∈ Startup.module_globals) then ret tt
  else raise (Exn NameError ("name '" +:+ name +:+ "' is not defined") []).

(** [try: body finally: final]. *)
Definition try_finally {A} (body : M State A) (final : M State unit)
    : M State A :=
  fun s =>
    match body s with
    | (r, s') =>
        match final s' with
        | (Ok _, s'') => (r, s'')
        | (Raise e, s'') => (Raise e, s'')
        end
    end.

(** Methods of a widget, and of [None] in its place. *)
Definition none_has_no (attribute : string) : exn :=
  Exn AttributeError
    ("'NoneType' object has no attribute '" +:+ attribute +:+ "'") [].

Definition update_widget (widget : nat) (f : Widget -> Widget)
    : M State unit :=
  modify (set_widgets (fun ws =>
    match ws !! widget with
    | Some w => <[widget := f w]> ws
    | None => ws
    end)).

Definition hide (widget : nat) : M State unit :=
  update_widget widget (fun w =>
    Build_Widget (windowTitle w) false (has_parent w) (geometry w)
      (deleted_later w)).

Definition show (widget : nat) : M State unit :=
  update_widget widget (fun w =>
    Build_Widget (windowTitle w) true (has_parent w) (geometry w)
      (deleted_later w)).

Definition setParent_None (widget : nat) : M State unit :=
  update_widget widget (fun w =>
    Build_Widget (windowTitle w) (isVisible w) false (geometry w)
      (deleted_later w)).

Definition deleteLater (widget : nat) : M State unit :=
  update_widget widget (fun w =>
    Build_Widget (windowTitle w) (isVisible w) (has_parent w) (geometry w) true).

Definition setWindowTitle (widget : nat) (title : string) : M State unit :=
  update_widget widget (fun w =>
    Build_Widget title (isVisible w) (has_parent w) (geometry w)
      (deleted_later w)).

Definition setGeometry (widget : nat) (g : Z * Z * Z * Z) : M State unit :=
  update_widget widget (fun w =>
    Build_Widget (windowTitle w) (isVisible w) (has_parent w) g
      (deleted_later w)).

Definition resize (widget : nat) (width height : Z) : M State unit :=
  update_widget widget (fun w =>
    Build_Widget (windowTitle w) (isVisible w) (has_parent w)
      ((geometry w).1.1.1, (geometry w).1.1.2, width, height)
      (deleted_later w)).

Definition move (widget : nat) (x y : Z) : M State unit :=
  update_widget widget (fun w =>
    Build_Widget (windowTitle w) (isVisible w) (has_parent w)
      (x, y, (geometry w).1.2, (geometry w).2) (deleted_later w)).

(** An HWND is true when it is not zero, [None] is false. *)
Definition hwnd_true (hwnd : option Z) : bool :=
  match hwnd with
  | Some z => negb (z =? 0)%Z
  | None => false
  end.

Section engine.

Context (platform : Platform) (settings : Settings).

(** [self.has_ui], lines 935-944. *)
Definition has_ui : M State bool :=
  let* s := get in
  ret (Refresh.is_gui_application (Callback.host_world (ui s))).

(** [partial(on_scene_event_callback, engine_name=..., prev_context=...,
    menu_name=...)], as a watcher keeps it: the arguments it binds.  By
    lines 285-302 it raises nothing. *)
Definition scene_callback (prev_context : Refresh.Context)
    (menu_name : string) : Watcher.callable :=
  Watcher.Callable
    ("on_scene_event_callback(engine_name=" +:+ engine_instance_name platform
       +:+ ", prev_context=" +:+ Refresh.project prev_context +:+ "/"
       +:+ Refresh.entity prev_context
       +:+ ", menu_name=" +:+ menu_name +:+ ")")
    None.

(** [self.__watcher], an attribute only once it was assigned. *)
Definition get___watcher : M State nat :=
  fun s =>
    match __watcher s with
    | Some w => (Ok w, s)
    | None =>
        (Raise (Exn AttributeError
                  "'ClarisseEngine' object has no attribute '_ClarisseEngine__watcher'"
                  []), s)
    end.

(** Lines 569-583 of [init_engine] and 659-669 of [post_context_change]:
    a new watcher for the engine's context as it is now. *)
Definition watch_scene_events : M State unit :=
  let* prev_context := on_world (Refresh.engine_field Refresh.context) in
  let* menu_name := on_world (Refresh.engine_field Refresh._menu_name) in
  let cb_fn := scene_callback prev_context menu_name in
  let* watcher := on_host (Watcher.__init__ cb_fn false) in
  modify (set___watcher (Some watcher)).

Definition unsupported_platform : exn :=
  Exn TankError
    ("The current platform is not supported! Supported platforms "
       +:+ "are Mac, Linux 64 and Windows 64.") [].

Definition too_old : exn :=
  Exn TankError
    ("Shotgun integration is not compatible with Clarisse "
       +:+ "versions older than 3.6") [].

Definition untested_message (clarisse_ver : pyfloat) : string :=
  "The Shotgun Pipeline Toolkit has not yet been fully tested "
    +:+ "with Clarisse " +:+ str_of_float platform clarisse_ver +:+ "." +:+ Refresh.LF
    +:+ "You can continue to use Toolkit but you may experience bugs "
    +:+ "or instability."
    +:+ Refresh.LF +:+ Refresh.LF +:+ "Use at your own risk.".

(** Lines 513-561 of [init_engine]: the warning about a Clarisse newer
    than 5.0. *)
Definition warn_untested (current_os clarisse_build_version : string)
    (clarisse_ver : pyfloat) : M State unit :=
  let msg := untested_message clarisse_ver in
  let* gui := has_ui in
  let* s := get in
  let show_warning_dlg :=
    gui && bool_decide (Watcher.environ (host s)
                          !! "SGTK_COMPATIBILITY_DIALOG_SHOWN" = None) in
  let* show_warning_dlg :=
    if show_warning_dlg then
      let* _ := setenv "SGTK_COMPATIBILITY_DIALOG_SHOWN" "1" in
      let major_version_number_str :=
        default "" (head (split dot clarisse_build_version)) in
      if isdigit major_version_number_str
         && (int major_version_number_str
               <? compatibility_dialog_min_version settings)%Z
      then ret false
      else ret true
    else ret false in
  let* _ := if show_warning_dlg then on_ui (Callback.show_info msg)
            else ret tt in
  let* _ := logger_warning msg in
  if String.prefix "win" current_os then
    let* _ := logger_debug
                ("Clarisse on Windows can deadlock if QtWebEngineWidgets "
                   +:+ "is imported. "
                   +:+ "Setting SHOTGUN_SKIP_QTWEBENGINEWIDGETS_IMPORT=1...") in
    setenv "SHOTGUN_SKIP_QTWEBENGINEWIDGETS_IMPORT" "1"
  else ret tt.

(** Lines 563-583 of [init_engine]: the menu name, and the watcher. *)
Definition name_menu_and_watch : M State unit :=
  let menu_name :=
    if use_sgtk_as_menu_name settings then "Sgtk" else "Shotgun" in
  let* _ := on_world (modify (Refresh.set_engine (fun eng =>
              Refresh.Build_Engine (Refresh.context eng) (Refresh.sgtk eng)
                menu_name (Refresh._menu_handle eng)))) in
  if automatic_context_switch settings then
    let* _ := watch_scene_events in
    logger_debug "Registered open and save callbacks."
  else ret tt.

(** [ClarisseEngine.init_engine], lines 493-583. *)
Definition init_engine : M State unit :=
  let* _ := logger_debug (engine_repr platform +:+ ": Initializing...") in
  let current_os := lower (sys_platform platform) in
  if negb (bool_decide (current_os ∈ ["darwin"; "win32"; "linux64"])) then
    raise unsupported_platform
  else
    let clarisse_build_version := get_version platform in
    let* clarisse_ver :=
      fun s => (float platform
                  (String.concat "." (take 2 (split dot clarisse_build_version))),
                s) in
    if float_lt clarisse_ver float_3_6 then raise too_old
    else
      let* _ :=
        if float_lt float_5_0 clarisse_ver then
          warn_untested current_os clarisse_build_version clarisse_ver
        else ret tt in
      name_menu_and_watch.

(** [tank.platform.constants.SHOTGUN_ENGINE_NAME]. *)
Definition SHOTGUN_ENGINE_NAME : string := "tk-shotgun".

(** [ClarisseEngine.__register_open_log_folder_command], lines 407-425;
    [register_command] of the base class enters the command, which belongs
    to no app, in [self.commands]. *)
Definition __register_open_log_folder_command : M State unit :=
  if decide (engine_name platform ≠ SHOTGUN_ENGINE_NAME) then
    modify (set_commands
              (dict_set "Open Log Folder"
                 (Startup.Build_Command None "__open_log_folder")))
  else ret tt.

(** [ClarisseEngine.create_shotgun_menu], lines 585-605. *)
Definition create_shotgun_menu : M State bool :=
  on_world Refresh.create_shotgun_menu.

(** [ClarisseEngine.post_context_change], lines 640-676. *)
Definition post_context_change (old_context new_context : Refresh.Context)
    : M State unit :=
  let* _ := __register_open_log_folder_command in
  if automatic_context_switch settings then
    let* watcher := get___watcher in
    let* _ := on_host (Watcher.stop_watching watcher) in
    let* _ := watch_scene_events in
    let* _ := logger_debug
                ("Registered new open and save callbacks before"
                   +:+ " changing context.") in
    if decide (old_context ≠ new_context) then
      let* _ := create_shotgun_menu in ret tt
    else ret tt
  else ret tt.

(** [ClarisseEngine._initialise_qapplication], lines 607-624. *)
Definition _initialise_qapplication : M State unit :=
  let* s := get in
  let* qt_app :=
    match qapplication s with
    | Some qt_app => ret qt_app
    | None =>
        let* _ := logger_debug "Initialising main QApplication..." in
        let app_name := "Shotgun Toolkit for Substance Painter" in
        let* _ := external (NewQApplication app_name) (Ok tt) in
        let* _ := modify (set_qapplication (Some app_name)) in
        let* _ := external SetWindowIcon (Ok tt) in
        let* _ := external (SetQuitOnLastWindowClosed false) (Ok tt) in
        let* _ := external InitializeDarkLookAndFeel (Ok tt) in
        ret app_name
    end in
  let* _ := on_pump (Pump.exec_ (Some qt_app)) in
  ret tt.

(** [ClarisseEngine._run_app_instance_commands], lines 678-764, on the
    commands and the setting of this engine. *)
Definition _run_app_instance_commands : M State unit :=
  let* s := get in
  on_startup (Startup._run_app_instance_commands (engine_name platform)
                (commands s) (run_at_startup settings)).

(** [ClarisseEngine.post_app_init], lines 626-638. *)
Definition post_app_init : M State unit :=
  let* gui := has_ui in
  let* _ := if gui then _initialise_qapplication else ret tt in
  let* _ := create_shotgun_menu in
  _run_app_instance_commands.

(** [ClarisseEngine.destroy_engine], lines 766-787. *)
Definition destroy_engine : M State unit :=
  let* _ := logger_debug (engine_repr platform +:+ ": Destroying...") in
  let* menu_name := on_world (Refresh.engine_field Refresh._menu_name) in
  let* _ := on_world (Refresh.clear_sgtk_menu menu_name) in
  let* s := get in
  let* _ := for_each (__qt_dialogs s) (fun dialog =>
              let* _ := hide dialog in
              let* _ := setParent_None dialog in
              deleteLater dialog) in
  let* s := get in
  let* _ :=
    if hwnd_true (_PROXY_WIN_HWND s)
       && bool_decide (sys_platform platform = "win32") then
      let* _ := external (SetParent (default 0%Z (_PROXY_WIN_HWND s)) 0) (Ok tt) in
      match _DIALOG_PARENT s with
      | None => raise (none_has_no "deleteLater")
      | Some parent =>
          let* _ := deleteLater parent in
          modify (set__DIALOG_PARENT None)
      end
    else ret tt in
  if automatic_context_switch settings then
    let* watcher := get___watcher in
    on_host (Watcher.stop_watching watcher)
  else ret tt.

(** [ClarisseEngine._win32_get_clarisse_main_hwnd], lines 789-800. *)
Definition _win32_get_clarisse_main_hwnd : M State (option Z) :=
  let* s := get in
  let* _ :=
    if negb (hwnd_true (_WIN32_CLARISSE_MAIN_HWND s)) then
      let* found_hwnds := external (FindWindows (Some "FLTK") None)
                            (find_main_windows platform) in
      match last found_hwnds with
      | Some hwnd => modify (set__WIN32_CLARISSE_MAIN_HWND (Some hwnd))
      | None => ret tt
      end
    else ret tt in
  let* s := get in
  ret (_WIN32_CLARISSE_MAIN_HWND s).

(** [ClarisseEngine._win32_get_proxy_window], lines 802-888; the widget
    is [tk_clarisse.ProxyWidget], a [QWidget] without parent. *)
Definition _win32_get_proxy_window : M State (option nat) :=
  let* sp_hwnd := _win32_get_clarisse_main_hwnd in
  let* found :=
    if hwnd_true sp_hwnd then
      let* s := get in
      let win32_proxy_win := length (widgets s) in
      let* _ := modify (set_widgets (fun ws =>
                  ws ++ [Build_Widget "" false false (0, 0, 0, 0)%Z false])) in
      let window_title := "Shotgun Toolkit Parent Widget" in
      let* _ := setWindowTitle win32_proxy_win window_title in
      let* proxy_win_hwnd :=
        if String.prefix "4." (QtCore_version platform) then
          let* hwnd := external (QWidgetWinIdToHwnd win32_proxy_win)
                         (qwidget_winid_to_hwnd platform win32_proxy_win) in
          ret (Some hwnd)
        else
          let* _ := setGeometry win32_proxy_win (0, 0, 0, 0)%Z in
          let* _ := show win32_proxy_win in
          let* proxy_win_hwnd_found :=
            try_finally
              (external (FindWindows None (Some "Shotgun Toolkit Parent Widget"))
                 (find_proxy_windows platform))
              (hide win32_proxy_win) in
          ret (head proxy_win_hwnd_found) in
      ret (Some win32_proxy_win, proxy_win_hwnd)
    else
      let* _ := logger_debug
                  ("Unable to determine the HWND of Clarisse itself. This means "
                     +:+ "that we can't properly setup window parenting for Toolkit apps.") in
      ret (None, None) in
  let* _ :=
    match found.2 with
    | None =>
        logger_warning
          ("Unable setup window parenting properly. Dialogs shown will "
             +:+ "not be parented to Clarisse, but they will still function "
             +:+ "properly otherwise.")
    | Some proxy_win_hwnd =>
        let* win_ex_style := external (CallGetWindowLong proxy_win_hwnd)
                               (GetWindowLong platform proxy_win_hwnd) in
        let* _ := external (SetWindowLong proxy_win_hwnd
                              (Z.lor win_ex_style (WS_EX_NOPARENTNOTIFY platform)))
                    (Ok tt) in
        let* _ := external (SetParent proxy_win_hwnd (default 0%Z sp_hwnd))
                    (Ok tt) in
        modify (set__PROXY_WIN_HWND (Some proxy_win_hwnd))
    end in
  ret found.1.

(** [w >= 0 and w or 0]. *)
Definition at_least_zero (w : Z) : pyval :=
  py_or (py_and (PyBool (0 <=? w)%Z) (PyInt w)) (PyInt 0).

(** [ClarisseEngine.set_proxy_size_to_hwnd], lines 890-895. *)
Definition set_proxy_size_to_hwnd : M State unit :=
  let* s := get in
  let* win_size := external (GetWinSize (_WIN32_CLARISSE_MAIN_HWND s))
                     (get_win_size platform (_WIN32_CLARISSE_MAIN_HWND s)) in
  let* s := get in
  match _DIALOG_PARENT s with
  | None => raise (none_has_no "resize")
  | Some parent =>
      let* _ := resize parent (as_int (at_least_zero win_size.1))
                  (as_int (at_least_zero win_size.2)) in
      move parent 0 0
  end.

(** [ClarisseEngine._get_dialog_parent], lines 897-913. *)
Definition _get_dialog_parent : M State (option nat) :=
  let* s := get in
  let* _ :=
    match _DIALOG_PARENT s with
    | Some _ => ret tt
    | None =>
        if bool_decide (sys_platform platform = "win32") then
          let* parent := _win32_get_proxy_window in
          modify (set__DIALOG_PARENT parent)
        else
          let* _ := load_global "QtGui" in
          let* parent := external ActiveWindow (Ok (activeWindow platform)) in
          modify (set__DIALOG_PARENT parent)
    end in
  let* _ := if bool_decide (sys_platform platform = "win32")
            then set_proxy_size_to_hwnd else ret tt in
  let* s := get in
  ret (_DIALOG_PARENT s).

End engine.

End ClarisseEngine.

(** ** Vocabulary of the statements about the engine class *)

Module EngineSpec.
Import ClarisseEngine.

(** The platforms [init_engine] accepts. *)
Definition supported (platform : Platform) : Prop :=
  lower (sys_platform platform) ∈ ["darwin"; "win32"; "linux64"].

(** The version number [init_engine] compares. *)
Definition version_number (platform : Platform) : result pyfloat :=
  float platform
    (String.concat "." (take 2 (split dot (get_version platform)))).

(** The first component of the version is a number below the setting
    [compatibility_dialog_min_version]. *)
Definition below_min_version (platform : Platform) (settings : Settings)
    : bool :=
  let major := default "" (head (split dot (get_version platform))) in
  isdigit major && (int major <? compatibility_dialog_min_version settings)%Z.

Definition dialog_shown (s : State) : bool :=
  bool_decide (is_Some (Watcher.environ (host s)
                          !! "SGTK_COMPATIBILITY_DIALOG_SHOWN")).

Definition gui (s : State) : bool :=
  Refresh.is_gui_application (Callback.host_world (ui s)).

(** The engine object. *)
Definition engine (s : State) : option Refresh.Engine :=
  Refresh.current_engine (Callback.host_world (ui s)).

(** The session after [self.logger] took the records [l]. *)
Definition logged (l : list Startup.record) (s : State) : State :=
  set_startup (fun st =>
    Startup.Build_State (Startup.deferred st) (Startup.executed st)
      (Startup.logger st ++ l)) s.

(** The engine watches the scene events of a host whose own entry points
    are [base]: its watcher has patched every watched entry point the host
    has, once, and holds the callback for the context [ctx]. *)
Definition watching (platform : Platform) (base : gmap string Watcher.fn)
    (ctx : Refresh.Context) (menu_name : string) (s : State) : Prop :=
  ∃ w tbl,
    __watcher s = Some w ∧
    Watcher.watchers (host s) !! w
      = Some (Watcher.Build_watcher (scene_callback platform ctx menu_name)
                false tbl) ∧
    WatcherSpec.consistent w base (host s) ∧
    dict_keys tbl = filter (fun n => is_Some (base !! n)) WatcherSpec.WATCHED.

(** The session after [__register_open_log_folder_command]. *)
Definition registered (platform : Platform) (s : State) : State :=
  if decide (engine_name platform ≠ SHOTGUN_ENGINE_NAME) then
    set_commands (dict_set "Open Log Folder"
                    (Startup.Build_Command None "__open_log_folder")) s
  else s.

(** The session after [create_shotgun_menu] of the engine [eng]. *)
Definition with_menu (eng : Refresh.Engine) (s : State) : State :=
  if gui s then
    set_ui (fun h =>
      Callback.Build_Host
        (Refresh.Build_World
           (Some (RefreshSpec.with_handle
                    (Some (Refresh._menu_name eng +:+ ">")) eng))
           (Refresh.current_project_filename (Callback.host_world h)) true
           (RefreshSpec.with_root (Refresh._menu_name eng)
              (Refresh.main_menu (Callback.host_world h)))
           (Refresh.menu_callbacks (Callback.host_world h))
           (Refresh.asctime (Callback.host_world h))
           (Refresh.trace (Callback.host_world h)
              ++ [Refresh.MenuGeneratorCreateMenu
                    (Refresh._menu_name eng +:+ ">")]))
        (Callback.message_boxes h)) s
  else s.

(** The session after [post_context_change] replaced the watcher [w] of a
    host whose own entry points are [base]. *)
Definition rewatched (platform : Platform) (base : gmap string Watcher.fn)
    (w : nat) (eng : Refresh.Engine) (menu : bool) (s : State) : State :=
  let cb_fn := scene_callback platform (Refresh.context eng)
                 (Refresh._menu_name eng) in
  let s1 :=
    logged [Startup.Debug ("Registered new open and save callbacks before"
                             +:+ " changing context.")]
      (set___watcher (Some (length (Watcher.watchers (host s))))
         (set_host (fun h => exec (Watcher.__init__ cb_fn false)
                               (WatcherSpec.stopped w base h))
            (registered platform s))) in
  if menu then with_menu eng s1 else s1.

(** A dialog after [hide()], [setParent(None)] and [deleteLater()]. *)
Definition released (w : Widget) : Widget :=
  Build_Widget (windowTitle w) false false (geometry w) true.

Definition release_all (dialogs : list nat) (ws : list Widget) : list Widget :=
  foldl (fun ws dialog =>
           match ws !! dialog with
           | Some w => <[dialog := released w]> ws
           | None => ws
           end) ws dialogs.

(** The session after [destroy_engine] stopped the watcher [w] of a host
    whose own entry points are [base]; no proxy window is involved. *)
Definition destroyed (platform : Platform) (base : gmap string Watcher.fn)
    (w : nat) (eng : Refresh.Engine) (s : State) : State :=
  set_host (fun h => WatcherSpec.stopped w base h)
    (set_widgets (release_all (__qt_dialogs s))
       (set_ui (fun h =>
                  Callback.Build_Host
                    (exec (Refresh.clear_sgtk_menu (Refresh._menu_name eng))
                       (Callback.host_world h))
                    (Callback.message_boxes h))
          (logged [Startup.Debug (engine_repr platform +:+ ": Destroying...")]
             s))).

(** Two sessions with the same objects: the entry points, the watchers,
    the engine, the widgets and the attributes of the class. *)
Definition same_objects (s s' : State) : Prop :=
  Watcher.application (host s') = Watcher.application (host s) ∧
  Watcher.watchers (host s') = Watcher.watchers (host s) ∧
  engine s' = engine s ∧ gui s' = gui s ∧
  __watcher s' = __watcher s ∧ widgets s' = widgets s ∧
  __qt_dialogs s' = __qt_dialogs s ∧
  _PROXY_WIN_HWND s' = _PROXY_WIN_HWND s ∧
  _DIALOG_PARENT s' = _DIALOG_PARENT s.

(** The menu name [init_engine] chooses. *)
Definition menu_name_of (settings : Settings) : string :=
  if use_sgtk_as_menu_name settings then "Sgtk" else "Shotgun".

(** A step that shows no box, sets no environment variable and keeps the
    kind of session. *)
Definition silent (s s' : State) : Prop :=
  Callback.message_boxes (ui s') = Callback.message_boxes (ui s) ∧
  Watcher.environ (host s') = Watcher.environ (host s) ∧
  gui s' = gui s.

(** The engine watches, its watcher is the last one made, and the watchers
    made since the engine started are stopped. *)
Definition engine_watches (platform : Platform)
    (base : gmap string Watcher.fn) (n0 : nat)
    (old : list Watcher.SceneEventWatcher) (ctx : Refresh.Context)
    (s : State) : Prop :=
  ∃ w menu eng,
    watching platform base ctx menu s ∧ __watcher s = Some w ∧
    engine s = Some eng ∧ Refresh.context eng = ctx ∧
    Refresh._menu_name eng = menu ∧
    length (Watcher.watchers (host s)) = S w ∧ (n0 ≤ w)%nat ∧
    (∀ i, (n0 ≤ i)%nat -> i ≠ w -> WatcherSpec.table i (host s) = []) ∧
    (∀ i, (i < n0)%nat -> Watcher.watchers (host s) !! i = old !! i).

(** A context change as the base class makes it: the engine takes the new
    context, then the hook [post_context_change] runs. *)
Definition context_changed (platform : Platform) (settings : Settings)
    (new_context : Refresh.Context) : M State unit :=
  let* old_context := on_world (Refresh.engine_field Refresh.context) in
  let* _ := on_world (modify (Refresh.set_engine (fun eng =>
              Refresh.Build_Engine new_context (Refresh.sgtk eng)
                (Refresh._menu_name eng) (Refresh._menu_handle eng)))) in
  post_context_change platform settings old_context new_context.

(** The life of an engine: it starts, the context changes some times, it
    is destroyed. *)
Definition engine_session (platform : Platform) (settings : Settings)
    (changes : list Refresh.Context) : M State unit :=
  let* _ := init_engine platform settings in
  let* _ := for_each changes (context_changed platform settings) in
  destroy_engine platform settings.

(** Clarisse's main window is not to be found: none is cached, and the
    search raises or finds none. *)
Definition main_window_missing (platform : Platform) (s : State) : Prop :=
  hwnd_true (_WIN32_CLARISSE_MAIN_HWND s) = false ∧
  match find_main_windows platform with
  | Ok found => hwnd_true (last found) = false
  | Raise _ => True
  end.

(** What [_run_app_instance_commands] returns or raises, by the settings. *)
Definition startup_outcome (commands : list (string * Startup.Command))
    (settings : Settings) : result unit :=
  if forallb (fun setting => negb (StartupUse.selects commands setting))
       (run_at_startup settings)
  then Ok tt
  else Raise (Exn NameError "name 'clarisse' is not defined" []).

(** Sample sessions. *)
Definition ValueError (s : string) : exn :=
  Exn (OtherException "ValueError")
    ("could not convert string to float: " +:+ s) [].

Definition a_float (s : string) : result pyfloat :=
  if decide (s = "3.5") then Ok (Finite (QArith_base.Qmake 7 2))
  else if decide (s = "4.0") then Ok (Finite (QArith_base.Qmake 4 1))
  else if decide (s = "5.5") then Ok (Finite (QArith_base.Qmake 11 2))
  else Raise (ValueError s).

Definition a_platform (sys_platform version : string) : Platform :=
  Build_Platform sys_platform version a_float
    (fun _ => String.concat "." (take 2 (split dot version)))
    "<Sgtk Engine: tk-clarisse, env: shot_step>" "tk-clarisse" "tk-clarisse"
    "5.15.2" (Ok []) (Ok []) (fun _ => Ok 0%Z) (fun _ => Ok 0%Z) 4
    (fun _ => Ok (0, 0)%Z) None.

Definition a_windows_platform (main_windows : list Z) (size : Z * Z)
    : Platform :=
  Build_Platform "win32" "4.0.2" a_float (fun _ => "4.0")
    "<Sgtk Engine: tk-clarisse, env: shot_step>" "tk-clarisse" "tk-clarisse"
    "5.15.2" (Ok main_windows) (Ok [4242%Z]) (fun _ => Ok 4242%Z)
    (fun _ => Ok 256%Z) 4 (fun _ => Ok size) None.

Definition some_settings : Settings :=
  Build_Settings false true 5 [].

Definition settings_with_startup : Settings :=
  Build_Settings false true 5
    [Startup.Build_Setting "tk-multi-loader2" "";
     Startup.Build_Setting "tk-multi-workfiles2" "File Open..."].

Definition a_session (gui : bool) : State :=
  Build_State (WatcherSpec.session WatcherSpec.full_host)
    (Callback.Build_Host (RefreshSpec.world gui "") [])
    Pump.initial StartupSpec.idle StartupUse.session_commands None None
    [] [] None None None [].

End EngineSpec.

(** * Verification *)

Section monad_facts.
Context {S A B : Type}.

Lemma bind_Ok (m : M S A) (k : A -> M S B) s a s' :
  m s = (Ok a, s') -> bind m k s = k a s'.
Proof. intros H. unfold bind. by rewrite H. Qed.

Lemma bind_Raise (m : M S A) (k : A -> M S B) s e s' :
  m s = (Raise e, s') -> bind m k s = (Raise e, s').
Proof. intros H. unfold bind. by rewrite H. Qed.

Lemma try_except_reraise (m : M S A) s :
  try_except m (fun _ => true) (fun e => raise e) s = m s.
Proof. unfold try_except, raise. by destruct (m s) as [[a|e] s']. Qed.

Lemma bind_snd_ret (m : M S B) (a : A) s :
  (bind m (fun _ => ret a) s).2 = (m s).2.
Proof. unfold bind, ret. by destruct (m s) as [[b|e] s']. Qed.

End monad_facts.

Section dict_facts.
Context {V : Type}.
Implicit Types (d : list (string * V)) (k : string) (v : V).

Lemma dict_get_set k k' v d :
  dict_get k' (dict_set k v d) = if decide (k = k') then Some v else dict_get k' d.
Proof.
  induction d as [|[k0 v0] d IH]; simpl.
  - destruct (decide (k' = k)), (decide (k = k')); congruence.
  - destruct (decide (k = k0)) as [->|Hne]; simpl.
    + destruct (decide (k' = k0)), (decide (k0 = k')); congruence.
    + destruct (decide (k' = k0)) as [->|]; [|done].
      by destruct (decide (k = k0)).
Qed.

Lemma elem_of_dict_set k v d x : x ∈ dict_set k v d -> x = (k, v) ∨ x ∈ d.
Proof.
  induction d as [|[k0 v0] d IH]; simpl.
  - intros ->%list_elem_of_singleton. by left.
  - destruct (decide (k = k0)).
    + intros [->| ?]%elem_of_cons; [by left | right; by apply elem_of_cons; right].
    + intros [->| ?]%elem_of_cons; [right; by apply elem_of_cons; left |].
      destruct IH as [?|?]; [done | by left | right; by apply elem_of_cons; right].
Qed.

Lemma dict_get_None k d : dict_get k d = None <-> k ∉ dict_keys d.
Proof.
  unfold dict_keys. induction d as [|[k0 v0] d IH]; simpl.
  - split; [intros _; apply not_elem_of_nil | done].
  - destruct (decide (k = k0)) as [->|Hne].
    + split; [done | intros []; by apply elem_of_cons; left].
    + rewrite IH, not_elem_of_cons. tauto.
Qed.

Lemma dict_get_Some k d v : dict_get k d = Some v -> (k, v) ∈ d.
Proof.
  induction d as [|[k0 v0] d IH]; simpl; [done|].
  destruct (decide (k = k0)) as [->|Hne].
  - intros [= ->]. by apply elem_of_cons; left.
  - intros ?. apply elem_of_cons; right; auto.
Qed.

Lemma dict_keys_set_fresh k v d :
  k ∉ dict_keys d -> dict_keys (dict_set k v d) = dict_keys d ++ [k].
Proof.
  unfold dict_keys. induction d as [|[k0 v0] d IH]; csimpl; [done|].
  intros [Hne Hnin]%not_elem_of_cons.
  destruct (decide (k = k0)); [done|]. csimpl. by rewrite IH.
Qed.

End dict_facts.

Section watcher_facts.
Import Watcher WatcherSpec.
Implicit Types (s : State) (base : gmap string fn) (self : nat)
  (tbl : list (string * fn)) (n : string) (f : fn).

Lemma State_eta s :
  Build_State (application s) (watchers s) (environ s) (asctime s) (log s) = s.
Proof. by destruct s. Qed.

Lemma wrap_for_closure self n f :
  ∃ post pre, wrap_for self n f = Closure f self post pre.
Proof. unfold wrap_for, wrapped. destruct (decide _); eauto. Qed.

Lemma restore_loop self tbl s :
  (∀ n f, (n, f) ∈ tbl -> ∃ f0, f = wrap_for self n f0) ->
  for_each tbl (fun item =>
      let* original := _original item.2 in setattr item.1 original) s
  = (Ok tt, set_application (restore tbl) s).
Proof.
  revert s. induction tbl as [|[n f] tbl IH]; intros s Htbl.
  - simpl. unfold ret, set_application, restore. simpl. by rewrite State_eta.
  - destruct (Htbl n f) as (f0 & ->); [by apply elem_of_cons; left|].
    destruct (wrap_for_closure self n f0) as (post & pre & ->).
    simpl. unfold bind at 1. simpl.
    rewrite IH.
    2:{ intros n' f' Hin. apply Htbl. by apply elem_of_cons; right. }
    done.
Qed.

Lemma restore_base self base tbl (m : gmap string fn) :
  (∀ n f, (n, f) ∈ tbl -> ∃ f0, base !! n = Some f0 ∧ f = wrap_for self n f0) ->
  (∀ n, n ∉ dict_keys tbl -> m !! n = base !! n) ->
  restore tbl m = base.
Proof.
  revert m. induction tbl as [|[n f] tbl IH]; intros m Htbl Hm.
  - apply map_eq. intros n. apply Hm, not_elem_of_nil.
  - destruct (Htbl n f) as (f0 & Hf0 & ->); [by apply elem_of_cons; left|].
    destruct (wrap_for_closure self n f0) as (post & pre & Hw).
    unfold restore. simpl. rewrite Hw. apply IH.
    + intros n' f' Hin. apply Htbl. by apply elem_of_cons; right.
    + intros n' Hn'. destruct (decide (n = n')) as [<-|Hne].
      * by rewrite lookup_insert_eq.
      * rewrite lookup_insert_ne by done. apply Hm.
        unfold dict_keys in *. csimpl. by apply not_elem_of_cons.
Qed.

Lemma stop_watching_consistent self base s :
  consistent self base s ->
  stop_watching self s = (Ok tt, stopped self base s).
Proof.
  intros ([w Hw] & Htbl & Happ). unfold table in *. 
  unfold stop_watching. unfold bind at 1. unfold get_watcher. rewrite Hw.
  rewrite Hw in Htbl, Happ.
  erewrite bind_Ok.
  2:{ apply (restore_loop self). intros n f Hin.
      destruct (Htbl n f Hin) as (f0 & _ & ->). eauto. }
  unfold set_wrapped_fns, modify, set_watchers, set_application, stopped. simpl.
  rewrite Hw. f_equal. f_equal.
  apply (restore_base self); [done|].
  intros n Hn. apply dict_get_None in Hn. by rewrite Happ, Hn.
Qed.

Lemma stopped_consistent self base s :
  is_Some (watchers s !! self) ->
  consistent self base (stopped self base s) ∧ table self (stopped self base s) = [].
Proof.
  intros [w Hw].
  assert (Ht : table self (stopped self base s) = []).
  { unfold table, stopped. simpl. rewrite Hw.
    rewrite list_lookup_insert_eq; [done|]. by eapply lookup_lt_Some. }
  split; [|done]. split; [|split].
  - unfold stopped. simpl. rewrite Hw. rewrite list_lookup_insert_eq; [eauto|].
    by eapply lookup_lt_Some.
  - rewrite Ht. intros n f Hin. by apply elem_of_nil in Hin.
  - rewrite Ht. done.
Qed.

Lemma retabled_refl self s : is_Some (watchers s !! self) -> retabled self s s.
Proof.
  intros [w Hw]. exists w, (__wrapped_fns w). split; [done|].
  rewrite list_insert_id; [done|]. by destruct w.
Qed.

Lemma retabled_same self s s' :
  is_Some (watchers s !! self) -> watchers s' = watchers s -> retabled self s s'.
Proof.
  intros Hw Heq. destruct (retabled_refl self s Hw) as (w & t & ? & ?).
  exists w, t. by rewrite Heq.
Qed.

Lemma retabled_trans self s1 s2 s3 :
  retabled self s1 s2 -> retabled self s2 s3 -> retabled self s1 s3.
Proof.
  intros (w & t & Hw & H12) (w' & t' & Hw' & H23).
  exists w, t'. split; [done|]. rewrite H23, H12.
  rewrite H12 in Hw'. rewrite list_lookup_insert_eq in Hw' by (by eapply lookup_lt_Some).
  injection Hw' as <-. simpl. by rewrite list_insert_insert_eq.
Qed.

Lemma retabled_stopped self base s :
  is_Some (watchers s !! self) -> retabled self s (stopped self base s).
Proof. intros [w Hw]. exists w, []. split; [done|]. unfold stopped. simpl. by rewrite Hw. Qed.

Lemma retabled_lookup self s s' :
  retabled self s s' -> is_Some (watchers s' !! self).
Proof.
  intros (w & t & Hw & ->). rewrite list_lookup_insert_eq; [eauto|].
  by eapply lookup_lt_Some.
Qed.

(** One registration: table entry, then patch. *)
Lemma register_consistent self base n f0 s :
  consistent self base s ->
  n ∉ dict_keys (table self s) ->
  base !! n = Some f0 ->
  let s' := exec (let* _ := set_wrapped_fns self (dict_set n (wrap_for self n f0)) in
                  setattr n (wrap_for self n f0)) s in
  consistent self base s' ∧
  dict_keys (table self s') = dict_keys (table self s) ++ [n] ∧
  retabled self s s' ∧ log s' = log s ∧ environ s' = environ s ∧ asctime s' = asctime s.
Proof.
  intros ([w Hw] & Htbl & Happ) Hfresh Hbase s'.
  assert (Hlt : self < length (watchers s)) by (by eapply lookup_lt_Some).
  assert (Ht : table self s' = dict_set n (wrap_for self n f0) (table self s)).
  { unfold s', exec, table, bind, set_wrapped_fns, setattr, modify, set_watchers. simpl.
    rewrite Hw. by rewrite list_lookup_insert_eq. }
  assert (Ha : application s' = <[n := wrap_for self n f0]> (application s)).
  { unfold s', exec, bind, set_wrapped_fns, setattr, modify. by simpl. }
  repeat split.
  - unfold s', exec, bind, set_wrapped_fns, setattr, modify, set_watchers. simpl.
    rewrite Hw. rewrite list_lookup_insert_eq; eauto.
  - rewrite Ht. intros n' f' [[= -> ->]|Hin]%elem_of_dict_set; eauto.
  - intros n'. rewrite Ht, Ha, dict_get_set.
    destruct (decide (n = n')) as [<-|Hne].
    + by rewrite lookup_insert_eq.
    + rewrite lookup_insert_ne by done. apply Happ.
  - rewrite Ht. by apply dict_keys_set_fresh.
  - exists w, (dict_set n (wrap_for self n f0) (__wrapped_fns w)). split; [done|].
    unfold s', exec, bind, set_wrapped_fns, setattr, modify, set_watchers. simpl.
    by rewrite Hw.
Qed.

(** Stores that differ in the log only. *)
Lemma consistent_log self base s l :
  consistent self base s ->
  consistent self base
    (Build_State (application s) (watchers s) (environ s) (asctime s) l).
Proof. by intros H. Qed.

Lemma display_debug_log msg s :
  ∃ l, display_debug msg s
       = (Ok tt, Build_State (application s) (watchers s) (environ s)
                   (asctime s) (log s ++ l)) ∧
       ∀ w, callback_runs w l = [].
Proof.
  unfold display_debug. destruct (decide _).
  - eexists. split; [reflexivity | done].
  - exists []. by rewrite app_nil_r, State_eta.
Qed.

Lemma callback_runs_app w (l1 l2 : list entry) :
  callback_runs w (l1 ++ l2) = callback_runs w l1 ++ callback_runs w l2.
Proof. apply List.filter_app. Qed.

(** One turn of the loop of [start_watching]. *)
Lemma scene_turn self base n s :
  consistent self base s ->
  n ≠ SCENE_QUIT_EVENT_NAME ->
  n ∉ dict_keys (table self s) ->
  ∃ s',
    try_except
      (let* event_fn := getattr n in
       let event_fn := wrapped event_fn self (Some scene_event_callback) None in
       let* _ := set_wrapped_fns self (dict_set n event_fn) in
       let* _ := setattr n event_fn in
       display_debug ("Registered callback on " +:+ n +:+ " "))
      (fun _ => true) (fun e => print_exc e) s = (Ok tt, s') ∧
    consistent self base s' ∧
    dict_keys (table self s')
      = dict_keys (table self s) ++ (if decide (is_Some (base !! n)) then [n] else []) ∧
    retabled self s s' ∧ environ s' = environ s ∧ asctime s' = asctime s ∧
    (base !! n = None -> PrintExc (attribute_error n) ∈ log s') ∧
    (∃ l, log s' = log s ++ l ∧ ∀ w, callback_runs w l = []).
Proof.
  intros Hc Hq Hfresh.
  assert (Hget : application s !! n = base !! n).
  { destruct Hc as (_ & _ & Happ). rewrite Happ.
    by apply dict_get_None in Hfresh as ->. }
  destruct (base !! n) as [f0|] eqn:Hbase.
  - destruct (register_consistent self base n f0 s Hc Hfresh Hbase)
      as (Hc' & Hk & Hr & Hl & He & Ht).
    assert (Hw : wrapped f0 self (Some scene_event_callback) None = wrap_for self n f0).
    { unfold wrap_for. by destruct (decide _). }
    set (s1 := exec _ s) in *.
    destruct (display_debug_log ("Registered callback on " +:+ n +:+ " ") s1)
      as (l & Hd & Hruns).
    eexists. split.
    { unfold try_except, bind at 1, getattr. rewrite Hget. rewrite Hw.
      unfold s1, exec, bind in Hd. simpl in Hd. unfold bind. simpl. rewrite Hd. done. }
    split_and!; simpl.
    + apply (consistent_log _ _ s1), Hc'.
    + apply Hk.
    + apply Hr.
    + apply He.
    + apply Ht.
    + done.
    + by exists l.
  - exists (emit (PrintExc (attribute_error n)) s). split.
    { unfold try_except, bind at 1, getattr. by rewrite Hget. }
    split_and!; simpl.
    + apply (consistent_log _ _ s), Hc.
    + by rewrite app_nil_r.
    + apply retabled_same; [apply Hc | done].
    + done.
    + done.
    + intros _. apply elem_of_app; right. by apply list_elem_of_singleton.
    + eexists. split; [reflexivity | done].
Qed.

Lemma scene_loop self base l s :
  consistent self base s ->
  NoDup l ->
  (∀ n, n ∈ l -> n ≠ SCENE_QUIT_EVENT_NAME ∧ n ∉ dict_keys (table self s)) ->
  ∃ s',
    for_each l (fun event_name =>
      try_except
        (let* event_fn := getattr event_name in
         let event_fn := wrapped event_fn self (Some scene_event_callback) None in
         let* _ := set_wrapped_fns self (dict_set event_name event_fn) in
         let* _ := setattr event_name event_fn in
         display_debug ("Registered callback on " +:+ event_name +:+ " "))
        (fun _ => true) (fun e => print_exc e)) s = (Ok tt, s') ∧
    consistent self base s' ∧
    dict_keys (table self s')
      = dict_keys (table self s) ++ filter (fun n => is_Some (base !! n)) l ∧
    retabled self s s' ∧ environ s' = environ s ∧ asctime s' = asctime s ∧
    (∀ n, n ∈ l -> base !! n = None -> PrintExc (attribute_error n) ∈ log s') ∧
    (∃ l', log s' = log s ++ l' ∧ ∀ w, callback_runs w l' = []).
Proof.
  revert s. induction l as [|n l IH]; intros s Hc Hnd Hl.
  - exists s. split_and!; try done.
    + by rewrite app_nil_r.
    + apply retabled_refl, Hc.
    + intros n Hn. by apply elem_of_nil in Hn.
    + exists []. by rewrite app_nil_r.
  - apply NoDup_cons in Hnd as [Hn Hnd].
    destruct (Hl n) as [Hq Hfresh]; [by apply elem_of_cons; left|].
    destruct (scene_turn self base n s Hc Hq Hfresh)
      as (s1 & Hrun & Hc1 & Hk1 & Hr1 & He1 & Ht1 & Hp1 & (l1 & Hl1 & Hq1)).
    destruct (IH s1 Hc1 Hnd)
      as (s2 & Hrun2 & Hc2 & Hk2 & Hr2 & He2 & Ht2 & Hp2 & (l2 & Hl2 & Hq2)).
    { intros n' Hn'. destruct (Hl n') as [? ?]; [by apply elem_of_cons; right|].
      split; [done|]. rewrite Hk1. apply not_elem_of_app. split; [done|].
      destruct (decide _); [|apply not_elem_of_nil].
      apply not_elem_of_cons. split; [|apply not_elem_of_nil]. by intros ->. }
    exists s2. split_and!.
    + simpl. by erewrite bind_Ok by exact Hrun.
    + done.
    + rewrite Hk2, Hk1, filter_cons, <-(assoc_L (++)).
      by destruct (decide _).
    + by eapply retabled_trans.
    + congruence.
    + congruence.
    + intros n' [->|Hn']%elem_of_cons Hb; [|by apply Hp2].
      rewrite Hl2. apply elem_of_app; left. by apply Hp1.
    + exists (l1 ++ l2). split; [by rewrite Hl2, Hl1, (assoc_L (++))|].
      intros w. by rewrite callback_runs_app, Hq1, Hq2.
Qed.

Lemma SCENE_EVENT_NAMES_NoDup : NoDup SCENE_EVENT_NAMES.
Proof. apply (bool_decide_unpack _). by vm_compute. Qed.

Lemma SCENE_EVENT_NAMES_not_quit n :
  n ∈ SCENE_EVENT_NAMES -> n ≠ SCENE_QUIT_EVENT_NAME.
Proof.
  intros Hn ->. revert Hn. apply (bool_decide_unpack _). by vm_compute.
Qed.

(** What [start_watching] does from a store in which the table and the
    host agree. *)
Lemma start_watching_consistent self base s :
  consistent self base s ->
  ∃ s',
    start_watching self s
      = (match base !! SCENE_QUIT_EVENT_NAME with
         | Some _ => Ok tt
         | None => Raise (attribute_error SCENE_QUIT_EVENT_NAME)
         end, s') ∧
    consistent self base s' ∧
    dict_keys (table self s') = filter (fun n => is_Some (base !! n)) WATCHED ∧
    retabled self s s' ∧ environ s' = environ s ∧ asctime s' = asctime s ∧
    (∀ n, n ∈ SCENE_EVENT_NAMES -> base !! n = None ->
          PrintExc (attribute_error n) ∈ log s') ∧
    (∃ l', log s' = log s ++ l' ∧ ∀ w, callback_runs w l' = []).
Proof.
  intros Hc.
  pose proof (stop_watching_consistent self base s Hc) as Hstop.
  destruct (stopped_consistent self base s) as [Hc0 Ht0]; [apply Hc|].
  destruct (scene_loop self base SCENE_EVENT_NAMES (stopped self base s) Hc0
              SCENE_EVENT_NAMES_NoDup)
    as (s1 & Hrun & Hc1 & Hk1 & Hr1 & He1 & Ht1 & Hp1 & (l1 & Hl1 & Hq1)).
  { intros n Hn. split; [by apply SCENE_EVENT_NAMES_not_quit|].
    rewrite Ht0. apply not_elem_of_nil. }
  rewrite Ht0 in Hk1. simpl in Hk1.
  assert (Hr : retabled self s s1).
  { eapply retabled_trans; [|exact Hr1]. apply retabled_stopped, Hc. }
  assert (Hfresh : SCENE_QUIT_EVENT_NAME ∉ dict_keys (table self s1)).
  { rewrite Hk1. intros [_ Hin]%list_elem_of_filter.
    by apply SCENE_EVENT_NAMES_not_quit in Hin. }
  assert (Hget : application s1 !! SCENE_QUIT_EVENT_NAME = base !! SCENE_QUIT_EVENT_NAME).
  { destruct Hc1 as (_ & _ & Happ). rewrite Happ.
    by apply dict_get_None in Hfresh as ->. }
  unfold start_watching. erewrite bind_Ok by exact Hstop.
  erewrite bind_Ok by exact Hrun.
  unfold WATCHED. rewrite filter_app.
  destruct (base !! SCENE_QUIT_EVENT_NAME) as [q|] eqn:Hq.
  - destruct (register_consistent self base _ q s1 Hc1 Hfresh Hq)
      as (Hc' & Hk & Hr' & Hl & He & Ht).
    assert (Hw : wrapped q self None (Some clarisse_exiting_callback)
                 = wrap_for self SCENE_QUIT_EVENT_NAME q).
    { unfold wrap_for. by destruct (decide _). }
    set (s2 := exec _ s1) in *.
    exists s2. split.
    { unfold bind at 1, getattr. by rewrite Hget, Hw. }
    split_and!.
    + exact Hc'.
    + rewrite Hk, Hk1. f_equal.
      rewrite filter_cons, decide_True by (rewrite Hq; eauto). done.
    + by eapply retabled_trans.
    + by rewrite He, He1.
    + by rewrite Ht, Ht1.
    + intros n Hn Hb. rewrite Hl. by apply Hp1.
    + exists l1. split; [by rewrite Hl, Hl1 | done].
  - exists s1. split.
    { unfold bind at 1, getattr. by rewrite Hget. }
    split_and!.
    + exact Hc1.
    + rewrite Hk1, filter_cons, decide_False by (rewrite Hq; by intros [? ?]).
      by rewrite filter_nil, app_nil_r.
    + exact Hr.
    + exact He1.
    + exact Ht1.
    + exact Hp1.
    + by exists l1.
Qed.

Lemma stopped_idem self base s :
  is_Some (watchers s !! self) ->
  stopped self base (stopped self base s) = stopped self base s.
Proof.
  intros [w Hw]. unfold stopped. simpl. rewrite Hw.
  rewrite list_lookup_insert_eq by (by eapply lookup_lt_Some). simpl.
  by rewrite list_insert_insert_eq.
Qed.

Lemma consistent_patched self base s :
  consistent self base s ->
  dict_keys (table self s) = filter (fun n => is_Some (base !! n)) WATCHED ->
  ∀ n, application s !! n = patched self base n.
Proof.
  intros (_ & Htbl & Happ) Hk n. rewrite Happ. unfold patched.
  destruct (dict_get n (table self s)) as [f|] eqn:Hget.
  - apply dict_get_Some in Hget as Hin.
    destruct (Htbl n f Hin) as (f0 & Hf0 & ->).
    assert (n ∈ dict_keys (table self s)) as Hn.
    { unfold dict_keys. apply list_elem_of_fmap. by exists (n, wrap_for self n f0). }
    rewrite Hk in Hn. apply list_elem_of_filter in Hn as [_ Hn].
    by rewrite decide_True, Hf0.
  - apply dict_get_None in Hget. rewrite Hk in Hget.
    destruct (decide (n ∈ WATCHED)) as [Hn|]; [|done].
    destruct (base !! n) eqn:Hb; [|done].
    destruct Hget. apply list_elem_of_filter. rewrite Hb. eauto.
Qed.

Lemma consistent_layers self base s :
  map_Forall (fun _ f => layers self f = 0) base ->
  consistent self base s ->
  ∀ n f, application s !! n = Some f -> (layers self f ≤ 1)%nat.
Proof.
  intros Hbase (_ & Htbl & Happ) n f. rewrite Happ.
  destruct (dict_get n (table self s)) as [f'|] eqn:Hget.
  - intros [= ->]. apply dict_get_Some in Hget.
    destruct (Htbl n f Hget) as (f0 & Hf0 & ->).
    destruct (wrap_for_closure self n f0) as (post & pre & ->). simpl.
    pose proof (Hbase n f0 Hf0) as H0. simpl in H0. rewrite H0.
    destruct (decide _); simpl; lia.
  - intros Hb. pose proof (Hbase n f Hb) as H0. simpl in H0. lia.
Qed.

Lemma consistent_patched_by self base s :
  map_Forall (fun _ f => layers self f = 0) base ->
  consistent self base s ->
  ∀ n, patched_by self s n <-> n ∈ dict_keys (table self s).
Proof.
  intros Hbase (_ & Htbl & Happ) n. unfold patched_by. rewrite Happ.
  destruct (dict_get n (table self s)) as [f'|] eqn:Hget.
  - apply dict_get_Some in Hget as Hin. split.
    + intros _. unfold dict_keys. apply list_elem_of_fmap. by exists (n, f').
    + intros _. destruct (Htbl n f' Hin) as (f0 & Hf0 & ->).
      destruct (wrap_for_closure self n f0) as (post & pre & ->). eauto.
  - apply dict_get_None in Hget. split; [|done].
    intros (f & post & pre & Hb). apply Hbase in Hb. simpl in Hb.
    by rewrite decide_True in Hb.
Qed.

Lemma run_ops_snoc self ops o s :
  run_ops self (ops ++ [o]) s = exec (run_op self o) (run_ops self ops s).
Proof. unfold run_ops. by rewrite foldl_app. Qed.

Lemma run_ops_consistent self base ops s :
  consistent self base s ->
  consistent self base (run_ops self ops s) ∧
  retabled self s (run_ops self ops s) ∧
  match last ops with
  | Some Start =>
      dict_keys (table self (run_ops self ops s))
        = filter (fun n => is_Some (base !! n)) WATCHED
  | Some Stop =>
      application (run_ops self ops s) = base ∧
      table self (run_ops self ops s) = []
  | None => True
  end.
Proof.
  intros Hc. induction ops as [|o ops IH] using rev_ind.
  - split_and!; [done | apply retabled_refl, Hc | done].
  - rewrite run_ops_snoc, last_snoc.
    destruct IH as (Hc' & Hr' & _). set (s1 := run_ops self ops s) in *.
    destruct o; simpl.
    + destruct (start_watching_consistent self base s1 Hc')
        as (s2 & Hrun & Hc2 & Hk & Hr & _).
      unfold exec. rewrite Hrun. simpl. split_and!; [done | | done].
      by eapply retabled_trans.
    + unfold exec. rewrite (stop_watching_consistent self base s1 Hc'). simpl.
      destruct (stopped_consistent self base s1) as [Hc2 Ht2]; [apply Hc'|].
      split_and!; [done | | done | done].
      eapply retabled_trans; [done|]. apply retabled_stopped, Hc'.
Qed.

Lemma allocated_consistent cb_fn run_once s :
  consistent (length (watchers s)) (application s) (allocated cb_fn run_once s).
Proof.
  assert (Hw : watchers (allocated cb_fn run_once s) !! length (watchers s)
               = Some (Build_watcher cb_fn run_once [])).
  { unfold allocated. simpl. by rewrite lookup_app_r, Nat.sub_diag. }
  unfold consistent, table. rewrite Hw. simpl. split_and!; [eauto | | done].
  intros n f Hin. by apply elem_of_nil in Hin.
Qed.

Lemma new_watcher_exec cb_fn run_once s :
  exec (__init__ cb_fn run_once) s
  = exec (start_watching (length (watchers s))) (allocated cb_fn run_once s).
Proof.
  unfold exec, __init__. unfold bind at 1, get. unfold bind at 1, modify.
  fold (allocated cb_fn run_once s). unfold bind.
  by destruct (start_watching _ _) as [[[]|e] s'].
Qed.

(** C1: after the constructor and any sequence of [start_watching] and
    [stop_watching] calls on the new watcher, the host is the unpatched host
    with exactly the watched entry points it exposes replaced by the
    watcher's closures if the last call was [start_watching], and the
    unpatched host if it was [stop_watching]; the attributes patched by the
    watcher are the keys of its table; no attribute is wrapped twice by the
    watcher; [stop_watching] restores the unpatched host, and a second
    [stop_watching] changes nothing. *)
Theorem watcher_start_stop_sequence (s0 : State) (cb_fn : callable)
    (run_once : bool) (ops : list op) :
  let self := length (watchers s0) in
  let base := application s0 in
  let s := run_ops self ops (exec (__init__ cb_fn run_once) s0) in
  map_Forall (fun _ f => layers self f = 0) base ->
  (∀ n, application s !! n =
        match last (Start :: ops) with
        | Some Stop => base !! n
        | _ => patched self base n
        end) ∧
  dict_keys (table self s) =
    match last (Start :: ops) with
    | Some Stop => []
    | _ => filter (fun n => is_Some (base !! n)) WATCHED
    end ∧
  (∀ n, patched_by self s n <-> n ∈ dict_keys (table self s)) ∧
  (∀ n f, application s !! n = Some f -> (layers self f ≤ 1)%nat) ∧
  (let s1 := exec (stop_watching self) s in
   stop_watching self s = (Ok tt, s1) ∧ application s1 = base ∧
   table self s1 = [] ∧ stop_watching self s1 = (Ok tt, s1)).
Proof.
  intros self base s Hbase.
  assert (Hs : s = run_ops self (Start :: ops) (allocated cb_fn run_once s0)).
  { unfold s. by rewrite new_watcher_exec. }
  destruct (run_ops_consistent self base (Start :: ops)
              (allocated cb_fn run_once s0))
    as (Hc & _ & Hlast); [apply allocated_consistent|].
  rewrite <-Hs in Hc, Hlast.
  split_and!.
  - intros n. destruct (last (Start :: ops)) as [[]|] eqn:Hl.
    + by apply consistent_patched.
    + destruct Hlast as [-> _]. done.
    + by apply last_None in Hl.
  - destruct (last (Start :: ops)) as [[]|] eqn:Hl.
    + done.
    + unfold dict_keys. by rewrite (proj2 Hlast).
    + by apply last_None in Hl.
  - by apply (consistent_patched_by self base).
  - by apply (consistent_layers self base).
  - intros s1. unfold s1, exec.
    rewrite (stop_watching_consistent self base s Hc). simpl.
    destruct (stopped_consistent self base s) as [Hc1 Ht1]; [apply Hc|].
    split_and!; [done | done | done |].
    rewrite (stop_watching_consistent self base _ Hc1).
    rewrite stopped_idem; [done | apply Hc].
Qed.

(** C1 at a host with every entry point: after stop, start, start the
    table holds the seven watched names. *)
Lemma watcher_start_stop_sequence_witness :
  map_Forall (fun _ f => layers 0 f = 0) full_host ∧
  dict_keys (table 0 (run_ops 0 [Stop; Start; Start]
                        (exec (__init__ a_callback false)
                           (session full_host)))) = WATCHED.
Proof.
  assert (H : map_Forall (fun _ f => layers 0 f = 0) full_host).
  { apply (bool_decide_unpack _). by vm_compute. }
  split; [exact H|].
  exact (proj1 (proj2 (watcher_start_stop_sequence (session full_host)
                         a_callback false [Stop; Start; Start] H))).
Defined.

End watcher_facts.

Section run_once_facts.
Import Watcher WatcherSpec.
Implicit Types (s : State) (self : nat) (tbl : list (string * fn))
  (n : string) (f : fn).

Lemma quiet_step_refl self s : quiet_step self s s.
Proof. by intros H. Qed.

Lemma quiet_step_trans self s1 s2 s3 :
  quiet_step self s1 s2 -> quiet_step self s2 s3 -> quiet_step self s1 s3.
Proof.
  intros H12 H23 H1. destruct (H12 H1) as (H2 & Hu2 & Hr2).
  destruct (H23 H2) as (H3 & Hu3 & Hr3). split_and!; [done | auto | congruence].
Qed.

Lemma quiet_ret {A} self (a : A) : quiet self (ret a).
Proof. intros s. apply quiet_step_refl. Qed.

Lemma quiet_raise {A} self e : quiet self (@raise State A e).
Proof. intros s. apply quiet_step_refl. Qed.

Lemma quiet_bind {A B} self (m : M State A) (k : A -> M State B) :
  quiet self m -> (∀ a, quiet self (k a)) -> quiet self (bind m k).
Proof.
  intros Hm Hk s. unfold exec, bind. specialize (Hm s). unfold exec in Hm.
  destruct (m s) as [[a|e] s1]; simpl in *; [|done].
  eapply quiet_step_trans; [exact Hm|]. apply Hk.
Qed.

Lemma quiet_try_except {A} self (m : M State A) catches handler :
  quiet self m -> (∀ e, quiet self (handler e)) ->
  quiet self (try_except m catches handler).
Proof.
  intros Hm Hh s. unfold exec, try_except. specialize (Hm s). unfold exec in Hm.
  destruct (m s) as [[a|e] s1]; simpl in *; [done|].
  destruct (catches e); [|done].
  eapply quiet_step_trans; [exact Hm|]. apply Hh.
Qed.

Lemma quiet_get_watcher self i : quiet self (get_watcher i).
Proof.
  intros s. unfold exec, get_watcher.
  destruct (watchers s !! i); apply quiet_step_refl.
Qed.

(** Stores with the same host and watchers. *)
Lemma armed_log self s l :
  armed self s ->
  armed self (Build_State (application s) (watchers s) (environ s) (asctime s) l).
Proof. by intros H. Qed.

Lemma unpatched_log self s l :
  unpatched self s ->
  unpatched self (Build_State (application s) (watchers s) (environ s) (asctime s) l).
Proof. by intros H. Qed.

Lemma runs_emit self s e :
  runs self (emit e s) = runs self s ++ (if is_run_of self e then [e] else []).
Proof.
  unfold runs, callback_runs, emit. simpl. rewrite List.filter_app. simpl.
  by destruct (is_run_of self e).
Qed.

Lemma quiet_invoke_cb_fn self i : i ≠ self -> quiet self (invoke_cb_fn i).
Proof.
  intros Hi s. unfold exec, invoke_cb_fn, bind, get_watcher.
  destruct (watchers s !! i) as [w|]; [|apply quiet_step_refl].
  assert (Hq : quiet_step self s
            (emit (UserCallback i (cb_label (__cb_fn w)) (application s)) s)).
  { intros Ha. split_and!.
    - by apply (armed_log self s).
    - by apply (unpatched_log self s).
    - rewrite runs_emit. simpl. rewrite bool_decide_eq_false_2 by done.
      by rewrite app_nil_r. }
  by destruct (cb_raises (__cb_fn w)).
Qed.

(** What another watcher can do to the store: put callables without a
    closure of [self] into the host, and empty its own table. *)
Lemma quiet_step_others self s s' :
  watchers s' !! self = watchers s !! self ->
  (∀ j w', j ≠ self -> watchers s' !! j = Some w' ->
     __wrapped_fns w' = [] ∨ watchers s !! j = Some w') ->
  (∀ n f, application s' !! n = Some f ->
     application s !! n = Some f ∨ layers self f = 0) ->
  log s' = log s ->
  quiet_step self s s'.
Proof.
  intros Hself Hothers Happ Hlog (H1 & H2 & H3 & H4).
  assert (Ht : table self s' = table self s) by (unfold table; by rewrite Hself).
  split_and!.
  - split_and!.
    + by rewrite Hself.
    + by rewrite Ht.
    + intros j w' Hj Hw' n f Hin.
      destruct (Hothers j w' Hj Hw') as [Hnil|Hw]; [|by eapply H3].
      rewrite Hnil in Hin. by apply elem_of_nil in Hin.
    + intros n f Hf. rewrite Ht. destruct (Happ n f Hf); auto.
  - intros [Hu1 Hu2]. split; [by rewrite Ht|].
    intros n f Hf. destruct (Happ n f Hf) as [Hf'|]; [|done]. by apply (Hu2 n f).
  - unfold runs. by rewrite Hlog.
Qed.

Lemma layers_closure_0 self f0 w post pre :
  layers self (Closure f0 w post pre) = 0 -> w ≠ self ∧ layers self f0 = 0.
Proof.
  simpl. destruct (decide (w = self)); [done|]. simpl. auto.
Qed.

Lemma restore_clean_loop self tbl s :
  (∀ n f, (n, f) ∈ tbl -> layers self f = 0) ->
  ∃ m', (for_each tbl (fun item =>
           let* original := _original item.2 in setattr item.1 original) s).2
        = set_application (fun _ => m') s ∧
        (∀ n f, m' !! n = Some f ->
           application s !! n = Some f ∨ layers self f = 0).
Proof.
  revert s. induction tbl as [|[n f] tbl IH]; intros s Htbl.
  - exists (application s). split; [|auto].
    simpl. unfold set_application. by rewrite State_eta.
  - assert (Hf : layers self f = 0) by (apply (Htbl n); by apply elem_of_cons; left).
    destruct f as [name beh|f0 w post pre].
    + exists (application s). split; [|auto].
      simpl. unfold bind. simpl. unfold set_application. by rewrite State_eta.
    + apply layers_closure_0 in Hf as [_ Hf0].
      destruct (IH (set_application (insert n f0) s)) as (m' & Hrun & Hm').
      { intros n' f' Hin. apply (Htbl n'). by apply elem_of_cons; right. }
      exists m'. split.
      * simpl. unfold bind at 1. simpl.
        change (modify (set_application (insert n f0)) s)
          with (Ok tt, set_application (insert n f0) s). simpl.
        rewrite Hrun. done.
      * intros n' f' Hf'. destruct (Hm' n' f' Hf') as [Hin|]; [|by right].
        simpl in Hin. destruct (decide (n = n')) as [<-|Hne].
        -- rewrite lookup_insert_eq in Hin. injection Hin as <-. by right.
        -- rewrite lookup_insert_ne in Hin by done. by left.
Qed.

Lemma quiet_stop_other self i : i ≠ self -> quiet self (stop_watching i).
Proof.
  intros Hi s Ha. revert Ha. change (quiet_step self s (exec (stop_watching i) s)).
  unfold exec, stop_watching. unfold bind at 1, get_watcher.
  destruct (watchers s !! i) as [w|] eqn:Hw; [|apply quiet_step_refl].
  intros Ha. revert Ha.
  change (quiet_step self s
    ((let* _ := for_each (__wrapped_fns w) (fun item =>
                  let* original := _original item.2 in setattr item.1 original) in
      set_wrapped_fns i (fun _ => [])) s).2).
  intros Ha.
  destruct (restore_clean_loop self (__wrapped_fns w) s) as (m' & Hrun & Hm').
  { destruct Ha as (_ & _ & H3 & _). by apply (H3 i w). }
  revert Ha. unfold bind.
  destruct (for_each _ _ s) as [[[]|e] s1] eqn:Hloop; simpl in Hrun; subst s1.
  - apply quiet_step_others; simpl; [| |done|done].
    + rewrite Hw. by rewrite list_lookup_insert_ne.
    + intros j w' Hj. rewrite Hw. destruct (decide (i = j)) as [<-|Hne].
      * rewrite list_lookup_insert_eq by (by eapply lookup_lt_Some).
        intros [= <-]. by left.
      * rewrite list_lookup_insert_ne by done. auto.
  - apply quiet_step_others; simpl; auto.
Qed.

Lemma quiet_run_callback self i c : i ≠ self -> quiet self (run_callback c i).
Proof.
  intros Hi. destruct c; simpl.
  - unfold __scene_event_callback. apply quiet_bind; [apply quiet_get_watcher|].
    intros w. apply quiet_bind; [|intros _; by apply quiet_invoke_cb_fn].
    destruct (__run_once w); [by apply quiet_stop_other | apply quiet_ret].
  - by apply quiet_stop_other.
Qed.

Lemma quiet_wrapper self i (function : args -> M State value) post pre a :
  i ≠ self -> quiet self (function a) ->
  quiet self (wrapper function i (option_map run_callback post)
                (option_map run_callback pre) a).
Proof.
  intros Hi Hf. unfold wrapper.
  apply quiet_try_except; [|intros e; apply quiet_raise].
  apply quiet_bind.
  { destruct pre; simpl; [by apply quiet_run_callback | apply quiet_ret]. }
  intros _. apply quiet_bind; [done|].
  intros r. apply quiet_bind; [|intros _; apply quiet_ret].
  destruct post; simpl; [by apply quiet_run_callback | apply quiet_ret].
Qed.

(** A callable without a closure of [self] never runs its callback. *)
Lemma quiet_call self f a : layers self f = 0 -> quiet self (call f a).
Proof.
  revert a. induction f as [name beh|f0 IH w post pre]; intros a Hf.
  - intros s. unfold exec. simpl. intros Ha. split_and!.
    + by apply (armed_log self s).
    + by apply (unpatched_log self s).
    + by rewrite runs_emit, app_nil_r.
  - apply layers_closure_0 in Hf as [Hw Hf0]. simpl.
    apply quiet_wrapper; auto.
Qed.

Lemma restore_clean self tbl (m : gmap string fn) :
  (∀ n f, (n, f) ∈ tbl -> ∃ f0, f = wrap_for self n f0 ∧ layers self f0 = 0) ->
  (∀ n f, m !! n = Some f -> layers self f = 0 ∨ (n, f) ∈ tbl) ->
  map_Forall (fun _ f => layers self f = 0) (restore tbl m).
Proof.
  revert m. induction tbl as [|[n f] tbl IH]; intros m Htbl Hm.
  - intros n f Hf. destruct (Hm n f Hf) as [|Hin]; [done|].
    by apply elem_of_nil in Hin.
  - destruct (Htbl n f) as (f0 & -> & Hf0); [by apply elem_of_cons; left|].
    destruct (wrap_for_closure self n f0) as (post & pre & Hw).
    unfold restore. simpl. rewrite Hw.
    assert (Hself : layers self (Closure f0 self post pre) ≠ 0).
    { simpl. by rewrite decide_True. }
    apply IH.
    + intros n' f' Hin. apply Htbl. by apply elem_of_cons; right.
    + intros n' f'. destruct (decide (n = n')) as [<-|Hne].
      * rewrite lookup_insert_eq. intros [= <-]. by left.
      * rewrite lookup_insert_ne by done. intros Hf'.
        destruct (Hm n' f' Hf') as [|[[= -> ->]|Hin]%elem_of_cons]; auto.
        done.
Qed.

Lemma stop_self_armed self s :
  armed self s ->
  ∃ s', stop_watching self s = (Ok tt, s') ∧ armed self s' ∧
        unpatched self s' ∧ log s' = log s.
Proof.
  intros ((w & Hw & Hro) & H2 & H3 & H4).
  assert (Htab : table self s = __wrapped_fns w) by (unfold table; by rewrite Hw).
  rewrite Htab in H2, H4.
  assert (Hlt : self < length (watchers s)) by (by eapply lookup_lt_Some).
  eexists. split.
  { unfold stop_watching. unfold bind at 1, get_watcher. rewrite Hw.
    erewrite bind_Ok.
    2:{ apply (restore_loop self). intros n f Hin.
        destruct (H2 n f Hin) as (f0 & -> & _). eauto. }
    unfold set_wrapped_fns, modify, set_watchers, set_application. simpl.
    rewrite Hw. reflexivity. }
  assert (Hclean : map_Forall (fun _ f => layers self f = 0)
                     (restore (__wrapped_fns w) (application s))).
  { by apply restore_clean. }
  assert (Ht' : ∀ a e t l,
    table self (Build_State a
      (<[self := Build_watcher (__cb_fn w) (__run_once w) []]> (watchers s)) e t l) = []).
  { intros. unfold table. simpl. by rewrite list_lookup_insert_eq. }
  split_and!; simpl.
  - split_and!; simpl.
    + rewrite list_lookup_insert_eq by done. eauto.
    + rewrite Ht'. intros n f Hin. by apply elem_of_nil in Hin.
    + intros i w' Hi. rewrite list_lookup_insert_ne by done. by apply H3.
    + intros n f Hf. left. by apply (Hclean n f).
  - split; [apply Ht' | done].
  - done.
Qed.

Lemma scene_callback_self self s :
  armed self s ->
  let s' := exec (__scene_event_callback self) s in
  armed self s' ∧ unpatched self s' ∧
  ∃ label attrs,
    runs self s' = runs self s ++ [UserCallback self label attrs] ∧
    map_Forall (fun _ f => layers self f = 0) attrs.
Proof.
  intros Ha s'. destruct Ha as [(w & Hw & Hro) Hrest] eqn:E. clear E.
  destruct (stop_self_armed self s Ha) as (s1 & Hstop & Ha1 & Hu1 & Hl1).
  destruct Ha1 as [(w1 & Hw1 & Hro1) Hrest1] eqn:E. clear E.
  assert (Hs' : s' = emit (UserCallback self (cb_label (__cb_fn w1)) (application s1)) s1).
  { unfold s', exec, __scene_event_callback. unfold bind at 1, get_watcher.
    rewrite Hw, Hro. erewrite bind_Ok by exact Hstop.
    unfold invoke_cb_fn, bind, get_watcher. rewrite Hw1.
    by destruct (cb_raises (__cb_fn w1)). }
  rewrite Hs'. split_and!.
  - by apply (armed_log self s1).
  - by apply (unpatched_log self s1).
  - exists (cb_label (__cb_fn w1)), (application s1). split; [|apply Hu1].
    rewrite runs_emit. simpl. rewrite bool_decide_eq_true_2 by done.
    unfold runs. by rewrite Hl1.
Qed.

Lemma quiet_event_step self s s' : quiet_step self s s' -> event_step self s s'.
Proof.
  intros Hq Ha. destruct (Hq Ha) as (Ha' & Hu & Hr).
  split_and!; [done | auto | by left].
Qed.

(** Calling a closure that is in the table of [self]. *)
Lemma own_closure_step self s n f a :
  armed self s -> (n, f) ∈ table self s ->
  event_step self s (exec (call f a) s).
Proof.
  intros Ha Hin _. destruct Ha as (H1 & H2 & H3 & H4) eqn:E. clear E.
  destruct (H2 n f Hin) as (f0 & -> & Hf0).
  assert (Hnu : ¬ unpatched self s).
  { intros [Ht _]. rewrite Ht in Hin. by apply elem_of_nil in Hin. }
  unfold wrap_for, wrapped. destruct (decide (n = SCENE_QUIT_EVENT_NAME)) as [Hq|Hq].
  - (* quit: the watcher stops, then the original runs *)
    destruct (stop_self_armed self s Ha) as (s1 & Hstop & Ha1 & Hu1 & Hl1).
    destruct (quiet_call self f0 a Hf0 s1 Ha1) as (Ha2 & Hu2 & Hr2).
    assert (Hs : exec (call (Closure f0 self None (Some clarisse_exiting_callback)) a) s
                 = exec (call f0 a) s1).
    { unfold exec. simpl. unfold wrapper. rewrite try_except_reraise. simpl.
      unfold __clarisse_exiting_callback. erewrite bind_Ok by exact Hstop.
      unfold bind, ret. destruct (call f0 a s1) as [[v|e] s2]; done. }
    rewrite Hs. split_and!; [done | done |]. left.
    rewrite Hr2. unfold runs. by rewrite Hl1.
  - (* a scene event: the original runs, then the callback *)
    destruct (quiet_call self f0 a Hf0 s Ha) as (Ha1 & Hu1 & Hr1).
    unfold exec in Ha1, Hu1, Hr1.
    destruct (call f0 a s) as [[v|e] s1] eqn:Hcall; simpl in Ha1, Hu1, Hr1.
    + assert (Hs : exec (call (Closure f0 self (Some scene_event_callback) None) a) s
                   = exec (__scene_event_callback self) s1).
      { unfold exec. simpl. unfold wrapper. rewrite try_except_reraise. simpl.
        unfold bind at 1, ret at 1. erewrite bind_Ok by exact Hcall.
        apply bind_snd_ret. }
      rewrite Hs.
      destruct (scene_callback_self self s1 Ha1)
        as (Ha2 & Hu2 & lbl & attrs & Hr2 & Hat).
      split_and!; [done | done |]. right. exists lbl, attrs.
      split_and!; [by rewrite Hr2, Hr1 | done | done].
    + assert (Hs : exec (call (Closure f0 self (Some scene_event_callback) None) a) s
                   = s1).
      { unfold exec. simpl. unfold wrapper. rewrite try_except_reraise. simpl.
        unfold bind at 1, ret at 1. by erewrite bind_Raise by exact Hcall. }
      rewrite Hs. split_and!; [done | done | by left].
Qed.

Lemma fire_event_step self n a s : event_step self s (exec (fire n a) s).
Proof.
  intros Ha. revert Ha. change (event_step self s (exec (fire n a) s)).
  unfold exec, fire. unfold bind at 1, getattr.
  destruct (application s !! n) as [f|] eqn:Hf.
  - intros Ha. destruct Ha as (H1 & H2 & H3 & H4) eqn:E. clear E.
    revert Ha. destruct (H4 n f Hf) as [Hc|Hin].
    + apply quiet_event_step. by apply quiet_call.
    + intros Ha. by apply (own_closure_step self s n f a).
  - apply quiet_event_step, quiet_step_refl.
Qed.

Lemma at_most_once_step self before s s' :
  armed self s -> event_step self s s' ->
  at_most_once self before s ->
  armed self s' ∧ at_most_once self before s'.
Proof.
  intros Ha Hstep Hone. destruct (Hstep Ha) as (Ha' & Hu & Hr).
  split; [done|]. destruct Hone as [Hb|(lbl & attrs & Hb & Hat & Hun)].
  - destruct Hr as [Hr|(lbl & attrs & Hr & Hat & Hun)].
    + left. congruence.
    + right. exists lbl, attrs. by rewrite Hr, Hb.
  - destruct (Hu Hun) as [Hun' Hr']. right. exists lbl, attrs.
    by rewrite Hr', Hb.
Qed.

Lemma fire_all_at_most_once self before events s :
  armed self s -> at_most_once self before s ->
  armed self (fire_all events s) ∧ at_most_once self before (fire_all events s).
Proof.
  revert s. induction events as [|[n a] events IH]; intros s Ha Hone; [done|].
  simpl. destruct (at_most_once_step self before s (exec (fire n a) s) Ha
                     (fire_event_step self n a s) Hone) as [Ha' Hone'].
  by apply IH.
Qed.

Lemma new_watcher_armed cb_fn s0 :
  fresh_for (length (watchers s0)) s0 ->
  let self := length (watchers s0) in
  let s1 := exec (__init__ cb_fn true) s0 in
  armed self s1 ∧ runs self s1 = runs self s0.
Proof.
  intros [Hf1 Hf2] self s1.
  destruct (start_watching_consistent self (application s0)
              (allocated cb_fn true s0))
    as (s2 & Hrun & Hc & _ & Hr & _ & _ & _ & (l & Hl & Hq));
    [apply allocated_consistent|].
  assert (Hs1 : s1 = s2).
  { unfold s1. rewrite new_watcher_exec. unfold exec. fold self. by rewrite Hrun. }
  rewrite Hs1. clear Hs1 s1.
  destruct Hr as (w & tbl' & Hw & Hws).
  assert (Hw0 : w = Build_watcher cb_fn true []).
  { unfold allocated, self in Hw. simpl in Hw.
    rewrite lookup_app_r, Nat.sub_diag in Hw by done. by injection Hw. }
  subst w. simpl in Hws.
  assert (Hlt : self < length (watchers (allocated cb_fn true s0))).
  { unfold allocated, self. simpl. rewrite length_app. simpl. lia. }
  destruct Hc as (_ & Htbl & Happ).
  split.
  - split_and!.
    + rewrite Hws, list_lookup_insert_eq by done. eauto.
    + intros n f Hin. destruct (Htbl n f Hin) as (f0 & Hb & ->).
      exists f0. split; [done|]. by apply (Hf1 n f0).
    + intros i w Hi. rewrite Hws, list_lookup_insert_ne by done.
      unfold allocated. simpl. intros Hw'.
      apply lookup_app_Some in Hw' as [Hw'|[Hge Hw']]; [by eapply Hf2|].
      apply list_lookup_singleton_Some in Hw' as [Hz _]. unfold self in Hi. lia.
    + intros n f. rewrite Happ.
      destruct (dict_get n (table self s2)) as [f'|] eqn:Hget.
      * intros [= ->]. right. by apply dict_get_Some.
      * intros Hb. left. by apply (Hf1 n f).
  - unfold runs. by rewrite Hl, callback_runs_app, Hq, app_nil_r.
Qed.

(** C2: for a watcher made with [run_once=True], after any sequence of host
    lifecycle events the log holds no run of its callback beyond those
    before it was made, or exactly one; that run saw a host without any
    closure of the watcher, and from then on the watcher's table is empty
    and the host holds no closure of it. *)
Theorem run_once_callback_at_most_once (s0 : State) (cb_fn : callable)
    (events : list (string * args)) :
  let self := length (watchers s0) in
  let s := fire_all events (exec (__init__ cb_fn true) s0) in
  fresh_for self s0 ->
  callback_runs self (log s) = callback_runs self (log s0) ∨
  ∃ label attrs,
    callback_runs self (log s)
      = callback_runs self (log s0) ++ [UserCallback self label attrs] ∧
    map_Forall (fun _ f => layers self f = 0) attrs ∧
    table self s = [] ∧
    map_Forall (fun _ f => layers self f = 0) (application s).
Proof.
  intros self s Hfresh.
  destruct (new_watcher_armed cb_fn s0 Hfresh) as [Ha Hr].
  destruct (fire_all_at_most_once self (runs self s0) events
              (exec (__init__ cb_fn true) s0) Ha) as [_ Hone];
    [by left|].
  destruct Hone as [Hb|(lbl & attrs & Hb & Hat & Ht & Hm)]; [by left|].
  right. by exists lbl, attrs.
Qed.

(** C2 at a host with every entry point and three events. *)
Lemma run_once_callback_at_most_once_witness :
  fresh_for 0 (session full_host) ∧
  (length (callback_runs 0
             (log (fire_all [("load_project", ["/jobs/shot010.project"]);
                             ("save_project", []); ("new_project", [])]
                     (exec (__init__ a_callback true) (session full_host)))))
   ≤ 1)%nat.
Proof.
  assert (H : fresh_for 0 (session full_host)).
  { split; [apply (bool_decide_unpack _); by vm_compute|].
    intros i w Hw. simpl in Hw. by destruct i. }
  split; [exact H|].
  destruct (run_once_callback_at_most_once (session full_host) a_callback
              [("load_project", ["/jobs/shot010.project"]);
               ("save_project", []); ("new_project", [])] H)
    as [Heq|(label & attrs & Heq & _)].
  - exact (eq_ind_r (x := callback_runs 0 (log (session full_host)))
             (fun l => (length l ≤ 1)%nat) (le_S 0 0 (le_n 0)) Heq).
  - exact (eq_ind_r (x := [UserCallback 0 label attrs])
             (fun l => (length l ≤ 1)%nat) (le_n 1) Heq).
Defined.

(** On a host with every entry point the callback of a [run_once] watcher
    does run on the first event, on the host as it was before the watcher
    was made, and on no later event. *)
Example run_once_callback_runs_once :
  callback_runs 0
    (log (fire_all [("load_project", ["/jobs/shot010.project"]);
                    ("save_project", []); ("new_project", [])]
            (exec (__init__ a_callback true) (session full_host))))
  = [UserCallback 0 "on_scene_event_callback" full_host].
Proof. vm_compute. reflexivity. Qed.

End run_once_facts.

Section wrapper_facts.
Import Watcher WatcherSpec.
Implicit Types (s : State) (self : nat) (n : string) (f : fn).

Lemma new_watcher_result cb_fn run_once s :
  __init__ cb_fn run_once s
  = match start_watching (length (watchers s)) (allocated cb_fn run_once s) with
    | (Ok _, s') => (Ok (length (watchers s)), s')
    | (Raise e, s') => (Raise e, s')
    end.
Proof.
  unfold __init__. unfold bind at 1, get. unfold bind at 1, modify.
  fold (allocated cb_fn run_once s). unfold bind, ret.
  by destruct (start_watching _ _) as [[[]|e] s'].
Qed.

(** The host after [__init__]: every watched entry point it exposes is the
    closure over its previous value; the others are as they were. *)
Lemma new_watcher_patched cb_fn run_once s0 n :
  application (exec (__init__ cb_fn run_once) s0) !! n
  = patched (length (watchers s0)) (application s0) n.
Proof.
  destruct (start_watching_consistent (length (watchers s0)) (application s0)
              (allocated cb_fn run_once s0))
    as (s2 & Hrun & Hc & Hk & _); [apply allocated_consistent|].
  rewrite new_watcher_exec. unfold exec. rewrite Hrun. simpl.
  by apply consistent_patched.
Qed.

Lemma call_scene_closure f0 self a s :
  call (wrapped f0 self (Some scene_event_callback) None) a s
  = (let* result := call f0 a in
     let* _ := __scene_event_callback self in
     ret result) s.
Proof. simpl. unfold wrapper. by rewrite try_except_reraise. Qed.

Lemma call_quit_closure f0 self a s :
  call (wrapped f0 self None (Some clarisse_exiting_callback)) a s
  = (let* _ := __clarisse_exiting_callback self in call f0 a) s.
Proof.
  simpl. unfold wrapper. rewrite try_except_reraise. simpl. unfold bind, ret.
  destruct (__clarisse_exiting_callback self s) as [[[]|e] s1]; [|done].
  by destruct (call f0 a s1) as [[v|e] s2].
Qed.

(** What [__init__] leaves: table and host agree over the host it found. *)
Lemma init_consistent cb_fn run_once s :
  let self := length (watchers s) in
  let s1 := exec (__init__ cb_fn run_once) s in
  consistent self (application s) s1 ∧
  dict_keys (table self s1)
    = filter (fun n => is_Some (application s !! n)) WATCHED ∧
  watchers s1 = watchers s ++ [Build_watcher cb_fn run_once (table self s1)] ∧
  environ s1 = environ s ∧ asctime s1 = asctime s.
Proof.
  intros self s1.
  destruct (start_watching_consistent self (application s)
              (allocated cb_fn run_once s))
    as (s2 & Hrun & Hc & Hk & Hr & He & Ht & _); [apply allocated_consistent|].
  assert (Hs : s1 = s2).
  { unfold s1. rewrite new_watcher_exec. unfold exec. fold self. by rewrite Hrun. }
  rewrite Hs. split_and!; try done.
  destruct Hr as (w & tbl' & Hw & Hws).
  unfold allocated, self in Hw, Hws. simpl in Hw, Hws.
  rewrite lookup_app_r, Nat.sub_diag in Hw by done. injection Hw as <-.
  simpl in Hws.
  rewrite insert_app_r_alt, Nat.sub_diag in Hws by done. simpl in Hws.
  unfold table. rewrite Hws.
  by rewrite lookup_app_r, Nat.sub_diag by done.
Qed.

(** C3: after the constructor, calling a patched scene entry point calls the
    captured original with the same arguments and then the watcher's
    post-callback, returning the original's result: when the original is a
    function of the host that returns, the host call comes first and the
    user callback second, on the stopped watcher if it is [run_once].
    Calling the patched [quit] runs the pre-callback, which stops the
    watcher: the host has its own entry points again and the table is
    empty when the original runs. *)
Theorem patched_entry_point_order (s0 : State) (cb_fn : callable)
    (run_once : bool) (n : string) (f0 : fn) (a : args) :
  let self := length (watchers s0) in
  let base := application s0 in
  let s1 := exec (__init__ cb_fn run_once) s0 in
  application s0 !! n = Some f0 ->
  (n ∈ SCENE_EVENT_NAMES ->
   fire n a s1
   = (let* result := call f0 a in
      let* _ := __scene_event_callback self in
      ret result) s1 ∧
   ∀ name behaviour v, f0 = HostFn name behaviour -> behaviour a = Ok v ->
     let s2 := emit (HostCall name a) s1 in
     let s3 := if run_once then stopped self base s2 else s2 in
     fire n a s1
     = (match cb_raises cb_fn with None => Ok v | Some e => Raise e end,
        emit (UserCallback self (cb_label cb_fn) (application s3)) s3)) ∧
  (n = SCENE_QUIT_EVENT_NAME ->
   fire n a s1
   = (let* _ := __clarisse_exiting_callback self in call f0 a) s1 ∧
   __clarisse_exiting_callback self s1 = (Ok tt, stopped self base s1) ∧
   fire n a s1 = call f0 a (stopped self base s1) ∧
   application (stopped self base s1) = base ∧
   table self (stopped self base s1) = []).
Proof.
  intros self base s1 Hf0.
  pose proof (new_watcher_patched cb_fn run_once s0 n) as Hp.
  fold self s1 in Hp. unfold patched in Hp. rewrite Hf0 in Hp. simpl in Hp.
  destruct (init_consistent cb_fn run_once s0) as (Hc & _ & Hws & _).
  fold self base s1 in Hc, Hws.
  assert (Hself : watchers s1 !! self
                  = Some (Build_watcher cb_fn run_once (table self s1))).
  { rewrite Hws. by rewrite lookup_app_r, Nat.sub_diag by done. }
  split.
  - intros Hn. rewrite decide_True in Hp
      by (unfold WATCHED; apply elem_of_app; by left).
    assert (Hfire : fire n a s1
                    = (let* result := call f0 a in
                       let* _ := __scene_event_callback self in
                       ret result) s1).
    { unfold fire. unfold bind at 1, getattr. rewrite Hp.
      unfold wrap_for.
      rewrite decide_False by (by apply SCENE_EVENT_NAMES_not_quit).
      apply call_scene_closure. }
    split; [exact Hfire|].
    intros name behaviour v -> Hv s2 s3. rewrite Hfire.
    unfold bind at 1.
    change (call (HostFn name behaviour) a s1) with (behaviour a, s2).
    rewrite Hv. cbv beta iota.
    assert (Hc2 : consistent self base s2) by done.
    unfold __scene_event_callback.
    unfold bind at 1. unfold bind at 1.
    assert (Hget : get_watcher self s2
                   = (Ok (Build_watcher cb_fn run_once (table self s1)), s2)).
    { unfold get_watcher. change (watchers s2) with (watchers s1).
      by rewrite Hself. }
    rewrite Hget. cbn [__run_once].
    assert (Hstop : (if run_once then stop_watching self else ret tt) s2
                    = (Ok tt, s3)).
    { unfold s3. destruct run_once; [|done].
      by apply stop_watching_consistent. }
    unfold bind at 1. rewrite Hstop.
    assert (Hget3 : ∃ tbl, watchers s3 !! self
                           = Some (Build_watcher cb_fn run_once tbl)).
    { unfold s3. destruct run_once; [|by eexists].
      unfold stopped. simpl. rewrite Hself. eexists.
      by rewrite list_lookup_insert_eq by (by eapply lookup_lt_Some). }
    destruct Hget3 as [tbl Hget3].
    unfold invoke_cb_fn, bind, get_watcher, ret. rewrite Hget3. simpl.
    by destruct (cb_raises cb_fn).
  - intros ->. rewrite decide_True in Hp
      by (unfold WATCHED; apply elem_of_app; right; by apply list_elem_of_singleton).
    assert (Hfire : fire SCENE_QUIT_EVENT_NAME a s1
                    = (let* _ := __clarisse_exiting_callback self in
                       call f0 a) s1).
    { unfold fire. unfold bind at 1, getattr. rewrite Hp.
      unfold wrap_for. rewrite decide_True by done.
      apply call_quit_closure. }
    assert (Hstop : __clarisse_exiting_callback self s1
                    = (Ok tt, stopped self base s1)).
    { unfold __clarisse_exiting_callback. by apply stop_watching_consistent. }
    split_and!; [exact Hfire|exact Hstop| |done|].
    + rewrite Hfire. by rewrite (bind_Ok _ _ s1 tt _ Hstop).
    + apply stopped_consistent. by destruct Hc.
Qed.

(** C3 at [save_project] and at [quit]: the host function is logged first
    and the user callback second; [quit] runs on the host's own entry
    points, the watcher's table empty. *)
Lemma patched_entry_point_order_witness :
  let s1 := exec (__init__ a_callback false) (session full_host) in
  fire "save_project" ["/jobs/shot010.project"] s1
  = (Ok "save_project",
     emit (UserCallback 0 "on_scene_event_callback" (application s1))
       (emit (HostCall "save_project" ["/jobs/shot010.project"]) s1)) ∧
  fire "quit" [] s1
  = (Ok "quit", emit (HostCall "quit" []) (stopped 0 full_host s1)) ∧
  application (exec (fire "quit" []) s1) = full_host.
Proof.
  intros s1.
  pose proof (patched_entry_point_order (session full_host) a_callback false
                "save_project" (host_fn "save_project")
                ["/jobs/shot010.project"] eq_refl) as [Hsave _].
  pose proof (patched_entry_point_order (session full_host) a_callback false
                "quit" (host_fn "quit") [] eq_refl) as [_ Hquit].
  specialize (Hsave ltac:(apply (bool_decide_unpack _); by vm_compute)).
  destruct Hsave as [_ Hsave].
  specialize (Hsave "save_project" (fun _ => Ok "save_project") "save_project"
                eq_refl eq_refl).
  destruct (Hquit eq_refl) as (_ & _ & Hq & _).
  split_and!.
  - etrans; [exact Hsave|]. vm_compute. reflexivity.
  - exact Hq.
  - unfold exec. fold s1 in Hq. by rewrite Hq.
Defined.

(** When the host exposes [quit], [__init__] returns: an entry point of the
    loop that the host lacks is skipped, with its traceback printed, and
    the others are patched. *)
Lemma start_watching_skips_missing (s0 : State) cb_fn run_once :
  is_Some (application s0 !! SCENE_QUIT_EVENT_NAME) ->
  let self := length (watchers s0) in
  (__init__ cb_fn run_once s0).1 = Ok self ∧
  ∀ n, n ∈ SCENE_EVENT_NAMES ->
    match application s0 !! n with
    | Some f =>
        application (exec (__init__ cb_fn run_once) s0) !! n
        = Some (wrapped f self (Some scene_event_callback) None)
    | None =>
        application (exec (__init__ cb_fn run_once) s0) !! n = None ∧
        PrintExc (attribute_error n)
          ∈ log (exec (__init__ cb_fn run_once) s0)
    end.
Proof.
  intros [q Hq] self.
  destruct (start_watching_consistent self (application s0)
              (allocated cb_fn run_once s0))
    as (s2 & Hrun & Hc & Hk & _ & _ & _ & Hp & _); [apply allocated_consistent|].
  rewrite Hq in Hrun. split.
  - rewrite new_watcher_result. fold self. by rewrite Hrun.
  - intros n Hn. rewrite new_watcher_patched. fold self.
    assert (Hs : exec (__init__ cb_fn run_once) s0 = s2).
    { rewrite new_watcher_exec. unfold exec. fold self. by rewrite Hrun. }
    rewrite Hs. unfold patched.
    rewrite decide_True by (unfold WATCHED; apply elem_of_app; by left).
    destruct (application s0 !! n) as [f|] eqn:Hf; simpl.
    + unfold wrap_for. by rewrite decide_False by (by apply SCENE_EVENT_NAMES_not_quit).
    + split; [done|]. by apply Hp.
Qed.

Example start_watching_skips_startup_scene :
  let s := exec (__init__ a_callback false)
             (session host_without_startup_scene) in
  (__init__ a_callback false (session host_without_startup_scene)).1 = Ok 0 ∧
  dict_keys (WatcherSpec.table 0 s)
  = ["new_project"; "clear_project"; "import_project"; "load_project";
     "save_project"; "quit"] ∧
  log s = [PrintExc (attribute_error "load_startup_scene")].
Proof. vm_compute. done. Qed.

(** C4: on a host that does not expose [quit], the constructor and every
    later [start_watching] raise the AttributeError of the lookup of
    [quit], after the scene entry points the host exposes were patched: the
    registration of [quit], unlike those of the loop, is outside any
    [try]. *)
Theorem start_watching_raises_without_quit (s0 : State) (cb_fn : callable)
    (run_once : bool) :
  application s0 !! SCENE_QUIT_EVENT_NAME = None ->
  let self := length (watchers s0) in
  (__init__ cb_fn run_once s0).1
    = Raise (attribute_error SCENE_QUIT_EVENT_NAME) ∧
  (start_watching self (exec (__init__ cb_fn run_once) s0)).1
    = Raise (attribute_error SCENE_QUIT_EVENT_NAME) ∧
  ∀ n f, n ∈ SCENE_EVENT_NAMES -> application s0 !! n = Some f ->
    application (exec (__init__ cb_fn run_once) s0) !! n
    = Some (wrapped f self (Some scene_event_callback) None).
Proof.
  intros Hq self.
  destruct (start_watching_consistent self (application s0)
              (allocated cb_fn run_once s0))
    as (s2 & Hrun & Hc & _); [apply allocated_consistent|].
  rewrite Hq in Hrun.
  assert (Hs : exec (__init__ cb_fn run_once) s0 = s2).
  { rewrite new_watcher_exec. unfold exec. fold self. by rewrite Hrun. }
  split_and!.
  - rewrite new_watcher_result. fold self. by rewrite Hrun.
  - rewrite Hs.
    destruct (start_watching_consistent self (application s0) s2 Hc)
      as (s3 & Hrun3 & _).
    rewrite Hq in Hrun3. by rewrite Hrun3.
  - intros n f Hn Hf. rewrite new_watcher_patched. fold self. unfold patched.
    rewrite decide_True by (unfold WATCHED; apply elem_of_app; by left).
    rewrite Hf. simpl. unfold wrap_for.
    by rewrite decide_False by (by apply SCENE_EVENT_NAMES_not_quit).
Qed.

(** C4 at a host with the six scene entry points only. *)
Lemma start_watching_raises_without_quit_witness :
  host_without_quit !! SCENE_QUIT_EVENT_NAME = None ∧
  (__init__ a_callback false (session host_without_quit)).1
    = Raise (attribute_error "quit").
Proof.
  assert (H : host_without_quit !! SCENE_QUIT_EVENT_NAME = None) by reflexivity.
  split; [exact H|].
  exact (proj1 (start_watching_raises_without_quit (session host_without_quit)
                  a_callback false H)).
Defined.

(** The body of [wrapper], for any function and callbacks: what the
    function raises leaves [wrapper] before the post-callback is reached,
    and what the pre-callback raises leaves it before the function is. *)
Lemma wrapper_reraises {A : Type} (function : args -> M State A)
    (watcher : nat) (post pre : nat -> M State unit)
    (post_callback : option (nat -> M State unit))
    (a : args) (s s' : State) (e : exn) :
  (function a s = (Raise e, s') ->
   wrapper function watcher (Some post) None a s = (Raise e, s')) ∧
  (pre watcher s = (Raise e, s') ->
   wrapper function watcher post_callback (Some pre) a s = (Raise e, s')).
Proof.
  split; intros H; unfold wrapper; rewrite try_except_reraise.
  - unfold bind at 1, ret at 1. by apply bind_Raise.
  - by apply bind_Raise.
Qed.

(** C10: a closure made by [wrapped] with a post-callback, called when its
    original raises, raises the same exception and leaves the store the
    original left, so the post-callback did not run; a closure with a
    pre-callback that raises raises the same exception and leaves the store
    the pre-callback left, so the original did not run. *)
Theorem patched_entry_point_propagates_exception (f : fn) (watcher : nat)
    (c : callback) (post : option callback) (a : args) (s s' : State)
    (e : exn) :
  (call f a s = (Raise e, s') ->
   call (wrapped f watcher (Some c) None) a s = (Raise e, s')) ∧
  (run_callback c watcher s = (Raise e, s') ->
   call (wrapped f watcher post (Some c)) a s = (Raise e, s')).
Proof.
  split; intros H; simpl.
  - by apply (wrapper_reraises (call f) watcher (run_callback c)
                (run_callback c) None).
  - by apply (wrapper_reraises (call f) watcher (run_callback c)
                (run_callback c) (option_map run_callback post)).
Qed.

(** C10 at a [load_project] that cannot read its file, and at a callback
    that raises used as a pre-callback: the log ends with the call that
    raised. *)
Lemma patched_entry_point_propagates_exception_witness :
  let s := exec (__init__ a_callback false) (session full_host) in
  let s2 := exec (__init__ failing_callback false) (session full_host) in
  call (wrapped failing_load 0 (Some scene_event_callback) None)
    ["/jobs/shot010.project"] s
  = (Raise disk_error, emit (HostCall "load_project" ["/jobs/shot010.project"]) s) ∧
  call (wrapped (host_fn "quit") 0 None (Some scene_event_callback)) [] s2
  = (Raise disk_error,
     emit (UserCallback 0 "on_scene_event_callback" (application s2)) s2).
Proof.
  intros s s2. split.
  - exact (proj1 (patched_entry_point_propagates_exception failing_load 0
                    scene_event_callback None ["/jobs/shot010.project"] s
                    (emit (HostCall "load_project" ["/jobs/shot010.project"]) s)
                    disk_error) eq_refl).
  - exact (proj2 (patched_entry_point_propagates_exception (host_fn "quit") 0
                    scene_event_callback None [] s2
                    (emit (UserCallback 0 "on_scene_event_callback"
                             (application s2)) s2)
                    disk_error) eq_refl).
Defined.

End wrapper_facts.

Section refresh_facts.
Import Refresh RefreshSpec.
Implicit Types (w : World) (eng : Engine) (tk_api : Toolkit).

Lemma World_eta w :
  Build_World (current_engine w) (current_project_filename w)
    (is_gui_application w) (main_menu w) (menu_callbacks w) (asctime w) (trace w)
  = w.
Proof. by destruct w. Qed.

(** C5: with an engine and an empty scene file name, [refresh_engine]
    returns, makes no call to the toolkit's resolution functions, calls
    [change_context(prev_context)] exactly when [prev_context] differs from
    the engine's context, and otherwise leaves the world as it was. *)
Theorem refresh_engine_new_file tk_api (engine_name : string)
    (prev_context : Context) (menu_name : string) w eng :
  current_engine w = Some eng ->
  current_project_filename w = "" ->
  let w' := exec (refresh_engine tk_api engine_name prev_context menu_name) w in
  (refresh_engine tk_api engine_name prev_context menu_name w).1 = Ok tt ∧
  trace w' = trace w ++
    (if decide (prev_context = context eng) then []
     else [ChangeContext prev_context]) ∧
  (prev_context = context eng -> w' = w) ∧
  context <$> current_engine w' = Some prev_context ∧
  main_menu w' = main_menu w ∧ menu_callbacks w' = menu_callbacks w.
Proof.
  intros Heng Hfile w'.
  assert (Hrun : refresh_engine tk_api engine_name prev_context menu_name w
                 = if decide (prev_context = context eng) then (Ok tt, w)
                   else change_context prev_context w).
  { unfold refresh_engine. unfold bind at 1, get. rewrite Heng, Hfile.
    rewrite decide_True by done.
    unfold bind, engine_field. rewrite Heng.
    destruct (decide (prev_context = context eng)) as [Heq|Hne].
    - by rewrite decide_False by (by intros []).
    - by rewrite decide_True by done. }
  unfold w', exec. rewrite Hrun.
  destruct (decide (prev_context = context eng)) as [Heq|Hne]; simpl.
  - rewrite app_nil_r, Heng. simpl. by rewrite Heq.
  - rewrite Heng. done.
Qed.

(** C5 at a session whose previous context is another shot. *)
Lemma refresh_engine_new_file_witness :
  trace (exec (refresh_engine no_toolkit "tk-clarisse"
                 (Build_Context "Project 65" "Shot 020") "Shotgun")
           (world true ""))
  = [ChangeContext (Build_Context "Project 65" "Shot 020")].
Proof.
  exact (proj1 (proj2 (refresh_engine_new_file no_toolkit "tk-clarisse"
                         (Build_Context "Project 65" "Shot 020") "Shotgun"
                         (world true "") an_engine eq_refl eq_refl))).
Defined.

Ltac tidy_trace :=
  unfold record; simpl; rewrite <-?(assoc_L (++)), ?app_nil_r; simpl.

Lemma record_after_calls a l w :
  record a (after_calls l w) = after_calls (l ++ [a]) w.
Proof. unfold record, after_calls. simpl. by rewrite (assoc_L (++)). Qed.

Lemma record_after a w : record a w = after_calls [a] w.
Proof. done. Qed.

(** [refresh_engine] on a saved scene: the try statement, then one of the
    two continuations. *)
Lemma refresh_engine_file tk_api engine_name prev_context menu_name w eng :
  current_engine w = Some eng ->
  current_project_filename w ≠ "" ->
  let path := abspath tk_api (current_project_filename w) in
  let w1 := after_calls (resolution_actions tk_api eng path prev_context) w in
  refresh_engine tk_api engine_name prev_context menu_name w
  = match resolution tk_api eng path prev_context with
    | Ok ctx =>
        (let* _ := remove_sgtk_disabled_menu menu_name in
         let* _ := create_shotgun_menu in
         let* current := engine_field context in
         if decide (ctx ≠ current) then change_context ctx else ret tt) w1
    | Raise e =>
        if is_TankError e then
          (let* _ := create_sgtk_disabled_menu menu_name in
           display_error (cannot_start_message e)) w1
        else (Raise e, w1)
    end.
Proof.
  intros Heng Hfile path w1. unfold w1, path. clear w1 path.
  destruct w as [ce file gui mm mc t tr]. simpl in *. subst ce.
  unfold refresh_engine, resolution, resolution_actions, path_resolution,
    path_actions, fallback_resolution, fallback_action, after_calls.
  unfold bind at 1, get. simpl. rewrite decide_False by done.
  unfold bind at 1, try_except at 1. unfold bind at 1, external at 1.
  destruct (tank_from_path tk_api (abspath tk_api file)) as [tk|e1]; simpl.
  - unfold bind at 1, external at 1.
    destruct (context_from_path tk_api tk (abspath tk_api file) prev_context)
      as [ctx|e1]; simpl.
    + by tidy_trace.
    + destruct (is_TankError e1) eqn:He1; simpl; rewrite ?He1; [|by tidy_trace].
      unfold try_except, bind at 1, engine_field at 1. simpl.
      unfold bind at 1, engine_field at 1. simpl.
      unfold bind at 1, external at 1. tidy_trace.
      destruct (context_from_entity_dictionary tk_api (sgtk eng)
                  (project (context eng))) as [ctx|e2]; [done|].
      destruct (is_TankError e2) eqn:He2; [|done].
      unfold bind.
      destruct (create_sgtk_disabled_menu menu_name _) as [[[]|e3] w2]; [|done].
      by destruct (display_error _ w2) as [[[]|e4] w3].
  - destruct (is_TankError e1) eqn:He1; simpl; rewrite ?He1; [|by tidy_trace].
    unfold try_except, bind at 1, engine_field at 1. simpl.
    unfold bind at 1, engine_field at 1. simpl.
    unfold bind at 1, external at 1. tidy_trace.
    destruct (context_from_entity_dictionary tk_api (sgtk eng)
                (project (context eng))) as [ctx|e2]; [done|].
    destruct (is_TankError e2) eqn:He2; [|done].
    unfold bind.
    destruct (create_sgtk_disabled_menu menu_name _) as [[[]|e3] w2]; [|done].
    by destruct (display_error _ w2) as [[[]|e4] w3].
Qed.

Lemma context_changes_app l1 l2 :
  context_changes (l1 ++ l2) = context_changes l1 ++ context_changes l2.
Proof. apply omap_app. Qed.

Lemma menu_builds_app l1 l2 :
  menu_builds (l1 ++ l2) = menu_builds l1 ++ menu_builds l2.
Proof. apply omap_app. Qed.

Lemma resolution_actions_lookups tk_api eng path prev_context :
  context_changes (resolution_actions tk_api eng path prev_context) = [] ∧
  menu_builds (resolution_actions tk_api eng path prev_context) = [].
Proof.
  unfold resolution_actions, path_actions, path_resolution.
  destruct (tank_from_path tk_api path) as [tk|e]; simpl.
  - destruct (context_from_path tk_api tk path prev_context) as [c|e]; [done|].
    by destruct (is_TankError e).
  - by destruct (is_TankError e).
Qed.

Lemma resolution_Raise tk_api eng path prev_context e1 e :
  path_resolution tk_api path prev_context = Raise e1 ->
  is_TankError e1 = true ->
  fallback_resolution tk_api eng = Raise e ->
  resolution tk_api eng path prev_context = Raise e.
Proof. intros H1 Ht H2. unfold resolution. by rewrite H1, Ht. Qed.

(** An exception of another class than TankError, from either resolution,
    is not handled: it leaves [refresh_engine], and no menu is touched. *)
Lemma refresh_engine_other_exception tk_api engine_name prev_context menu_name
    w eng e :
  current_engine w = Some eng ->
  current_project_filename w ≠ "" ->
  resolution tk_api eng (abspath tk_api (current_project_filename w))
    prev_context = Raise e ->
  is_TankError e = false ->
  refresh_engine tk_api engine_name prev_context menu_name w
  = (Raise e,
     after_calls
       (resolution_actions tk_api eng
          (abspath tk_api (current_project_filename w)) prev_context) w).
Proof.
  intros Heng Hfile Hres He.
  rewrite (refresh_engine_file tk_api engine_name prev_context menu_name
             w eng Heng Hfile). simpl. by rewrite Hres, He.
Qed.

(** C6, amended: when the path-based resolution and the fallback both raise
    a TankError, [refresh_engine] returns, prints and logs the diagnostic
    with the class, the value and the traceback of the fallback's
    exception, calls neither [change_context] nor the menu generator and
    leaves the engine as it was; in a GUI session the placeholder item and
    its callback are added under the root menu, in a session without GUI
    the menu and the callbacks are untouched. *)
Theorem refresh_engine_unresolvable tk_api (engine_name : string)
    (prev_context : Context) (menu_name : string) w eng (e1 e : exn) :
  current_engine w = Some eng ->
  current_project_filename w ≠ "" ->
  let path := abspath tk_api (current_project_filename w) in
  path_resolution tk_api path prev_context = Raise e1 ->
  is_TankError e1 = true ->
  fallback_resolution tk_api eng = Raise e ->
  is_TankError e = true ->
  let w' := exec (refresh_engine tk_api engine_name prev_context menu_name) w in
  let line := error_line w (cannot_start_message e) in
  (refresh_engine tk_api engine_name prev_context menu_name w).1 = Ok tt ∧
  current_engine w' = Some eng ∧
  trace w' = trace w ++ resolution_actions tk_api eng path prev_context
               ++ [Print line; LogError line] ∧
  context_changes (trace w') = context_changes (trace w) ∧
  menu_builds (trace w') = menu_builds (trace w) ∧
  (∃ before,
     cannot_start_message e
     = before +:+ "Exception: " +:+ show_class (exc_type e) +:+ " - "
         +:+ exc_value e +:+ LF +:+ "Traceback (most recent call last):"
         +:+ LF +:+ String.concat LF (exc_traceback e)) ∧
  (if is_gui_application w then
     main_menu w'
     = <[disabled_item menu_name :=
           "ix.shotgun.menu_callbacks[" +:+ disabled_item menu_name +:+ "]"]>
         (with_root menu_name (main_menu w)) ∧
     menu_callbacks w'
     = <[disabled_item menu_name := "sgtk_disabled_message"]> (menu_callbacks w)
   else main_menu w' = main_menu w ∧ menu_callbacks w' = menu_callbacks w).
Proof.
  intros Heng Hfile path Hp1 Ht1 Hf Ht w' line. subst path.
  set (path := abspath tk_api (current_project_filename w)) in *.
  pose proof (refresh_engine_file tk_api engine_name prev_context menu_name
                w eng Heng Hfile) as Hrun. simpl in Hrun. fold path in Hrun.
  rewrite (resolution_Raise _ _ _ _ e1 e Hp1 Ht1 Hf), Ht in Hrun.
  destruct (resolution_actions_lookups tk_api eng path prev_context) as [Hcc Hmb].
  assert (Hdone : refresh_engine tk_api engine_name prev_context menu_name w
    = (Ok tt,
       Build_World (Some eng) (current_project_filename w) (is_gui_application w)
         (if is_gui_application w then
            <[disabled_item menu_name :=
                "ix.shotgun.menu_callbacks[" +:+ disabled_item menu_name +:+ "]"]>
              (with_root menu_name (main_menu w))
          else main_menu w)
         (if is_gui_application w then
            <[disabled_item menu_name := "sgtk_disabled_message"]> (menu_callbacks w)
          else menu_callbacks w)
         (asctime w)
         (trace w ++ resolution_actions tk_api eng path prev_context
            ++ [Print line; LogError line]))).
  { rewrite Hrun. unfold create_sgtk_disabled_menu, after_calls.
    unfold bind at 1. unfold bind at 1, get. simpl.
    destruct (is_gui_application w) eqn:Hgui; simpl.
    - unfold bind at 1, get_sgtk_root_menu. simpl. unfold with_root, disabled_item.
      destruct (main_menu w !! (menu_name +:+ ">")); simpl;
        unfold display_error; tidy_trace; rewrite Heng, ?Hgui;
        by rewrite <-?(assoc_L (++)).
    - unfold display_error. tidy_trace. rewrite Heng, ?Hgui.
      by rewrite <-?(assoc_L (++)). }
  unfold w', exec. rewrite Hdone.
  cbn [fst snd current_engine trace main_menu menu_callbacks].
  split_and!; try done.
  - by rewrite !context_changes_app, Hcc, !app_nil_r.
  - by rewrite !menu_builds_app, Hmb, !app_nil_r.
  - by exists ("Shotgun Clarisse Engine cannot be started:." +:+ LF
               +:+ "Please contact you technical support team for more "
               +:+ "information." +:+ LF +:+ LF).
  - by destruct (is_gui_application w).
Qed.

(** C6, amended, at a GUI session on an untracked file. *)
Lemma refresh_engine_unresolvable_witness :
  main_menu (exec (refresh_engine no_toolkit "tk-clarisse" a_context "Shotgun")
               (world true "/tmp/untracked.project"))
    !! disabled_item "Shotgun"
  = Some "ix.shotgun.menu_callbacks[Shotgun>Sgtk is disabled.]".
Proof.
  pose proof (refresh_engine_unresolvable no_toolkit "tk-clarisse" a_context
                "Shotgun" (world true "/tmp/untracked.project") an_engine
                unknown_file_error unknown_file_error eq_refl
                ltac:(discriminate) eq_refl eq_refl eq_refl eq_refl) as H.
  destruct H as (_ & _ & _ & _ & _ & _ & Hmenu). simpl in Hmenu.
  destruct Hmenu as [-> _]. by rewrite lookup_insert_eq.
Defined.

(** C6 as stated fails in a session without GUI: both resolutions fail and
    no placeholder is in the menu afterwards. *)
Lemma refresh_engine_batch_builds_no_placeholder :
  path_resolution no_toolkit "/tmp/untracked.project" a_context
    = Raise unknown_file_error ∧
  fallback_resolution no_toolkit an_engine = Raise unknown_file_error ∧
  ¬ is_Some
      (main_menu (exec (refresh_engine no_toolkit "tk-clarisse" a_context
                          "Shotgun")
                    (world false "/tmp/untracked.project"))
         !! disabled_item "Shotgun").
Proof.
  split_and!; [done | done |]. by intros [x Hx].
Qed.

Lemma prefix_app (p x : string) : String.prefix p (p +:+ x) = true.
Proof.
  induction p as [|c p IH]; simpl; [by destruct x|].
  unfold String.app. simpl. destruct (Ascii.ascii_dec c c); [|done]. apply IH.
Qed.

Lemma last_char_app (s : string) c t :
  last_char (s +:+ String c t) = last_char (String c t).
Proof.
  induction s as [|c' s IH]; [done|].
  rewrite <-IH. destruct s; reflexivity.
Qed.

Lemma root_not_disabled_item (name menu_name : string) :
  name +:+ ">" ≠ disabled_item menu_name.
Proof.
  intros H. apply (f_equal last_char) in H. unfold disabled_item in H.
  by rewrite !last_char_app in H.
Qed.

Lemma with_root_lookup name (m : gmap string string) :
  is_Some (with_root name m !! (name +:+ ">")).
Proof.
  unfold with_root. destruct (m !! (name +:+ ">")) eqn:H.
  - rewrite H. eauto.
  - rewrite lookup_insert_eq. eauto.
Qed.

Lemma with_root_lookup_ne name k (m : gmap string string) :
  k ≠ name +:+ ">" -> with_root name m !! k = m !! k.
Proof.
  intros Hk. unfold with_root. destruct (m !! (name +:+ ">")); [done|].
  by rewrite lookup_insert_ne.
Qed.

Lemma rebuilt_no_placeholder menu_name name m :
  rebuilt menu_name name m !! disabled_item menu_name = None.
Proof.
  unfold rebuilt.
  rewrite with_root_lookup_ne by (intros H; by apply (root_not_disabled_item name menu_name)).
  apply map_lookup_filter_None. right. intros x _. simpl.
  unfold disabled_item.
  change (menu_name +:+ ">Sgtk is disabled.")
    with (menu_name +:+ (">" +:+ "Sgtk is disabled.")).
  assert (Hassoc : ∀ a b c : string, a +:+ (b +:+ c) = (a +:+ b) +:+ c).
  { intros a b c. induction a as [|ch a IH]; [done|].
    unfold String.app in *. simpl. by rewrite IH. }
  rewrite Hassoc, prefix_app. done.
Qed.

Lemma get_sgtk_root_menu_eq name w :
  get_sgtk_root_menu name w
  = (Ok (name +:+ ">"), set_main_menu (with_root name) w).
Proof.
  unfold get_sgtk_root_menu, with_root, set_main_menu.
  destruct (main_menu w !! (name +:+ ">")) eqn:H; simpl; rewrite ?H; [|done].
  by rewrite World_eta.
Qed.

Opaque resolution_actions.

Lemma refresh_engine_same_step tk_api engine_name prev_context menu_name w eng :
  current_engine w = Some eng ->
  current_project_filename w ≠ "" ->
  resolution tk_api eng (abspath tk_api (current_project_filename w))
    prev_context = Ok (context eng) ->
  refresh_engine tk_api engine_name prev_context menu_name w
  = (Ok tt, refreshed tk_api prev_context menu_name eng w).
Proof.
  intros Heng Hfile Hres.
  rewrite (refresh_engine_file tk_api engine_name prev_context menu_name
             w eng Heng Hfile). simpl. rewrite Hres.
  unfold refreshed, remove_sgtk_disabled_menu, clear_sgtk_menu, create_shotgun_menu,
    after_calls.
  destruct w as [ce file gui mm mc t tr]. simpl in *. subst ce.
  set (calls := resolution_actions _ _ _ _). clearbody calls.
  destruct gui; simpl.
  - unfold bind at 1. unfold bind at 1, get. simpl.
    unfold bind at 1. rewrite get_sgtk_root_menu_eq. simpl.
    unfold bind at 1, remove_all_commands, modify. simpl.
    unfold bind at 1. unfold bind at 1, get. simpl.
    unfold bind at 1, engine_field at 1. simpl.
    unfold bind at 1. rewrite get_sgtk_root_menu_eq. simpl.
    unfold bind, engine_field, MenuGenerator_create_menu, modify, ret. simpl.
    rewrite decide_False by (by intros []). by tidy_trace.
  - unfold bind at 1. unfold bind at 1, get. simpl.
    unfold bind at 1. unfold bind at 1, get. simpl.
    unfold bind, engine_field. simpl.
    by rewrite decide_False by (by intros []).
Qed.

Transparent resolution_actions.

Lemma refreshed_facts tk_api prev_context menu_name eng w :
  current_engine w = Some eng ->
  let w' := refreshed tk_api prev_context menu_name eng w in
  (∃ handle, current_engine w' = Some (with_handle handle eng)) ∧
  current_project_filename w' = current_project_filename w ∧
  context_changes (trace w') = context_changes (trace w) ∧
  (if is_gui_application w then
     main_menu w' !! disabled_item menu_name = None ∧
     is_Some (main_menu w' !! (_menu_name eng +:+ ">")) ∧
     menu_builds (trace w') = menu_builds (trace w) ++ [_menu_name eng +:+ ">"]
   else
     main_menu w' = main_menu w ∧ menu_callbacks w' = menu_callbacks w ∧
     menu_builds (trace w') = menu_builds (trace w)).
Proof.
  intros Heng w'. unfold w', refreshed.
  destruct (resolution_actions_lookups tk_api eng
              (abspath tk_api (current_project_filename w)) prev_context)
    as [Hcc Hmb].
  destruct (is_gui_application w); cbn [current_engine current_project_filename
    trace main_menu menu_callbacks after_calls].
  - split_and!.
    + eauto.
    + done.
    + rewrite !context_changes_app, Hcc. simpl. by rewrite app_nil_r.
    + apply rebuilt_no_placeholder.
    + apply with_root_lookup.
    + by rewrite !menu_builds_app, Hmb.
  - split_and!; try done.
    + exists (_menu_handle eng). rewrite Heng. by destruct eng.
    + by rewrite context_changes_app, Hcc, app_nil_r.
    + by rewrite menu_builds_app, Hmb, app_nil_r.
Qed.

(** C7, amended: when the resolution yields the engine's current context,
    [refresh_engine] returns without calling [change_context] and the
    context stays; in a GUI session the placeholder is gone, the root menu
    exists and the menu generator was called once; in a session without
    GUI the menus are untouched; a second refresh again returns without
    calling [change_context]. *)
Theorem refresh_engine_same_context tk_api (engine_name : string)
    (prev_context : Context) (menu_name : string) w eng :
  current_engine w = Some eng ->
  current_project_filename w ≠ "" ->
  resolution tk_api eng (abspath tk_api (current_project_filename w))
    prev_context = Ok (context eng) ->
  let refresh := refresh_engine tk_api engine_name prev_context menu_name in
  let w' := exec refresh w in
  let w'' := exec refresh w' in
  (refresh w).1 = Ok tt ∧
  context_changes (trace w') = context_changes (trace w) ∧
  context <$> current_engine w' = Some (context eng) ∧
  (if is_gui_application w then
     main_menu w' !! disabled_item menu_name = None ∧
     is_Some (main_menu w' !! (_menu_name eng +:+ ">")) ∧
     menu_builds (trace w') = menu_builds (trace w) ++ [_menu_name eng +:+ ">"]
   else
     main_menu w' = main_menu w ∧ menu_callbacks w' = menu_callbacks w ∧
     menu_builds (trace w') = menu_builds (trace w)) ∧
  (refresh w').1 = Ok tt ∧
  context_changes (trace w'') = context_changes (trace w) ∧
  context <$> current_engine w'' = Some (context eng).
Proof.
  intros Heng Hfile Hres refresh w' w''.
  pose proof (refresh_engine_same_step tk_api engine_name prev_context
                menu_name w eng Heng Hfile Hres) as Hrun.
  destruct (refreshed_facts tk_api prev_context menu_name eng w Heng)
    as ([h Heng'] & Hfile' & Hcc' & Hmenu).
  assert (Hw' : w' = refreshed tk_api prev_context menu_name eng w).
  { unfold w', exec, refresh. by rewrite Hrun. }
  rewrite <-Hw' in Heng', Hfile', Hcc', Hmenu.
  assert (Hres' : resolution tk_api (with_handle h eng)
                    (abspath tk_api (current_project_filename w')) prev_context
                  = Ok (context (with_handle h eng))).
  { by rewrite Hfile'. }
  assert (Hfile2 : current_project_filename w' ≠ "") by (by rewrite Hfile').
  pose proof (refresh_engine_same_step tk_api engine_name prev_context
                menu_name w' (with_handle h eng) Heng' Hfile2 Hres') as Hrun'.
  destruct (refreshed_facts tk_api prev_context menu_name (with_handle h eng)
              w' Heng') as ([h' Heng''] & _ & Hcc'' & _).
  assert (Hw'' : w'' = refreshed tk_api prev_context menu_name
                         (with_handle h eng) w').
  { unfold w'', exec, refresh. by rewrite Hrun'. }
  rewrite <-Hw'' in Heng'', Hcc''.
  split_and!.
  - unfold refresh. by rewrite Hrun.
  - done.
  - by rewrite Heng'.
  - done.
  - unfold refresh. by rewrite Hrun'.
  - congruence.
  - by rewrite Heng''.
Qed.

(** C7, amended, at a GUI session on a tracked file. *)
Lemma refresh_engine_same_context_witness :
  main_menu (exec (refresh_engine same_toolkit "tk-clarisse" a_context "Shotgun")
               (world true "/jobs/p65/shot010.project"))
    !! disabled_item "Shotgun" = None.
Proof.
  pose proof (refresh_engine_same_context same_toolkit "tk-clarisse" a_context
                "Shotgun" (world true "/jobs/p65/shot010.project") an_engine
                eq_refl ltac:(discriminate) eq_refl) as H.
  destruct H as (_ & _ & _ & Hmenu & _). exact (proj1 Hmenu).
Defined.

(** C7 as stated fails in a session without GUI: the resolution yields the
    current context and no root menu exists afterwards. *)
Lemma refresh_engine_batch_ensures_no_menu :
  resolution same_toolkit an_engine "/jobs/p65/shot010.project" a_context
    = Ok (context an_engine) ∧
  ¬ is_Some
      (main_menu (exec (refresh_engine same_toolkit "tk-clarisse" a_context
                          "Shotgun")
                    (world false "/jobs/p65/shot010.project"))
         !! "Shotgun>").
Proof.
  split; [done|]. by intros [x Hx].
Qed.

End refresh_facts.

Section pump_facts.
Import Pump PumpSpec.
Implicit Types (s : State) (self : nat) (h : Helper).

(** While the application is not shutting down, one more run is
    registered, whether or not a window is visible. *)
Lemma process_events_rearms s self h :
  instances s !! self = Some h ->
  is_Some (app h) ->
  closing_down s = false ->
  (process_events self s).1 = Ok tt ∧
  event_loop_single (exec (process_events self) s)
    = event_loop_single s ++ [self] ∧
  _helper (exec (process_events self) s) = _helper s.
Proof.
  intros Hh [a Ha] Hc.
  destruct s as [hp inst q vis cl calls], h as [ap ih]. simpl in *. subst.
  unfold exec, process_events, bind, get, get_instance, qt, modify, ret,
    add_to_event_loop_single. simpl. rewrite Hh.
  by destruct vis.
Qed.

(** One idle tick of a running pump: its run is taken off the list and
    registered again, once. *)
Lemma idle_tick_rearms s self h :
  event_loop_single s = [self] ->
  instances s !! self = Some h ->
  is_Some (app h) ->
  closing_down s = false ->
  (idle_tick s).1 = Ok tt ∧ event_loop_single (exec idle_tick s) = [self].
Proof.
  intros Hq Hh [a Ha] Hc.
  destruct s as [hp inst q vis cl calls], h as [ap ih]. simpl in *. subst.
  unfold exec, idle_tick.
  repeat (unfold bind, process_events, get_instance, qt, get, modify, ret,
            add_to_event_loop_single; simpl).
  rewrite Hh. by destruct vis.
Qed.

(** The idle tick on which the application is shutting down registers
    nothing, and the ticks after it run nothing. *)
Lemma idle_tick_shutdown s self h :
  event_loop_single s = [self] ->
  instances s !! self = Some h ->
  is_Some (app h) ->
  closing_down s = true ->
  event_loop_single (exec idle_tick s) = [] ∧
  idle_tick (exec idle_tick s) = (Ok tt, exec idle_tick s).
Proof.
  intros Hq Hh [a Ha] Hc.
  destruct s as [hp inst q vis cl calls], h as [ap ih]. simpl in *. subst.
  unfold exec, idle_tick.
  repeat (unfold bind, process_events, get_instance, qt, get, modify, ret,
            set_instance_helper; simpl).
  rewrite Hh. by destruct vis; simpl; rewrite ?Hh.
Qed.

(** C8: when the application reports that it is shutting down,
    [process_events] returns and registers no further run, but the class
    attribute [_helper] is what it was: the assignment goes to the
    instance.  A later [exec_] therefore returns the old helper and
    registers nothing. *)
Theorem process_events_shutdown_keeps_singleton s self h :
  instances s !! self = Some h ->
  is_Some (app h) ->
  closing_down s = true ->
  let s' := exec (process_events self) s in
  (process_events self s).1 = Ok tt ∧
  _helper s' = _helper s ∧
  event_loop_single s' = event_loop_single s ∧
  instances s' !! self = Some (Build_Helper (app h) (Some None)) ∧
  (∀ application, is_Some (_helper s) ->
     exec_ application s' = (Ok (_helper s), s')).
Proof.
  intros Hh [a Ha] Hc s'. unfold s'. clear s'.
  assert (Hlt : self < length (instances s)) by (by eapply lookup_lt_Some).
  destruct s as [hp inst q vis cl calls], h as [ap ih]. simpl in *. subst.
  unfold exec, process_events, bind, get, get_instance, qt, modify, ret,
    set_instance_helper, exec_. simpl. rewrite Hh.
  destruct vis; simpl; rewrite Hh, list_lookup_insert_eq by done;
    (split_and!; try done; by intros application [x ->]).
Qed.

(** C8 at the session [after_shutdown]. *)
Lemma process_events_shutdown_keeps_singleton_witness :
  _helper after_shutdown = Some 0 ∧
  event_loop_single after_shutdown = [] ∧
  (exec_ (Some "QApplication") after_shutdown).1 = Ok (Some 0) ∧
  event_loop_single (exec (exec_ (Some "QApplication")) after_shutdown) = [].
Proof.
  pose (s := begin_shutdown
               (exec idle_tick (exec (exec_ (Some "QApplication")) initial))).
  pose proof (process_events_shutdown_keeps_singleton
                (Build_State (_helper s) (instances s) [] (windows_visible s)
                   (closing_down s) (qt_calls s))
                0 (Build_Helper (Some "QApplication") None)
                eq_refl (ex_intro _ "QApplication" eq_refl) eq_refl) as H.
  destruct H as (_ & H1 & H2 & _ & H4).
  split_and!.
  - exact H1.
  - exact H2.
  - exact (f_equal fst (H4 (Some "QApplication") (ex_intro _ 0 eq_refl))).
  - exact (f_equal (fun r => event_loop_single r.2)
             (H4 (Some "QApplication") (ex_intro _ 0 eq_refl))).
Defined.

End pump_facts.

Section startup_facts.
Import Startup StartupSpec.
Implicit Types (s : State).

Lemma executeDeferred_raises command_function s :
  executeDeferred command_function s
  = (Raise (Exn NameError "name 'clarisse' is not defined" []), s).
Proof. reflexivity. Qed.

Lemma defers_nothing_bind {A B} (m : M State A) (k : A -> M State B) :
  defers_nothing m -> (∀ a, defers_nothing (k a)) -> defers_nothing (bind m k).
Proof.
  intros Hm Hk s. destruct (Hm s) as [Hm1 Hm2]. unfold exec, bind in *.
  destruct (m s) as [[a|e] s1]; simpl in *; [|done].
  destruct (Hk a s1) as [H1 H2]. unfold exec in *.
  split; [by rewrite H1 | by rewrite H2].
Qed.

Lemma defers_nothing_for_each {A} (l : list A) (body : A -> M State unit) :
  (∀ x, defers_nothing (body x)) -> defers_nothing (for_each l body).
Proof.
  intros Hbody. induction l as [|x l IH]; [done|].
  simpl. apply defers_nothing_bind; auto.
Qed.

Lemma defers_nothing_log r : defers_nothing (log_record r).
Proof. done. Qed.

Lemma defers_nothing_executeDeferred f : defers_nothing (executeDeferred f).
Proof. done. Qed.

(** A setting that names an app that registered no command is logged as a
    warning and skipped. *)
Lemma run_at_startup_unknown_app self_name commands setting s :
  dict_get (app_instance setting) (build_app_instance_commands commands) = None ->
  _run_app_instance_commands self_name commands [setting] s
  = (Ok tt,
     Build_State (deferred s) (executed s)
       (logger s ++
        [Warning (self_name +:+ " configuration setting 'run_at_startup'"
                    +:+ " requests app '" +:+ app_instance setting
                    +:+ "' that is not installed.")])).
Proof.
  intros Happ. unfold _run_app_instance_commands. simpl. by rewrite Happ.
Qed.

(** A setting that names a command its app did not register is logged as a
    warning, with the commands the app does have, and skipped. *)
Lemma run_at_startup_unknown_command self_name commands setting command_dict s :
  dict_get (app_instance setting) (build_app_instance_commands commands)
    = Some command_dict ->
  name setting ≠ "" ->
  dict_get (name setting) command_dict = None ->
  _run_app_instance_commands self_name commands [setting] s
  = (Ok tt,
     Build_State (deferred s) (executed s)
       (logger s ++
        [Warning (self_name +:+ " configuration setting 'run_at_startup' "
                    +:+ "requests app '" +:+ app_instance setting
                    +:+ "' unknown command '" +:+ name setting
                    +:+ "'. " +:+ "Known commands: "
                    +:+ known_commands command_dict)])).
Proof.
  intros Happ Hname Hcmd. unfold _run_app_instance_commands. simpl.
  rewrite Happ. rewrite decide_False by done. by rewrite Hcmd.
Qed.

(** C9: [_run_app_instance_commands] hands no command to the host, whatever
    the commands and the setting; with the commands [{A: {cmd1, cmd2},
    B: {cmd3}}] and the setting [[{A, ""}, {B, "cmd3"}]] it raises the
    NameError of the unbound name [clarisse] at the first command, and the
    host's next idle tick runs none of the three commands. *)
Theorem run_app_instance_commands_defers_nothing (self_name : string)
    (commands : list (string * Command)) (settings : list Setting) :
  defers_nothing (_run_app_instance_commands self_name commands settings) ∧
  _run_app_instance_commands "tk-clarisse" registered run_at_startup idle
  = (Raise (Exn NameError "name 'clarisse' is not defined" []),
     Build_State [] []
       [Debug "tk-clarisse startup running app 'A' command 'cmd1'."]) ∧
  executed
    (idle_tick
       (exec (_run_app_instance_commands "tk-clarisse" registered
                run_at_startup) idle)) = [].
Proof.
  split; [|split; reflexivity].
  unfold _run_app_instance_commands. apply defers_nothing_for_each.
  intros setting. destruct (dict_get _ _) as [command_dict|];
    [|apply defers_nothing_log].
  destruct (decide _).
  - apply defers_nothing_for_each. intros item.
    apply defers_nothing_bind; [apply defers_nothing_log|].
    intros _. apply defers_nothing_executeDeferred.
  - destruct (dict_get _ command_dict); [|apply defers_nothing_log].
    apply defers_nothing_bind; [apply defers_nothing_log|].
    intros _. apply defers_nothing_executeDeferred.
Qed.

End startup_facts.

Section watcher_use_facts.
Import Watcher WatcherSpec WatcherUse.
Implicit Types (s : State) (base : gmap string fn) (self : nat)
  (tbl : list (string * fn)) (n : string) (f : fn).

Lemma restore_lookup_ne tbl (m : gmap string fn) n :
  n ∉ dict_keys tbl -> restore tbl m !! n = m !! n.
Proof.
  revert m. induction tbl as [|[k f] tbl IH]; intros m Hn; [done|].
  unfold dict_keys in Hn. csimpl in Hn. apply not_elem_of_cons in Hn as [Hk Hn].
  change (restore ((k, f) :: tbl) m)
    with (restore tbl (match f with
                       | Closure f0 _ _ _ => <[k := f0]> m
                       | HostFn _ _ => m
                       end)).
  rewrite IH by done.
  destruct f as [name beh|f0 w post pre]; [done|].
  by rewrite lookup_insert_ne.
Qed.

(** [stop_watching] on a table of closures, whatever the host holds. *)
Lemma stop_watching_any self w s :
  watchers s !! self = Some w ->
  (∀ n f, (n, f) ∈ __wrapped_fns w -> ∃ f0, f = wrap_for self n f0) ->
  stop_watching self s
  = (Ok tt,
     Build_State (restore (__wrapped_fns w) (application s))
       (<[self := Build_watcher (__cb_fn w) (__run_once w) []]> (watchers s))
       (environ s) (asctime s) (log s)).
Proof.
  intros Hw Htbl. unfold stop_watching.
  rewrite (bind_Ok _ _ s w s) by (unfold get_watcher; by rewrite Hw).
  rewrite (bind_Ok _ _ s tt (set_application (restore (__wrapped_fns w)) s))
    by (by apply (restore_loop self)).
  unfold set_wrapped_fns, modify, set_watchers, set_application. simpl.
  by rewrite Hw.
Qed.

(** X1: watchers made one after the other and stopped in the reverse order
    leave every attribute of the host as it was, every table of the new
    watchers empty and the watchers that were there untouched. *)
Theorem nested_watchers_restore_host (l : list (callable * bool)) (s : State) :
  application (nested l s) = application s ∧
  (∀ i, (length (watchers s) ≤ i)%nat -> table i (nested l s) = []) ∧
  (∀ i, (i < length (watchers s))%nat ->
        watchers (nested l s) !! i = watchers s !! i).
Proof.
  revert s. induction l as [|[cb_fn run_once] l IH]; intros s.
  { simpl. split_and!; [done| |done].
    intros i Hi. unfold table. by rewrite lookup_ge_None_2. }
  simpl.
  destruct (init_consistent cb_fn run_once s) as (Hc & Hk & Hw & _).
  set (self := length (watchers s)) in *.
  set (s1 := exec (__init__ cb_fn run_once) s) in *.
  destruct (IH s1) as (Happ & Htbl & Hold).
  set (s2 := nested l s1) in *.
  assert (Hlen : length (watchers s1) = S self).
  { rewrite Hw, length_app. simpl. unfold self. lia. }
  assert (Hself : watchers s2 !! self = watchers s1 !! self).
  { apply Hold. lia. }
  assert (Hc2 : consistent self (application s) s2).
  { destruct Hc as (H1 & H2 & H3). unfold consistent, table in *.
    rewrite Hself, Happ. done. }
  unfold exec. rewrite (stop_watching_consistent self (application s) s2) by done.
  simpl. split_and!; [done| |].
  - intros i Hi. unfold table, stopped. simpl.
    destruct Hc2 as ([w2 Hw2] & _). rewrite Hw2.
    destruct (decide (i = self)) as [->|Hne].
    + rewrite list_lookup_insert_eq; [done|]. by eapply lookup_lt_Some.
    + rewrite list_lookup_insert_ne by done.
      apply (Htbl i). lia.
  - intros i Hi. unfold stopped. simpl.
    destruct Hc2 as ([w2 Hw2] & _). rewrite Hw2.
    rewrite list_lookup_insert_ne by (fold self in Hi; lia).
    rewrite Hold by lia. rewrite Hw. by rewrite lookup_app_l.
Qed.


Lemma patched_is_Some self base n :
  is_Some (patched self base n) <-> is_Some (base !! n).
Proof.
  unfold patched. destruct (decide _); [|done].
  by rewrite fmap_is_Some.
Qed.

(** X2: two watchers stopped in the order they were made, not in the
    reverse order: both tables are empty, yet the host holds the closures of
    the first watcher on every watched entry point it has, and stopping the
    first watcher again changes nothing. *)
Theorem crossed_stops_leave_closures (cb1 cb2 : callable) (ro1 ro2 : bool)
    (s : State) :
  let first := length (watchers s) in
  let s' := crossed cb1 cb2 ro1 ro2 s in
  (∀ n, application s' !! n = patched first (application s) n) ∧
  table first s' = [] ∧ table (S first) s' = [] ∧
  stop_watching first s' = (Ok tt, s').
Proof.
  intros first s'.
  destruct (init_consistent cb1 ro1 s) as (Hc1 & Hk1 & Hw1 & _).
  fold first in Hc1, Hk1, Hw1.
  set (s1 := exec (__init__ cb1 ro1) s) in *.
  destruct (init_consistent cb2 ro2 s1) as (Hc2 & Hk2 & Hw2 & _).
  assert (Hlen : length (watchers s1) = S first).
  { rewrite Hw1, length_app. simpl. unfold first. lia. }
  rewrite Hlen in Hc2, Hk2, Hw2.
  set (s2 := exec (__init__ cb2 ro2) s1) in *.
  set (tbl1 := table first s1) in *. set (tbl2 := table (S first) s2) in *.
  assert (H1 : watchers s2 !! first = Some (Build_watcher cb1 ro1 tbl1)).
  { rewrite Hw2, Hw1. rewrite lookup_app_l by (rewrite length_app; simpl; lia).
    by rewrite lookup_app_r, Nat.sub_diag by done. }
  assert (H2 : watchers s2 !! S first = Some (Build_watcher cb2 ro2 tbl2)).
  { rewrite Hw2. by rewrite lookup_app_r, Hlen, Nat.sub_diag by lia. }
  set (s3 := Build_State (restore tbl1 (application s2))
                (<[first := Build_watcher cb1 ro1 []]> (watchers s2))
                (environ s2) (asctime s2) (log s2)).
  assert (H3 : watchers s3 !! S first = Some (Build_watcher cb2 ro2 tbl2)).
  { unfold s3. simpl. by rewrite list_lookup_insert_ne by lia. }
  assert (Hs' : s' = Build_State (restore tbl2 (restore tbl1 (application s2)))
                       (<[S first := Build_watcher cb2 ro2 []]>
                          (<[first := Build_watcher cb1 ro1 []]> (watchers s2)))
                       (environ s2) (asctime s2) (log s2)).
  { unfold s', crossed. fold first s1 s2. unfold exec.
    rewrite (stop_watching_any first _ s2 H1); simpl.
    2:{ intros n f Hin. destruct Hc1 as (_ & Hc & _).
        destruct (Hc n f Hin) as (f0 & _ & ->). by exists f0. }
    fold s3. rewrite (stop_watching_any (S first) _ s3 H3); simpl; [done|].
    intros n f Hin. destruct Hc2 as (_ & Hc & _).
    destruct (Hc n f Hin) as (f0 & _ & ->). by exists f0. }
  assert (Hkeys : dict_keys tbl2 = dict_keys tbl1).
  { rewrite Hk2, Hk1. apply list_filter_iff. intros n.
    unfold s1. rewrite new_watcher_patched. apply patched_is_Some. }
  assert (Happ : restore tbl2 (restore tbl1 (application s2)) = application s1).
  { apply (restore_base (S first)).
    - by destruct Hc2 as (_ & Hc & _).
    - intros n Hn. rewrite restore_lookup_ne by (by rewrite <-Hkeys).
      destruct Hc2 as (_ & _ & Hc). rewrite Hc.
      fold tbl2. apply dict_get_None in Hn. by rewrite Hn. }
  rewrite Hs', Happ. split_and!.
  - intros n. simpl. unfold s1. by rewrite new_watcher_patched.
  - unfold table. simpl. rewrite list_lookup_insert_ne by lia.
    rewrite list_lookup_insert_eq; [done|]. by eapply lookup_lt_Some.
  - unfold table. simpl. rewrite list_lookup_insert_eq; [done|].
    rewrite length_insert. by eapply lookup_lt_Some.
  - erewrite stop_watching_any.
    2:{ simpl. rewrite list_lookup_insert_ne by lia.
        rewrite list_lookup_insert_eq; [done|]. by eapply lookup_lt_Some. }
    2:{ simpl. intros n f Hin. by apply elem_of_nil in Hin. }
    simpl. f_equal. f_equal.
    apply list_insert_id. rewrite list_lookup_insert_ne by lia.
    rewrite list_lookup_insert_eq; [done|]. by eapply lookup_lt_Some.
Qed.


(** A call of an attribute that is no closure: the host function runs, or
    the attribute is missing. *)
Lemma fire_host self s n a :
  (∀ f, application s !! n = Some f -> ∃ name beh, f = HostFn name beh) ->
  application (exec (fire n a) s) = application s ∧
  watchers (exec (fire n a) s) = watchers s ∧
  runs self (exec (fire n a) s) = runs self s.
Proof.
  intros Hf. unfold exec, fire, bind, getattr.
  destruct (application s !! n) as [f|] eqn:Hn; [|done].
  destruct (Hf f eq_refl) as (name & beh & ->). simpl.
  split_and!; [done..|]. rewrite runs_emit. simpl. by rewrite app_nil_r.
Qed.

Lemma fire_all_host self base events s :
  unpatched_host base -> application s = base ->
  runs self (fire_all events s) = runs self s ∧
  application (fire_all events s) = base.
Proof.
  intros Hbase. revert s. induction events as [|[n a] events IH]; intros s Hs.
  { done. }
  simpl.
  destruct (fire_host self s n a) as (Happ & _ & Hruns).
  { intros f Hf. rewrite Hs in Hf. by apply (Hbase n f). }
  destruct (IH (exec (fire n a) s)) as [IH1 IH2]; [congruence|].
  split; [congruence | done].
Qed.

Lemma has_quit_cons base n a events :
  n ≠ SCENE_QUIT_EVENT_NAME ->
  has_quit base ((n, a) :: events) = has_quit base events.
Proof.
  intros Hn. unfold has_quit. f_equal. csimpl.
  apply bool_decide_ext. rewrite elem_of_cons. split; [|by right].
  by intros [?|?].
Qed.

(** X3: a watcher that is not [run_once], made on a host of plain entry
    points, runs its callback once after each scene operation that returned,
    each time on the patched host, until the host's [quit] is called; from
    then on the host is unpatched and the callback runs no more. *)
Theorem persistent_watcher_runs_per_event (s0 : State) (cb_fn : callable)
    (events : list (string * args)) :
  let self := length (watchers s0) in
  let base := application s0 in
  let s1 := exec (__init__ cb_fn false) s0 in
  let s := fire_all events s1 in
  unpatched_host base ->
  runs self s
  = runs self s0
      ++ replicate (expected_runs base events)
           (UserCallback self (cb_label cb_fn) (application s1)) ∧
  application s = if has_quit base events then base else application s1.
Proof.
  intros self base s1 s Hbase.
  destruct (init_consistent cb_fn false s0) as (Hc & Hk & Hw & _).
  fold self base s1 in Hc, Hk, Hw.
  assert (Hself : watchers s1 !! self
                  = Some (Build_watcher cb_fn false (table self s1))).
  { rewrite Hw. by rewrite lookup_app_r, Nat.sub_diag by done. }
  assert (Hruns1 : runs self s1 = runs self s0).
  { destruct (start_watching_consistent self base (allocated cb_fn false s0))
      as (s2 & Hrun & _ & _ & _ & _ & _ & _ & l' & Hl & Hq);
      [apply allocated_consistent|].
    assert (Hs : s1 = s2).
    { unfold s1. rewrite new_watcher_exec. unfold exec. fold self. by rewrite Hrun. }
    rewrite Hs. unfold runs. rewrite Hl, callback_runs_app, Hq.
    by rewrite app_nil_r. }
  rewrite <-Hruns1. unfold s. clear s.
  assert (Hgen : ∀ s, application s = application s1 -> watchers s = watchers s1 ->
    runs self (fire_all events s)
    = runs self s ++ replicate (expected_runs base events)
                       (UserCallback self (cb_label cb_fn) (application s1)) ∧
    application (fire_all events s)
    = if has_quit base events then base else application s1); [|exact (Hgen s1 eq_refl eq_refl)].
  induction events as [|[n a] events IH]; intros s Happ Hws.
  { simpl. rewrite app_nil_r. split; [done|]. unfold has_quit.
    rewrite (bool_decide_false (_ ∈ _)) by apply not_elem_of_nil.
    by rewrite andb_false_r. }
  assert (Hcs : consistent self base s).
  { destruct Hc as (H1 & H2 & H3). unfold consistent, table in *.
    by rewrite Hws, Happ. }
  assert (Hpat : application s !! n = patched self base n).
  { rewrite Happ. unfold s1. by rewrite new_watcher_patched. }
  change (fire_all ((n, a) :: events) s)
    with (fire_all events (exec (fire n a) s)).
  cbn [expected_runs fst snd].
  destruct (decide (n = SCENE_QUIT_EVENT_NAME)) as [->|Hq].
  - (* quit *)
    unfold patched in Hpat. rewrite decide_True in Hpat
      by (apply (bool_decide_unpack _); by vm_compute).
    destruct (base !! SCENE_QUIT_EVENT_NAME) as [f0|] eqn:Hq.
    + destruct (Hbase _ _ Hq) as (name & beh & ->).
      assert (Hstep : application (exec (fire SCENE_QUIT_EVENT_NAME a) s) = base ∧
                      runs self (exec (fire SCENE_QUIT_EVENT_NAME a) s) = runs self s).
      { unfold exec, fire. rewrite (bind_Ok _ _ s _ s)
          by (unfold getattr; rewrite Hpat; reflexivity).
        unfold wrap_for. rewrite decide_True by done.
        rewrite call_quit_closure. unfold __clarisse_exiting_callback.
        rewrite (bind_Ok _ _ s tt (stopped self base s))
          by (by apply stop_watching_consistent).
        simpl. split; [done|]. rewrite runs_emit. simpl. by rewrite app_nil_r. }
      destruct Hstep as [Hb Hr].
      destruct (fire_all_host self base events _ Hbase Hb) as [Hr' Hb'].
      rewrite Hr', Hr, Hb'. simpl. rewrite app_nil_r. split; [done|].
      unfold has_quit. rewrite Hq. rewrite bool_decide_true by done.
      rewrite bool_decide_true; [done|]. csimpl. by apply elem_of_cons; left.
    + simpl in Hpat.
      assert (Hstep : exec (fire SCENE_QUIT_EVENT_NAME a) s = s).
      { unfold exec, fire, bind, getattr. by rewrite Hpat. }
      rewrite Hstep. destruct (IH s Happ Hws) as [IH1 IH2]. split; [done|].
      unfold has_quit in *. rewrite Hq in *.
      by rewrite !bool_decide_false by (by intros [? ?]).
  - (* not quit *)
    rewrite has_quit_cons by done.
    assert (Hstep :
      application (exec (fire n a) s) = application s1 ∧
      watchers (exec (fire n a) s) = watchers s1 ∧
      runs self (exec (fire n a) s)
      = runs self s ++ (if scene_event_returns base (n, a)
                        then [UserCallback self (cb_label cb_fn) (application s1)]
                        else [])).
    { unfold scene_event_returns. cbn [fst snd].
      destruct (decide (n ∈ SCENE_EVENT_NAMES)) as [Hin|Hnin].
      - rewrite bool_decide_true by done. simpl.
        unfold patched in Hpat. rewrite decide_True in Hpat
          by (apply elem_of_app; by left).
        destruct (base !! n) as [f0|] eqn:Hn; simpl in Hpat.
        + destruct (Hbase _ _ Hn) as (name & beh & ->).
          unfold exec, fire. rewrite (bind_Ok _ _ s _ s)
            by (unfold getattr; rewrite Hpat; reflexivity).
          unfold wrap_for. rewrite decide_False by done.
          rewrite call_scene_closure.
          unfold bind at 1. simpl.
          destruct (beh a) as [v|e]; simpl.
          * unfold __scene_event_callback, invoke_cb_fn, bind, get_watcher, ret.
            simpl. rewrite Hws, Hself. simpl. rewrite ?Hws, ?Hself. simpl.
            rewrite Happ.
            destruct (cb_raises cb_fn); simpl;
              (split_and!; [done..|]); rewrite !runs_emit; simpl;
              rewrite bool_decide_true by done; by rewrite app_nil_r.
          * split_and!; [done..|]. rewrite runs_emit. simpl. by rewrite !app_nil_r.
        + unfold exec, fire, bind, getattr. rewrite Hpat. simpl.
          by rewrite app_nil_r.
      - rewrite bool_decide_false by done. simpl. rewrite app_nil_r.
        destruct (fire_host self s n a) as (H1 & H2 & H3).
        + intros f Hf. rewrite Hpat in Hf. unfold patched in Hf.
          rewrite decide_False in Hf.
          * by apply (Hbase n f).
          * unfold WATCHED. rewrite elem_of_app, list_elem_of_singleton. tauto.
        + split_and!; congruence. }
    destruct Hstep as (H1 & H2 & H3).
    destruct (IH _ H1 H2) as [IH1 IH2]. split; [|done].
    rewrite IH1, H3. rewrite <-(assoc_L (++)). f_equal.
    by destruct (scene_event_returns base (n, a)).
Qed.

Lemma persistent_watcher_runs_per_event_witness :
  unpatched_host flaky_host ∧
  runs 0 (fire_all [("save_project", []); ("load_project", ["a.project"]);
                    ("render", []); ("new_project", []); ("quit", []);
                    ("save_project", [])]
            (exec (__init__ a_callback false) (session flaky_host)))
  = replicate 2
      (UserCallback 0 "on_scene_event_callback"
         (application (exec (__init__ a_callback false) (session flaky_host)))).
Proof.
  assert (H : unpatched_host flaky_host).
  { unfold unpatched_host, flaky_host, full_host. simpl.
    repeat (apply map_Forall_insert_2; [by eauto|]). apply map_Forall_empty. }
  split; [exact H|].
  exact (proj1 (persistent_watcher_runs_per_event (session flaky_host) a_callback
                  [("save_project", []); ("load_project", ["a.project"]);
                   ("render", []); ("new_project", []); ("quit", []);
                   ("save_project", [])] H)).
Defined.


(** One turn of the registration loop of [start_watching], on any store. *)
Lemma scene_turn_log self n s :
  ∃ s',
    try_except
      (let* event_fn := getattr n in
       let event_fn := wrapped event_fn self (Some scene_event_callback) None in
       let* _ := set_wrapped_fns self (dict_set n event_fn) in
       let* _ := setattr n event_fn in
       display_debug ("Registered callback on " +:+ n +:+ " "))
      (fun _ => true) (fun e => print_exc e) s = (Ok tt, s') ∧
    log s' = log s ++ registration_log s n ∧
    environ s' = environ s ∧ asctime s' = asctime s ∧
    ∀ n', n' ≠ n -> application s' !! n' = application s !! n'.
Proof.
  unfold try_except, bind, getattr, registration_log.
  destruct (application s !! n) as [f|] eqn:Hn.
  - unfold set_wrapped_fns, setattr, modify, display_debug. simpl.
    destruct (decide (environ s !! "TK_DEBUG" = Some "1")) as [Hd|Hd].
    + eexists. split; [reflexivity|]. simpl. split_and!; [done..|].
      intros n' Hne. by rewrite lookup_insert_ne.
    + eexists. split; [reflexivity|]. simpl. rewrite app_nil_r.
      split_and!; [done..|].
      intros n' Hne. by rewrite lookup_insert_ne.
  - simpl. eexists. split; [reflexivity|]. by simpl.
Qed.

Lemma registration_log_ext s s' n :
  application s' !! n = application s !! n ->
  environ s' = environ s -> asctime s' = asctime s ->
  registration_log s' n = registration_log s n.
Proof. unfold registration_log. by intros -> -> ->. Qed.

Lemma flat_map_registration_log s s' l :
  (∀ n, n ∈ l -> application s' !! n = application s !! n) ->
  environ s' = environ s -> asctime s' = asctime s ->
  flat_map (registration_log s') l = flat_map (registration_log s) l.
Proof.
  intros Happ He Ht. induction l as [|n l IH]; [done|]. simpl.
  rewrite (registration_log_ext s s' n); [|apply Happ; by left|done..].
  f_equal. apply IH. intros n' Hn'. apply Happ. by right.
Qed.

Lemma scene_loop_log self l s :
  NoDup l ->
  ∃ s',
    for_each l (fun event_name =>
      try_except
        (let* event_fn := getattr event_name in
         let event_fn := wrapped event_fn self (Some scene_event_callback) None in
         let* _ := set_wrapped_fns self (dict_set event_name event_fn) in
         let* _ := setattr event_name event_fn in
         display_debug ("Registered callback on " +:+ event_name +:+ " "))
        (fun _ => true) (fun e => print_exc e)) s = (Ok tt, s') ∧
    log s' = log s ++ flat_map (registration_log s) l.
Proof.
  intros Hnd. revert s. induction Hnd as [|n l Hn Hnd IH]; intros s.
  { exists s. split; [done|]. simpl. by rewrite app_nil_r. }
  destruct (scene_turn_log self n s) as (s1 & Hrun & Hlog & He & Ht & Happ).
  destruct (IH s1) as (s2 & Hrun2 & Hlog2).
  exists s2. split.
  - simpl. by rewrite (bind_Ok _ _ s tt s1).
  - rewrite Hlog2, Hlog. simpl. rewrite <-(assoc_L (++)). do 2 f_equal.
    apply flat_map_registration_log; [|done..].
    intros n' Hn'. apply Happ. by intros ->.
Qed.

(** X4: what the constructor of a watcher writes: for each scene entry
    point, in the order of [SCENE_EVENT_NAMES], the traceback of the
    AttributeError when the host lacks it, and the line
    [Registered callback on ...] when the host has it and [TK_DEBUG] is
    [1]; nothing else, and nothing for [quit]. *)
Theorem constructor_log (cb_fn : callable) (run_once : bool) (s0 : State) :
  log (exec (__init__ cb_fn run_once) s0)
  = log s0 ++ flat_map (registration_log s0) SCENE_EVENT_NAMES.
Proof.
  rewrite new_watcher_exec.
  set (self := length (watchers s0)).
  set (sa := allocated cb_fn run_once s0).
  unfold exec, start_watching.
  rewrite (bind_Ok _ _ sa tt (stopped self (application s0) sa))
    by (apply stop_watching_consistent, allocated_consistent).
  destruct (scene_loop_log self SCENE_EVENT_NAMES
              (stopped self (application s0) sa) SCENE_EVENT_NAMES_NoDup)
    as (sb & Hrun & Hlog).
  rewrite (bind_Ok _ _ _ tt sb) by exact Hrun.
  transitivity (log sb).
  - unfold bind, getattr.
    destruct (application sb !! SCENE_QUIT_EVENT_NAME); reflexivity.
  - rewrite Hlog. reflexivity.
Qed.


(** X5: a [run_once] watcher made on a host of plain entry points runs its
    callback after the first scene operation that returned before [quit],
    on the host as it was before the watcher patched it, and leaves the host
    unpatched from then on; if no such operation comes, the callback does
    not run. *)
Theorem run_once_watcher_runs_on_first_event (s0 : State) (cb_fn : callable)
    (events : list (string * args)) :
  let self := length (watchers s0) in
  let base := application s0 in
  let s1 := exec (__init__ cb_fn true) s0 in
  let s := fire_all events s1 in
  unpatched_host base ->
  runs self s
  = runs self s0
      ++ match expected_runs base events with
         | 0 => []
         | S _ => [UserCallback self (cb_label cb_fn) base]
         end ∧
  application s
  = match expected_runs base events with
    | 0 => if has_quit base events then base else application s1
    | S _ => base
    end.
Proof.
  intros self base s1 s Hbase.
  destruct (init_consistent cb_fn true s0) as (Hc & Hk & Hw & _).
  fold self base s1 in Hc, Hk, Hw.
  assert (Hself : watchers s1 !! self
                  = Some (Build_watcher cb_fn true (table self s1))).
  { rewrite Hw. by rewrite lookup_app_r, Nat.sub_diag by done. }
  assert (Hruns1 : runs self s1 = runs self s0).
  { destruct (start_watching_consistent self base (allocated cb_fn true s0))
      as (s2 & Hrun & _ & _ & _ & _ & _ & _ & l' & Hl & Hq);
      [apply allocated_consistent|].
    assert (Hs : s1 = s2).
    { unfold s1. rewrite new_watcher_exec. unfold exec. fold self. by rewrite Hrun. }
    rewrite Hs. unfold runs. rewrite Hl, callback_runs_app, Hq.
    by rewrite app_nil_r. }
  rewrite <-Hruns1. unfold s. clear s.
  assert (Hgen : ∀ s, application s = application s1 -> watchers s = watchers s1 ->
    runs self (fire_all events s)
    = runs self s ++ match expected_runs base events with
                     | 0 => []
                     | S _ => [UserCallback self (cb_label cb_fn) base]
                     end ∧
    application (fire_all events s)
    = match expected_runs base events with
      | 0 => if has_quit base events then base else application s1
      | S _ => base
      end); [|exact (Hgen s1 eq_refl eq_refl)].
  induction events as [|[n a] events IH]; intros s Happ Hws.
  { simpl. rewrite app_nil_r. split; [done|]. unfold has_quit.
    rewrite (bool_decide_false (_ ∈ _)) by apply not_elem_of_nil.
    by rewrite andb_false_r. }
  assert (Hcs : consistent self base s).
  { destruct Hc as (H1 & H2 & H3). unfold consistent, table in *.
    by rewrite Hws, Happ. }
  assert (Hpat : application s !! n = patched self base n).
  { rewrite Happ. unfold s1. by rewrite new_watcher_patched. }
  change (fire_all ((n, a) :: events) s)
    with (fire_all events (exec (fire n a) s)).
  cbn [expected_runs fst snd].
  destruct (decide (n = SCENE_QUIT_EVENT_NAME)) as [->|Hq].
  - unfold patched in Hpat. rewrite decide_True in Hpat
      by (apply (bool_decide_unpack _); by vm_compute).
    destruct (base !! SCENE_QUIT_EVENT_NAME) as [f0|] eqn:Hq.
    + destruct (Hbase _ _ Hq) as (name & beh & ->).
      assert (Hstep : application (exec (fire SCENE_QUIT_EVENT_NAME a) s) = base ∧
                      runs self (exec (fire SCENE_QUIT_EVENT_NAME a) s) = runs self s).
      { unfold exec, fire. rewrite (bind_Ok _ _ s _ s)
          by (unfold getattr; rewrite Hpat; reflexivity).
        unfold wrap_for. rewrite decide_True by done.
        rewrite call_quit_closure. unfold __clarisse_exiting_callback.
        rewrite (bind_Ok _ _ s tt (stopped self base s))
          by (by apply stop_watching_consistent).
        simpl. split; [done|]. rewrite runs_emit. simpl. by rewrite app_nil_r. }
      destruct Hstep as [Hb Hr].
      destruct (fire_all_host self base events _ Hbase Hb) as [Hr' Hb'].
      rewrite Hr', Hr, Hb'. rewrite app_nil_r. split; [done|].
      unfold has_quit. rewrite Hq. rewrite bool_decide_true by done.
      rewrite bool_decide_true; [done|]. csimpl. by apply elem_of_cons; left.
    + simpl in Hpat.
      assert (Hstep : exec (fire SCENE_QUIT_EVENT_NAME a) s = s).
      { unfold exec, fire, bind, getattr. by rewrite Hpat. }
      rewrite Hstep. destruct (IH s Happ Hws) as [IH1 IH2]. split; [done|].
      rewrite IH2. destruct (expected_runs base events); [|done].
      unfold has_quit in *. rewrite Hq in *.
      by rewrite !bool_decide_false by (by intros [? ?]).
  - rewrite has_quit_cons by done.
    destruct (scene_event_returns base (n, a)) eqn:Hret.
    + (* the first scene operation that returns *)
      unfold scene_event_returns in Hret. cbn [fst snd] in Hret.
      apply andb_prop in Hret as [Hin Hret].
      apply bool_decide_eq_true in Hin.
      unfold patched in Hpat. rewrite decide_True in Hpat
        by (apply elem_of_app; by left).
      destruct (base !! n) as [f0|] eqn:Hn; [|done].
      destruct f0 as [name beh|]; [|done].
      destruct (beh a) as [v|] eqn:Hv; [|done]. simpl in Hpat.
      assert (Hstep : exec (fire n a) s
                      = emit (UserCallback self (cb_label cb_fn) base)
                          (stopped self base (emit (HostCall name a) s))).
      { unfold exec, fire. rewrite (bind_Ok _ _ s _ s)
          by (unfold getattr; rewrite Hpat; reflexivity).
        unfold wrap_for. rewrite decide_False by done.
        rewrite call_scene_closure.
        unfold bind at 1.
        change (call (HostFn name beh) a s)
          with (beh a, emit (HostCall name a) s).
        rewrite Hv. cbv beta iota.
        set (s' := emit (HostCall name a) s).
        assert (Hcs' : consistent self base s') by done.
        rewrite !bind_snd_ret.
        unfold __scene_event_callback.
        rewrite (bind_Ok _ _ s' (Build_watcher cb_fn true (table self s1)) s')
          by (unfold get_watcher; simpl; by rewrite Hws, Hself).
        cbn [__run_once].
        rewrite (bind_Ok _ _ s' tt (stopped self base s'))
          by (by apply stop_watching_consistent).
        unfold invoke_cb_fn, bind, get_watcher, stopped. simpl.
        rewrite Hws, Hself. rewrite list_lookup_insert_eq
          by (by eapply lookup_lt_Some). simpl.
        by destruct (cb_raises cb_fn). }
      assert (Hb : application (exec (fire n a) s) = base) by by rewrite Hstep.
      assert (Hr : runs self (exec (fire n a) s)
                   = runs self s ++ [UserCallback self (cb_label cb_fn) base]).
      { rewrite Hstep, runs_emit. simpl. rewrite bool_decide_true by done.
        f_equal. unfold runs. simpl. rewrite callback_runs_app. simpl.
        by rewrite app_nil_r. }
      destruct (fire_all_host self base events _ Hbase Hb) as [Hr' Hb'].
      simpl. by rewrite Hr', Hr, Hb'.
    + assert (Hstep :
        application (exec (fire n a) s) = application s1 ∧
        watchers (exec (fire n a) s) = watchers s1 ∧
        runs self (exec (fire n a) s) = runs self s).
      { unfold scene_event_returns in Hret. cbn [fst snd] in Hret.
        destruct (decide (n ∈ SCENE_EVENT_NAMES)) as [Hin|Hnin].
        - rewrite bool_decide_true in Hret by done. simpl in Hret.
          unfold patched in Hpat. rewrite decide_True in Hpat
            by (apply elem_of_app; by left).
          destruct (base !! n) as [f0|] eqn:Hn; simpl in Hpat.
          + destruct (Hbase _ _ Hn) as (name & beh & ->).
            unfold exec, fire. rewrite (bind_Ok _ _ s _ s)
              by (unfold getattr; rewrite Hpat; reflexivity).
            unfold wrap_for. rewrite decide_False by done.
            rewrite call_scene_closure.
            unfold bind at 1. simpl.
            destruct (beh a) as [v|e]; [done|]. simpl.
            split_and!; [done..|]. rewrite runs_emit. simpl. by rewrite !app_nil_r.
          + unfold exec, fire, bind, getattr. by rewrite Hpat.
        - destruct (fire_host self s n a) as (H1 & H2 & H3).
          + intros f Hf. rewrite Hpat in Hf. unfold patched in Hf.
            rewrite decide_False in Hf.
            * by apply (Hbase n f).
            * unfold WATCHED. rewrite elem_of_app, list_elem_of_singleton. tauto.
          + split_and!; congruence. }
      destruct Hstep as (H1 & H2 & H3).
      destruct (IH _ H1 H2) as [IH1 IH2]. simpl. split; [|done].
      by rewrite IH1, H3.
Qed.

Lemma run_once_watcher_runs_on_first_event_witness :
  unpatched_host flaky_host ∧
  runs 0 (fire_all [("load_project", ["a.project"]); ("render", []);
                    ("new_project", []); ("save_project", [])]
            (exec (__init__ a_callback true) (session flaky_host)))
  = [UserCallback 0 "on_scene_event_callback" flaky_host].
Proof.
  assert (H : unpatched_host flaky_host).
  { unfold unpatched_host, flaky_host, full_host. simpl.
    repeat (apply map_Forall_insert_2; [by eauto|]). apply map_Forall_empty. }
  split; [exact H|].
  exact (proj1 (run_once_watcher_runs_on_first_event (session flaky_host)
                  a_callback
                  [("load_project", ["a.project"]); ("render", []);
                   ("new_project", []); ("save_project", [])] H)).
Defined.

End watcher_use_facts.

Section refresh_use_facts.
Import Refresh RefreshSpec RefreshUse Callback.

Ltac flat_trace :=
  unfold record; simpl; rewrite <-?(assoc_L (++)), ?app_nil_r; simpl.

Opaque resolution_actions.

(** [refresh_engine] on a saved scene whose context resolves. *)
Lemma refresh_engine_resolved_step tk_api engine_name prev_context menu_name
    w eng ctx :
  current_engine w = Some eng ->
  current_project_filename w ≠ "" ->
  resolution tk_api eng (abspath tk_api (current_project_filename w))
    prev_context = Ok ctx ->
  refresh_engine tk_api engine_name prev_context menu_name w
  = (Ok tt, resolved tk_api prev_context menu_name eng ctx w).
Proof.
  intros Heng Hfile Hres.
  rewrite (refresh_engine_file tk_api engine_name prev_context menu_name
             w eng Heng Hfile). simpl. rewrite Hres.
  unfold resolved, refreshed, remove_sgtk_disabled_menu, clear_sgtk_menu,
    create_shotgun_menu, after_calls.
  destruct w as [ce file gui mm mc t tr]. simpl in *. subst ce.
  set (calls := resolution_actions _ _ _ _). clearbody calls.
  destruct gui; simpl.
  - unfold bind at 1. unfold bind at 1, get. simpl.
    unfold bind at 1. rewrite get_sgtk_root_menu_eq. simpl.
    unfold bind at 1, remove_all_commands, modify. simpl.
    unfold bind at 1. unfold bind at 1, get. simpl.
    unfold bind at 1, engine_field at 1. simpl.
    unfold bind at 1. rewrite get_sgtk_root_menu_eq. simpl.
    unfold bind, engine_field, MenuGenerator_create_menu, modify, ret. simpl.
    destruct (decide (ctx = context eng)) as [Heq|Hne].
    + rewrite decide_False by (by intros []). by flat_trace.
    + rewrite decide_True by done. unfold exec, change_context, modify.
      by flat_trace.
  - unfold bind at 1. unfold bind at 1, get. simpl.
    unfold bind at 1. unfold bind at 1, get. simpl.
    unfold bind, engine_field. simpl.
    destruct (decide (ctx = context eng)) as [Heq|Hne].
    + by rewrite decide_False by (by intros []).
    + by rewrite decide_True by done.
Qed.


(** [refresh_engine] on a saved scene for which the fallback raised a
    TankError. *)
Lemma refresh_engine_unresolved_step tk_api engine_name prev_context menu_name
    w eng e :
  current_engine w = Some eng ->
  current_project_filename w ≠ "" ->
  resolution tk_api eng (abspath tk_api (current_project_filename w))
    prev_context = Raise e ->
  is_TankError e = true ->
  refresh_engine tk_api engine_name prev_context menu_name w
  = (Ok tt, unresolved tk_api prev_context menu_name eng e w).
Proof.
  intros Heng Hfile Hres Ht.
  rewrite (refresh_engine_file tk_api engine_name prev_context menu_name
             w eng Heng Hfile). simpl. rewrite Hres, Ht.
  unfold unresolved, create_sgtk_disabled_menu, after_calls, error_line.
  destruct w as [ce file gui mm mc t tr]. simpl in *. subst ce.
  set (calls := resolution_actions _ _ _ _). clearbody calls.
  unfold bind at 1. unfold bind at 1, get. simpl.
  destruct gui; simpl.
  - unfold bind at 1. rewrite get_sgtk_root_menu_eq. simpl.
    unfold display_error, disabled_item. by flat_trace.
  - unfold display_error. by flat_trace.
Qed.

Transparent resolution_actions.

(** X6: on a saved scene whose context resolves to [ctx], [refresh_engine]
    returns, the engine ends in [ctx], and the calls it makes are, in this
    order: the resolution, in a GUI session the menu generator, and
    [change_context] when [ctx] is not the context the engine had.  In a
    GUI session the placeholder is gone and the root menu exists; without
    GUI the menus are untouched. *)
Theorem refresh_engine_resolved tk_api (engine_name : string)
    (prev_context : Context) (menu_name : string) w eng ctx :
  current_engine w = Some eng ->
  current_project_filename w ≠ "" ->
  let path := abspath tk_api (current_project_filename w) in
  resolution tk_api eng path prev_context = Ok ctx ->
  let w' := exec (refresh_engine tk_api engine_name prev_context menu_name) w in
  (refresh_engine tk_api engine_name prev_context menu_name w).1 = Ok tt ∧
  context <$> current_engine w' = Some ctx ∧
  trace w'
  = trace w ++ resolution_actions tk_api eng path prev_context
      ++ (if is_gui_application w
          then [MenuGeneratorCreateMenu (_menu_name eng +:+ ">")] else [])
      ++ (if decide (ctx = context eng) then [] else [ChangeContext ctx]) ∧
  (if is_gui_application w then
     main_menu w' !! disabled_item menu_name = None ∧
     is_Some (main_menu w' !! (_menu_name eng +:+ ">"))
   else main_menu w' = main_menu w ∧ menu_callbacks w' = menu_callbacks w).
Proof.
  intros Heng Hfile path Hres w'. subst path.
  unfold w', exec.
  rewrite (refresh_engine_resolved_step _ _ _ _ _ eng ctx Heng Hfile Hres).
  cbn [fst snd]. unfold resolved, refreshed.
  set (calls := resolution_actions _ _ _ _). clearbody calls.
  destruct (is_gui_application w) eqn:Hgui;
    destruct (decide (ctx = context eng)) as [Heq|Hne];
    unfold exec, change_context, modify, after_calls; simpl; rewrite ?Heng; simpl.
  - split_and!; [done|by rewrite Heq|by rewrite ?app_nil_r| |].
    + apply rebuilt_no_placeholder.
    + apply with_root_lookup.
  - split_and!; [done|done| | |].
    + unfold record. simpl. by rewrite <-!(assoc_L (++)).
    + apply rebuilt_no_placeholder.
    + apply with_root_lookup.
  - split_and!; [done|by rewrite Heq|by rewrite ?app_nil_r|done|done].
  - split_and!; [done|done| |done|done].
    unfold record. simpl. by rewrite <-!(assoc_L (++)).
Qed.

Lemma refresh_engine_resolved_witness :
  trace (exec (refresh_engine jobs_toolkit "tk-clarisse" a_context "Shotgun")
           (world true "/jobs/p65/shot020.project"))
  = [TankFromPath "/jobs/p65/shot020.project";
     ContextFromPath "tk:/pipeline/project65" "/jobs/p65/shot020.project"
       a_context;
     MenuGeneratorCreateMenu "Shotgun>";
     ChangeContext (Build_Context "Project 65" "Shot 020")].
Proof.
  exact (proj1 (proj2 (proj2
           (refresh_engine_resolved jobs_toolkit "tk-clarisse" a_context
              "Shotgun" (world true "/jobs/p65/shot020.project") an_engine
              (Build_Context "Project 65" "Shot 020") eq_refl
              ltac:(discriminate) eq_refl)))).
Defined.

(** X7: a GUI session recovers from an unresolvable scene: the refresh on
    a scene no context is found for leaves the placeholder item, and the
    refresh after the host opened a scene that resolves removes it and puts
    the engine in the resolved context. *)
Theorem refresh_engine_recovers tk_api (engine_name : string)
    (prev_context : Context) (menu_name : string) w eng (e : exn)
    (filename : string) (ctx : Context) :
  current_engine w = Some eng ->
  is_gui_application w = true ->
  current_project_filename w ≠ "" ->
  resolution tk_api eng (abspath tk_api (current_project_filename w))
    prev_context = Raise e ->
  is_TankError e = true ->
  filename ≠ "" ->
  resolution tk_api eng (abspath tk_api filename) prev_context = Ok ctx ->
  let refresh := refresh_engine tk_api engine_name prev_context menu_name in
  let w1 := exec refresh w in
  let w2 := exec refresh (open_scene filename w1) in
  is_Some (main_menu w1 !! disabled_item menu_name) ∧
  (refresh (open_scene filename w1)).1 = Ok tt ∧
  main_menu w2 !! disabled_item menu_name = None ∧
  is_Some (main_menu w2 !! (_menu_name eng +:+ ">")) ∧
  context <$> current_engine w2 = Some ctx.
Proof.
  intros Heng Hgui Hfile Hres Ht Hfile2 Hres2 refresh w1 w2.
  assert (Hw1 : w1 = unresolved tk_api prev_context menu_name eng e w).
  { unfold w1, refresh, exec.
    by rewrite (refresh_engine_unresolved_step _ _ _ _ _ eng e). }
  assert (Heng1 : current_engine (open_scene filename w1) = Some eng).
  { by rewrite Hw1. }
  assert (Hrun : refresh (open_scene filename w1)
                 = (Ok tt, resolved tk_api prev_context menu_name eng ctx
                             (open_scene filename w1))).
  { unfold refresh. by apply refresh_engine_resolved_step. }
  unfold w2, exec. rewrite Hrun. cbn [fst snd].
  split_and!; [|done|..].
  - rewrite Hw1. unfold unresolved. simpl. rewrite Hgui.
    rewrite lookup_insert_eq. eauto.
  - unfold resolved, refreshed. rewrite Hw1. simpl. rewrite Hgui.
    destruct (decide (ctx = context eng)); simpl; apply rebuilt_no_placeholder.
  - unfold resolved, refreshed. rewrite Hw1. simpl. rewrite Hgui.
    destruct (decide (ctx = context eng)); simpl; apply with_root_lookup.
  - unfold resolved, refreshed. rewrite Hw1. simpl. rewrite Hgui.
    destruct (decide (ctx = context eng)) as [->|]; done.
Qed.

Lemma refresh_engine_recovers_witness :
  let refresh := refresh_engine jobs_toolkit "tk-clarisse" a_context "Shotgun" in
  let w1 := exec refresh (world true "/tmp/untracked.project") in
  let w2 := exec refresh (open_scene "/jobs/p65/shot020.project" w1) in
  is_Some (main_menu w1 !! disabled_item "Shotgun") ∧
  main_menu w2 !! disabled_item "Shotgun" = None.
Proof.
  pose proof (refresh_engine_recovers jobs_toolkit "tk-clarisse" a_context
                "Shotgun" (world true "/tmp/untracked.project") an_engine
                unknown_file_error "/jobs/p65/shot020.project"
                (Build_Context "Project 65" "Shot 020") eq_refl eq_refl
                ltac:(discriminate) eq_refl eq_refl ltac:(discriminate)
                eq_refl) as H.
  exact (conj (proj1 H) (proj1 (proj2 (proj2 H)))).
Defined.

(** X8: [on_scene_event_callback] never raises.  It leaves the world
    [refresh_engine] leaves; when [refresh_engine] returned it shows no
    box, and when [refresh_engine] raised, the callback prints and shows,
    in one error box, the message naming the class and value of the
    exception.  Which call raised does not matter: the same holds of the
    [try] statement around any body, so also around a [refresh_engine]
    whose menu calls or whose [change_context] fail. *)
Theorem on_scene_event_callback_contains_errors tk_api
    (engine_name : string) (prev_context : Context) (menu_name : string) :
  let reported e w' h :=
    Build_Host
      (record (Print ("Shotgun Error | Clarisse engine | "
                        +:+ context_problem_message e +:+ " ")) w')
      (message_boxes h
         ++ [Build_message_box (context_problem_message e)
               "Shotgun Error | Clarisse engine"]) in
  (∀ h,
     match refresh_engine tk_api engine_name prev_context menu_name
             (host_world h) with
     | (Ok _, w') =>
         on_scene_event_callback tk_api engine_name prev_context menu_name h
         = (Ok tt, Build_Host w' (message_boxes h))
     | (Raise e, w') =>
         on_scene_event_callback tk_api engine_name prev_context menu_name h
         = (Ok tt, reported e w' h)
     end) ∧
  (∀ (body : M World unit) h,
     match body (host_world h) with
     | (Ok _, w') =>
         report_exception (lift body) h
         = (Ok tt, Build_Host w' (message_boxes h))
     | (Raise e, w') =>
         report_exception (lift body) h = (Ok tt, reported e w' h)
     end) ∧
  ∀ e, ∃ before,
    context_problem_message e
    = before +:+ "Exception: " +:+ show_class (exc_type e) +:+ " - "
        +:+ exc_value e +:+ LF +:+ "Traceback (most recent call last):"
        +:+ LF +:+ String.concat LF (exc_traceback e).
Proof.
  intros reported.
  assert (Hbody : ∀ (body : M World unit) h,
            match body (host_world h) with
            | (Ok _, w') =>
                report_exception (lift body) h
                = (Ok tt, Build_Host w' (message_boxes h))
            | (Raise e, w') =>
                report_exception (lift body) h = (Ok tt, reported e w' h)
            end).
  { intros body h. unfold report_exception, try_except, lift.
    by destruct (body (host_world h)) as [[[]|e] w']. }
  split_and!; [|exact Hbody|].
  - intros h. apply (Hbody (refresh_engine _ _ _ _)).
  - intros e.
    by exists ("Message: Shotgun encountered a problem changing the "
               +:+ "Engine's context." +:+ LF
               +:+ "Please contact you technical support team for more "
               +:+ "information." +:+ LF +:+ LF).
Qed.

(** A resolution that cannot reach the database: the exception leaves
    [refresh_engine] and ends in the box. *)
Example on_scene_event_callback_offline :
  message_boxes
    (exec (on_scene_event_callback offline_toolkit "tk-clarisse" a_context
             "Shotgun")
       (Build_Host (world true "/jobs/p65/shot020.project") []))
  = [Build_message_box (context_problem_message connection_error)
       "Shotgun Error | Clarisse engine"].
Proof. reflexivity. Qed.

Lemma prefix_refl (p : string) : String.prefix p p = true.
Proof.
  induction p as [|c p IH]; [done|]. simpl.
  by destruct (Ascii.ascii_dec c c).
Qed.

Lemma prefix_disabled_item menu_name :
  String.prefix (menu_name +:+ ">") (disabled_item menu_name) = true.
Proof.
  unfold disabled_item.
  change (menu_name +:+ ">Sgtk is disabled.")
    with (menu_name +:+ (">" +:+ "Sgtk is disabled.")).
  assert (Hassoc : ∀ a b c : string, a +:+ (b +:+ c) = (a +:+ b) +:+ c).
  { intros a b c. induction a as [|ch a IH]; [done|].
    unfold String.app in *. simpl. by rewrite IH. }
  by rewrite Hassoc, prefix_app.
Qed.

Lemma clear_sgtk_menu_eq menu_name w :
  clear_sgtk_menu menu_name w
  = (Ok tt,
     if is_gui_application w then
       Build_World (current_engine w) (current_project_filename w) true
         (filter (fun item => String.prefix (menu_name +:+ ">") item.1 = false)
            (with_root menu_name (main_menu w)))
         ∅ (asctime w) (trace w)
     else w).
Proof.
  destruct w as [ce file gui mm mc t tr].
  unfold clear_sgtk_menu, bind, get, get_sgtk_root_menu, remove_all_commands,
    modify, set_main_menu, set_menu_callbacks, with_root, ret.
  destruct gui; simpl; [|done].
  by destruct (mm !! (menu_name +:+ ">")).
Qed.

Lemma create_sgtk_disabled_menu_eq menu_name w :
  create_sgtk_disabled_menu menu_name w
  = (Ok tt,
     if is_gui_application w then
       Build_World (current_engine w) (current_project_filename w) true
         (<[disabled_item menu_name :=
              "ix.shotgun.menu_callbacks[" +:+ disabled_item menu_name +:+ "]"]>
            (with_root menu_name (main_menu w)))
         (<[disabled_item menu_name := "sgtk_disabled_message"]>
            (menu_callbacks w))
         (asctime w) (trace w)
     else w).
Proof.
  destruct w as [ce file gui mm mc t tr].
  unfold create_sgtk_disabled_menu, bind, get, get_sgtk_root_menu,
    modify, set_main_menu, set_menu_callbacks, with_root, ret, disabled_item.
  destruct gui; simpl; [|done].
  by destruct (mm !! (menu_name +:+ ">")).
Qed.

(** X9: the placeholder leaves no trace: [create_sgtk_disabled_menu]
    followed by [remove_sgtk_disabled_menu] leaves the session as
    [clear_sgtk_menu] alone does.  In a GUI session no item below the root
    of the menu is left, though the placeholder was there in between, every
    item of other menus is kept and the callback table is empty; without
    GUI all three change nothing. *)
Theorem disabled_menu_round_trip (menu_name : string) (w : World) :
  let w1 := exec (create_sgtk_disabled_menu menu_name) w in
  let w2 := exec (remove_sgtk_disabled_menu menu_name) w1 in
  w2 = exec (clear_sgtk_menu menu_name) w ∧
  (∀ item, String.prefix (menu_name +:+ ">") item = false ->
           main_menu w2 !! item = main_menu w !! item) ∧
  (if is_gui_application w then
     (∀ item, String.prefix (menu_name +:+ ">") item = true ->
              item ≠ menu_name +:+ ">" -> main_menu w2 !! item = None) ∧
     is_Some (main_menu w1 !! disabled_item menu_name) ∧
     menu_callbacks w2 = ∅
   else w1 = w ∧ w2 = w).
Proof.
  intros w1 w2.
  unfold w2, w1, remove_sgtk_disabled_menu, exec.
  rewrite create_sgtk_disabled_menu_eq. cbn [snd].
  rewrite !clear_sgtk_menu_eq. cbn [snd].
  destruct w as [ce file gui mm mc t tr]. destruct gui; simpl; [|done].
  set (P := fun item : string * string =>
              String.prefix (menu_name +:+ ">") item.1 = false).
  assert (Hmenu : filter P
                    (with_root menu_name
                       (<[disabled_item menu_name :=
                            "ix.shotgun.menu_callbacks[" +:+
                              disabled_item menu_name +:+ "]"]>
                          (with_root menu_name mm)))
                  = filter P (with_root menu_name mm)).
  { apply map_eq. intros k. apply option_eq. intros v.
    rewrite !map_lookup_filter_Some. unfold P. simpl.
    split; intros [Hk Hp]; (split; [|done]).
    - assert (k ≠ menu_name +:+ ">") by (intros ->; by rewrite prefix_refl in Hp).
      assert (k ≠ disabled_item menu_name)
        by (intros ->; by rewrite prefix_disabled_item in Hp).
      rewrite with_root_lookup_ne in Hk by done.
      by rewrite lookup_insert_ne in Hk.
    - assert (k ≠ menu_name +:+ ">") by (intros ->; by rewrite prefix_refl in Hp).
      assert (k ≠ disabled_item menu_name)
        by (intros ->; by rewrite prefix_disabled_item in Hp).
      rewrite with_root_lookup_ne by done.
      by rewrite lookup_insert_ne. }
  rewrite Hmenu. split_and!.
  - done.
  - intros item Hitem.
    assert (item ≠ menu_name +:+ ">")
      by (intros ->; by rewrite prefix_refl in Hitem).
    rewrite <-(with_root_lookup_ne menu_name item mm) by done.
    destruct (with_root menu_name mm !! item) as [v|] eqn:Hv.
    + by apply map_lookup_filter_Some.
    + apply map_lookup_filter_None. by left.
  - intros item Hitem _. apply map_lookup_filter_None. right.
    intros v _. unfold P. simpl. by rewrite Hitem.
  - rewrite lookup_insert_eq. eauto.
  - done.
Qed.

End refresh_use_facts.

Section pump_use_facts.
Import Pump PumpSpec PumpUse.




Lemma idle_tick_open s self h :
  event_loop_single s = [self] ->
  instances s !! self = Some h ->
  is_Some (app h) ->
  closing_down s = false ->
  exec idle_tick s
  = Build_State (_helper s) (instances s) [self] (windows_visible s) false
      (qt_calls s ++ if windows_visible s then rounds 1 self else []).
Proof.
  intros Hq Hi [a Ha] Hc.
  destruct s as [hp ins q vis cl calls], h as [ap ih]. simpl in *. subst.
  unfold exec, idle_tick, bind, get, modify. simpl.
  unfold bind, process_events, get, get_instance, bind. simpl. rewrite Hi. simpl.
  destruct vis; simpl.
  - unfold bind, qt, modify, add_to_event_loop_single, modify, ret. simpl.
    by rewrite <-(assoc_L (++)).
  - unfold bind, add_to_event_loop_single, modify, ret. simpl.
    by rewrite app_nil_r.
Qed.

Lemma rounds_S n self : rounds (S n) self = rounds n self ++ rounds 1 self.
Proof.
  unfold rounds. induction n as [|n IH]; [done|].
  set (x := [ProcessEvents self; SendPostedEvents self]) in *.
  change (x ++ concat (replicate (S n) x)
          = (x ++ concat (replicate n x)) ++ concat (replicate 1 x)).
  rewrite IH. apply List.app_assoc.
Qed.

(** X11: while the toolkit application is not closing down, every idle
    tick of the host leaves the helper registered for the next tick, once;
    if a window is visible each tick has Qt process its events and flush
    the posted ones, and if none is visible Qt is not called at all. *)
Theorem pump_runs_every_tick (n : nat) (s : State) (self : nat) (h : Helper) :
  event_loop_single s = [self] ->
  instances s !! self = Some h ->
  is_Some (app h) ->
  closing_down s = false ->
  ticks n s
  = Build_State (_helper s) (instances s) [self] (windows_visible s) false
      (qt_calls s ++ if windows_visible s then rounds n self else []).
Proof.
  intros Hq Hi Ha Hc. induction n as [|n IH].
  - simpl. destruct s; simpl in *; subst.
    destruct windows_visible0; unfold rounds; simpl; by rewrite app_nil_r.
  - unfold ticks in *. simpl. rewrite IH.
    rewrite (idle_tick_open _ self h); simpl; try done.
    rewrite (rounds_S n). destruct (windows_visible s); simpl.
    + by rewrite <-(assoc_L (++)).
    + by rewrite ?app_nil_r.
Qed.

Lemma pump_runs_every_tick_witness :
  qt_calls (ticks 3 (Build_State (Some 0) [Build_Helper (Some "QApplication") None]
                       [0] true false []))
  = [ProcessEvents 0; SendPostedEvents 0; ProcessEvents 0; SendPostedEvents 0;
     ProcessEvents 0; SendPostedEvents 0].
Proof.
  exact (f_equal qt_calls
           (pump_runs_every_tick 3
              (Build_State (Some 0) [Build_Helper (Some "QApplication") None]
                 [0] true false [])
              0 (Build_Helper (Some "QApplication") None) eq_refl eq_refl
              (ex_intro _ "QApplication" eq_refl) eq_refl)).
Defined.

(** X12: once the toolkit application is closing down, the next idle tick
    runs [process_events] a last time, Qt events included when a window is
    visible, and registers nothing; every later tick does nothing at all. *)
Theorem pump_stops_after_shutdown (m : nat) (s : State) (self : nat)
    (h : Helper) :
  event_loop_single s = [self] ->
  instances s !! self = Some h ->
  is_Some (app h) ->
  closing_down s = true ->
  ticks (S m) s = exec idle_tick s ∧
  event_loop_single (ticks (S m) s) = [] ∧
  qt_calls (ticks (S m) s)
  = qt_calls s ++ (if windows_visible s then rounds 1 self else []) ∧
  _helper (ticks (S m) s) = _helper s.
Proof.
  intros Hq Hi [a Ha] Hc.
  assert (H1 : exec idle_tick s
    = Build_State (_helper s)
        (<[self := Build_Helper (app h) (Some None)]> (instances s)) []
        (windows_visible s) true
        (qt_calls s ++ if windows_visible s then rounds 1 self else [])).
  { destruct s as [hp ins q vis cl calls], h as [ap ih]. simpl in *. subst.
    unfold exec, idle_tick, bind, get, modify. simpl.
    unfold bind, process_events, get, get_instance, bind. simpl. rewrite Hi. simpl.
    destruct vis; simpl.
    - unfold bind, qt, modify, set_instance_helper, modify, ret. simpl.
      rewrite Hi. by rewrite <-(assoc_L (++)).
    - unfold bind, set_instance_helper, modify, ret. simpl.
      rewrite Hi. by rewrite ?app_nil_r. }
  assert (H2 : ∀ k, Nat.iter k (exec idle_tick) (exec idle_tick s)
                    = exec idle_tick s).
  { induction k as [|k IH]; [done|]. simpl. rewrite IH. rewrite H1. done. }
  assert (H3 : ticks (S m) s = exec idle_tick s).
  { unfold ticks. rewrite Nat.iter_succ_r. apply H2. }
  rewrite H3. split; [done|]. by rewrite H1.
Qed.

Lemma pump_stops_after_shutdown_witness :
  ticks 4 (Build_State (Some 0) [Build_Helper (Some "QApplication") None]
             [0] true true [])
  = Build_State (Some 0) [Build_Helper (Some "QApplication") (Some None)]
      [] true true [ProcessEvents 0; SendPostedEvents 0].
Proof.
  exact (proj1 (pump_stops_after_shutdown 3
                  (Build_State (Some 0) [Build_Helper (Some "QApplication") None]
                     [0] true true [])
                  0 (Build_Helper (Some "QApplication") None) eq_refl eq_refl
                  (ex_intro _ "QApplication" eq_refl) eq_refl)).
Defined.

End pump_use_facts.

Section startup_use_facts.
Import Startup StartupSpec StartupUse.

Lemma dict_set_fresh {V} (k : string) (v : V) (d : list (string * V)) :
  k ∉ dict_keys d -> dict_set k v d = d ++ [(k, v)].
Proof.
  unfold dict_keys. induction d as [|[k0 v0] d IH]; csimpl; [done|].
  intros [Hne Hnin]%not_elem_of_cons.
  destruct (decide (k = k0)); [done|]. by rewrite IH.
Qed.

Lemma build_from_get instance_name commands
    (acc : list (string * list (string * string))) :
  NoDup commands.*1 ->
  (∀ d0 n, dict_get instance_name acc = Some d0 -> n ∈ commands.*1 ->
           n ∉ dict_keys d0) ->
  dict_get instance_name
    (foldl (fun acc item =>
              match properties_app item.2 with
              | Some instance_name =>
                  add_command instance_name item.1 (callback item.2) acc
              | None => acc
              end) acc commands)
  = match commands_of instance_name commands with
    | [] => dict_get instance_name acc
    | d => Some (default [] (dict_get instance_name acc) ++ d)
    end.
Proof.
  revert acc. induction commands as [|[n c] commands IH]; intros acc Hnd Hfresh.
  { done. }
  csimpl in Hnd. apply NoDup_cons in Hnd as [Hn Hnd].
  simpl. unfold commands_of. csimpl. fold (commands_of instance_name commands).
  destruct (properties_app c) as [B|] eqn:HB.
  - destruct (decide (B = instance_name)) as [->|Hne].
    + rewrite decide_True by done. simpl.
      rewrite IH; [|done|].
      * unfold add_command.
        destruct (dict_get instance_name acc) as [d0|] eqn:Hacc; simpl.
        -- rewrite dict_get_set, decide_True by done. simpl.
           rewrite dict_set_fresh
             by (apply (Hfresh d0 n eq_refl); csimpl; by left).
           destruct (commands_of instance_name commands); simpl; [done|].
           by rewrite <-(assoc_L (++)).
        -- rewrite dict_get_set, decide_True by done. simpl.
           by destruct (commands_of instance_name commands).
      * intros d1 n' Hd1 Hn'. unfold add_command in Hd1.
        destruct (dict_get instance_name acc) as [d0|] eqn:Hacc.
        -- rewrite dict_get_set, decide_True in Hd1 by done.
           injection Hd1 as <-.
           rewrite dict_keys_set_fresh
             by (apply (Hfresh d0 n eq_refl); csimpl; by left).
           rewrite not_elem_of_app. split.
           ++ apply (Hfresh d0 n' eq_refl). csimpl. by right.
           ++ rewrite list_elem_of_singleton. by intros ->.
        -- rewrite dict_get_set, decide_True in Hd1 by done.
           injection Hd1 as <-. unfold dict_keys. csimpl.
           rewrite list_elem_of_singleton. by intros ->.
    + rewrite decide_False by (by intros [= ->]). simpl.
      assert (Hget : dict_get instance_name (add_command B n (callback c) acc)
                     = dict_get instance_name acc).
      { unfold add_command. destruct (dict_get B acc);
          by rewrite dict_get_set, decide_False. }
      rewrite IH; [by rewrite Hget|done|].
      intros d0 n' Hd0 Hn'. rewrite Hget in Hd0.
      apply (Hfresh d0 n' Hd0). csimpl. by right.
  - rewrite decide_False by done. simpl.
    apply IH; [done|]. intros d0 n' Hd0 Hn'.
    apply (Hfresh d0 n' Hd0). csimpl. by right.
Qed.

(** X13: the table built by the first loop of
    [_run_app_instance_commands] has, under the instance name of an app,
    the commands that app registered, each under its name with its
    callback, in the order of registration; an app that registered no
    command has no entry, and commands without an app go nowhere. *)
Theorem build_app_instance_commands_lookup (instance_name : string)
    (commands : list (string * Command)) :
  NoDup commands.*1 ->
  dict_get instance_name (build_app_instance_commands commands)
  = match commands_of instance_name commands with
    | [] => None
    | d => Some d
    end.
Proof.
  intros Hnd. unfold build_app_instance_commands.
  rewrite build_from_get; [done|done|]. intros d0 n Hd0. done.
Qed.

Lemma build_app_instance_commands_lookup_witness :
  dict_get "tk-multi-workfiles2" (build_app_instance_commands session_commands)
  = Some [("File Open...", "show_file_open");
          ("File Save...", "show_file_save")].
Proof.
  apply (build_app_instance_commands_lookup "tk-multi-workfiles2"
           session_commands).
  apply (bool_decide_unpack _). by vm_compute.
Defined.


Lemma dict_set_not_nil {V} (k : string) (v : V) (d : list (string * V)) :
  dict_set k v d ≠ [].
Proof. destruct d as [|[k0 v0] d]; simpl; [done|]. by destruct (decide _). Qed.

Lemma build_app_instance_commands_not_nil instance_name commands command_dict :
  dict_get instance_name (build_app_instance_commands commands)
    = Some command_dict ->
  command_dict ≠ [].
Proof.
  unfold build_app_instance_commands.
  assert (Hgen : ∀ acc : list (string * list (string * string)),
    (∀ k d, dict_get k acc = Some d -> d ≠ []) ->
    ∀ k d, dict_get k
             (foldl (fun acc item =>
                       match properties_app item.2 with
                       | Some instance_name =>
                           add_command instance_name item.1 (callback item.2) acc
                       | None => acc
                       end) acc commands) = Some d -> d ≠ []).
  { induction commands as [|[n c] commands IH]; intros acc Hacc; [done|].
    simpl. apply IH. destruct (properties_app c) as [B|]; [|done].
    intros k d. unfold add_command.
    destruct (dict_get B acc) as [d0|] eqn:HB;
      rewrite dict_get_set; destruct (decide (B = k)) as [->|Hne];
      try (by apply Hacc); intros [= <-]; [apply dict_set_not_nil | done]. }
  apply Hgen. done.
Qed.

Lemma for_each_cons {S A} (x : A) (l : list A) (body : A -> M S unit) s :
  for_each (x :: l) body s
  = (let* _ := for_each [x] body in for_each l body) s.
Proof.
  simpl. unfold bind, ret. by destruct (body x s) as [[[]|e] s'].
Qed.

Lemma run_app_instance_commands_cons self_name commands setting settings s :
  _run_app_instance_commands self_name commands (setting :: settings) s
  = (let* _ := _run_app_instance_commands self_name commands [setting] in
     _run_app_instance_commands self_name commands settings) s.
Proof.
  unfold _run_app_instance_commands. apply for_each_cons.
Qed.

Lemma run_at_startup_not_selected self_name commands setting s :
  selects commands setting = false ->
  _run_app_instance_commands self_name commands [setting] s
  = (Ok tt,
     Build_State (deferred s) (executed s)
       (logger s ++ [warning_for self_name commands setting])).
Proof.
  unfold selects, warning_for. intros Hsel.
  destruct (dict_get (app_instance setting) (build_app_instance_commands commands))
    as [d|] eqn:Hd.
  - destruct (decide (name setting = "")) as [Hn|Hn].
    + destruct d; [|done].
      by apply build_app_instance_commands_not_nil in Hd.
    + apply bool_decide_eq_false in Hsel.
      apply (run_at_startup_unknown_command _ _ _ d); [done..|].
      destruct (dict_get (name setting) d); [|done]. destruct Hsel. eauto.
  - by apply run_at_startup_unknown_app.
Qed.

Lemma run_at_startup_selected self_name commands setting settings s :
  selects commands setting = true ->
  _run_app_instance_commands self_name commands (setting :: settings) s
  = (Raise (Exn NameError "name 'clarisse' is not defined" []),
     Build_State (deferred s) (executed s)
       (logger s ++ [running_line self_name commands setting])).
Proof.
  unfold selects, running_line, first_command, _run_app_instance_commands.
  intros Hsel. simpl.
  destruct (dict_get (app_instance setting) (build_app_instance_commands commands))
    as [d|] eqn:Hd; [|done].
  destruct (decide (name setting = "")) as [Hn|Hn].
  - destruct d as [|[n f] d]; [done|]. reflexivity.
  - apply bool_decide_eq_true in Hsel as [f Hf].
    rewrite Hf. destruct d as [|[n0 f0] d]; reflexivity.
Qed.

(** X14: [_run_app_instance_commands] goes through the settings in order
    and logs one warning for each that names an app without commands, or a
    command its app did not register; it returns if no setting does better.
    At the first setting that names a registered command it logs that it
    runs it and raises NameError, so that this command and everything
    after it is dropped. *)
Theorem run_at_startup_outcome (self_name : string)
    (commands : list (string * Command)) (before : list Setting) (s : State) :
  Forall (fun setting => selects commands setting = false) before ->
  _run_app_instance_commands self_name commands before s
  = (Ok tt,
     Build_State (deferred s) (executed s)
       (logger s ++ map (warning_for self_name commands) before)) ∧
  ∀ setting after, selects commands setting = true ->
    _run_app_instance_commands self_name commands
      (before ++ setting :: after) s
    = (Raise (Exn NameError "name 'clarisse' is not defined" []),
       Build_State (deferred s) (executed s)
         (logger s ++ map (warning_for self_name commands) before
            ++ [running_line self_name commands setting])).
Proof.
  intros Hbefore. revert s.
  induction Hbefore as [|st before Hst Hbefore IH]; intros s.
  { split.
    - simpl. rewrite app_nil_r. by destruct s.
    - intros setting after Hsel. simpl. by apply run_at_startup_selected. }
  destruct (IH (Build_State (deferred s) (executed s)
                  (logger s ++ [warning_for self_name commands st])))
    as [IH1 IH2].
  split.
  - rewrite run_app_instance_commands_cons.
    erewrite bind_Ok by (by apply run_at_startup_not_selected).
    rewrite IH1. simpl. by rewrite <-(assoc_L (++)).
  - intros setting after Hsel.
    change ((st :: before) ++ setting :: after)
      with (st :: (before ++ setting :: after)).
    rewrite run_app_instance_commands_cons.
    erewrite bind_Ok by (by apply run_at_startup_not_selected).
    rewrite (IH2 setting after Hsel). simpl. by rewrite <-!(assoc_L (++)).
Qed.

Lemma run_at_startup_outcome_witness :
  _run_app_instance_commands "tk-clarisse" session_commands
    (stale_settings ++ [Build_Setting "tk-multi-publish2" "";
                        Build_Setting "tk-multi-workfiles2" "File Open..."])
    idle
  = (Raise (Exn NameError "name 'clarisse' is not defined" []),
     Build_State [] []
       [Warning ("tk-clarisse configuration setting 'run_at_startup'"
                   +:+ " requests app 'tk-multi-loader2' that is not installed.");
        Warning ("tk-clarisse configuration setting 'run_at_startup' "
                   +:+ "requests app 'tk-multi-workfiles2' unknown command "
                   +:+ "'Change Context...'. Known commands: "
                   +:+ "'File Open...', 'File Save...'");
        Debug ("tk-clarisse startup running app 'tk-multi-publish2' "
                 +:+ "command 'Publish...'.")]).
Proof.
  apply (proj2 (run_at_startup_outcome "tk-clarisse" session_commands
                  stale_settings idle
                  ltac:(repeat constructor))
           (Build_Setting "tk-multi-publish2" "")
           [Build_Setting "tk-multi-workfiles2" "File Open..."]).
  reflexivity.
Defined.

End startup_use_facts.

Section logging_facts.
Import Logging.

Lemma append_assoc (a b c : string) : (a +:+ b) +:+ c = a +:+ b +:+ c.
Proof.
  induction a as [|x a IH]; [done|].
  change (String x ((a +:+ b) +:+ c) = String x (a +:+ b +:+ c)).
  by rewrite IH.
Qed.

Lemma ends_with_LF_app (a b : string) :
  ends_with_LF (a +:+ b)
  = if decide (b = EmptyString) then ends_with_LF a else ends_with_LF b.
Proof.
  induction a as [|c a IH]; simpl.
  - by destruct b.
  - rewrite IH. destruct (decide (b = EmptyString)) as [->|Hb].
    + by destruct a.
    + destruct a as [|c' a]; simpl; [|done]. by destruct b.
Qed.

Lemma ends_with_LF_formatted (prefix b m : string) :
  ends_with_LF (prefix +:+ "Shotgun " +:+ b +:+ ": " +:+ m) = ends_with_LF m.
Proof.
  rewrite ends_with_LF_app, decide_False by done.
  change ("Shotgun " +:+ b +:+ ": " +:+ m)
    with (("Shotgun " +:+ b) +:+ ": " +:+ m).
  rewrite ends_with_LF_app, decide_False by (by destruct m).
  rewrite (ends_with_LF_app ": " m). by destruct m.
Qed.

(** X15: [_emit_log_message] never raises and writes the formatted record,
    followed by a space, at most once to the script editor: for a record
    at level ERROR or above it prints the error line and then logs it as
    an error, from WARNING it logs a warning line, from INFO an info line,
    and below INFO an info line marked as debug only when [TK_DEBUG] is
    [1], nothing otherwise.  The formatted record is
    [Shotgun <basename>: <message>], after [Debug: ] below INFO, and, when
    the record carries an exception, the text of the exception on a line
    of its own after it. *)
Theorem emit_log_message_routing (record : LogRecord) (s : State) :
  let s' := exec (_emit_log_message record) s in
  let line kind prefix :=
    asctime s +:+ " - Shotgun " +:+ kind +:+ " | Clarisse engine | "
      +:+ format prefix record +:+ " " in
  (_emit_log_message record s).1 = Ok tt ∧
  environ s' = environ s ∧
  asctime s' = asctime s ∧
  out s'
  = out s
      ++ (if (ERROR <=? levelno record)%Z then
            [Print (line "Error" ""); LogError (line "Error" "")]
          else if (WARNING <=? levelno record)%Z then
            [LogWarning (line "Warning" "")]
          else if (INFO <=? levelno record)%Z then
            [LogInfo (line "Info" "")]
          else if decide (environ s !! "TK_DEBUG" = Some "1") then
            [LogInfo (line "Debug" "Debug: ")]
          else []) ∧
  ∀ prefix level b m,
    format prefix (Build_LogRecord level b m "" "")
    = prefix +:+ "Shotgun " +:+ b +:+ ": " +:+ m ∧
    ∀ c text,
      format prefix (Build_LogRecord level b m (String c text) "")
      = prefix +:+ "Shotgun " +:+ b +:+ ": " +:+ m
          +:+ (if ends_with_LF m then "" else Refresh.LF) +:+ String c text.
Proof.
  intros s' line.
  assert (Hformat : ∀ prefix level b m,
            format prefix (Build_LogRecord level b m "" "")
            = prefix +:+ "Shotgun " +:+ b +:+ ": " +:+ m ∧
            ∀ c text,
              format prefix (Build_LogRecord level b m (String c text) "")
              = prefix +:+ "Shotgun " +:+ b +:+ ": " +:+ m
                  +:+ (if ends_with_LF m then "" else Refresh.LF)
                  +:+ String c text).
  { intros prefix level b m. split; [done|]. intros c text.
    unfold format, append_text. simpl.
    rewrite ends_with_LF_formatted.
    destruct (ends_with_LF m); simpl; by rewrite !append_assoc. }
  unfold s', line, _emit_log_message, exec, INFO, WARNING, ERROR.
  destruct s as [env t o].
  destruct (Z.leb_spec 40 (levelno record)) as [H40|H40];
    [|destruct (Z.leb_spec 30 (levelno record)) as [H30|H30];
      [|destruct (Z.leb_spec 20 (levelno record)) as [H20|H20]]].
  - rewrite (proj2 (Z.ltb_ge _ _)) by lia.
    unfold display_error, bind, get, write, modify. simpl.
    rewrite <-(assoc_L (++)). by split_and!.
  - rewrite (proj2 (Z.ltb_ge _ _)) by lia.
    unfold display_warning, bind, get, write, modify. simpl. by split_and!.
  - rewrite (proj2 (Z.ltb_ge _ _)) by lia.
    unfold display_info, bind, get, write, modify. simpl. by split_and!.
  - rewrite (proj2 (Z.ltb_lt _ _)) by lia.
    unfold display_debug, bind, get, write, modify, ret.
    simpl. destruct (decide (env !! "TK_DEBUG" = Some "1")); simpl.
    + by split_and!.
    + rewrite app_nil_r. by split_and!.
Qed.

(** An error record with a traceback: the line is printed and logged, the
    traceback after the message. *)
Example emit_log_message_traceback :
  out (exec (_emit_log_message
               (Build_LogRecord 40 "tk-multi-publish2" "Publish failed"
                  "ValueError: no file" ""))
         (Build_State ∅ "Tue Nov  3 10:00:00 2026" []))
  = let line :=
      "Tue Nov  3 10:00:00 2026 - Shotgun Error | Clarisse engine | "
        +:+ "Shotgun tk-multi-publish2: Publish failed" +:+ Refresh.LF
        +:+ "ValueError: no file " in
    [Print line; LogError line].
Proof. reflexivity. Qed.

End logging_facts.

Section windows_facts.
Import Windows.

Lemma list_remove_head (x : nat) (l : list nat) :
  list_remove x (x :: l) = l.
Proof. simpl. by rewrite decide_True. Qed.

Lemma list_remove_app_notin (x : nat) (kept l : list nat) :
  x ∉ kept -> list_remove x (kept ++ x :: l) = kept ++ l.
Proof.
  induction kept as [|y kept IH]; intros Hx; simpl.
  - by rewrite decide_True.
  - apply not_elem_of_cons in Hx as [Hne Hx].
    rewrite decide_False by done. by rewrite IH.
Qed.

(** The loop of [close_windows] over the rest of the copy, when the
    dialogs of [kept] could not be closed. *)
Lemma close_loop (l kept : list nat) (s : State) :
  NoDup (kept ++ l) ->
  (∀ d, d ∈ l -> is_Some (dialogs s !! d)) ->
  created_qt_dialogs s = kept ++ l ->
  for_each l (fun dialog =>
    let* d := get_dialog dialog in
    let dialog_window_title := windowTitle d in
    try_except
      (let* _ := emit (LoggerDebug
                         ("Closing dialog " +:+ dialog_window_title +:+ ".")) in
       close dialog)
      (fun _ => true)
      (fun exception =>
         let* _ := emit (PrintExc exception) in
         emit (LoggerError ("Cannot close dialog " +:+ dialog_window_title
                              +:+ ": " +:+ exc_value exception)))) s
  = (Ok tt,
     Build_State (dialogs s)
       (kept ++ List.filter (fun d => negb (closes s d)) l)
       (log s ++ flat_map (closing_log s) l)).
Proof.
  revert kept s. induction l as [|x l IH]; intros kept s Hnd Hvalid Hlist.
  { simpl. rewrite app_nil_r in Hlist. rewrite !app_nil_r, <-Hlist.
    by destruct s. }
  destruct (Hvalid x) as [d Hd]; [by left|].
  assert (Hx : x ∉ kept).
  { apply NoDup_app in Hnd as (_ & Hnd & _). intros Hin.
    apply (Hnd x Hin). by left. }
  simpl. unfold closes at 1, closing_log at 1. rewrite Hd.
  unfold bind at 1. unfold bind at 1, get_dialog at 1. rewrite Hd.
  destruct s as [ds created lg]. simpl in *. subst created.
  destruct (close_raises d) as [e|] eqn:He.
  - unfold try_except, bind, emit, modify, close, bind, get_dialog. simpl.
    rewrite Hd, He. simpl.
    rewrite (IH (kept ++ [x])); simpl.
    + by rewrite <-!(assoc_L (++)).
    + by rewrite <-(assoc_L (++)).
    + intros d' Hd'. apply Hvalid. by right.
    + by rewrite <-(assoc_L (++)).
  - unfold try_except, bind, emit, modify, close, bind, get_dialog. simpl.
    rewrite Hd, He. simpl. rewrite list_remove_app_notin by done.
    rewrite (IH kept); simpl.
    + by rewrite <-!(assoc_L (++)).
    + apply NoDup_app in Hnd as (H1 & H2 & H3). apply NoDup_app. split_and!.
      * done.
      * intros y Hy Hy'. apply (H2 y Hy). by right.
      * by apply NoDup_cons in H3 as [_ ?].
    + intros d' Hd'. apply Hvalid. by right.
    + done.
Qed.

(** X16: [close_windows] tries to close every dialog that was open when it
    was called, each once and in order, although closing a dialog takes it
    off the list that is being worked through; a dialog whose [close()]
    raises is logged with its title and stays on the list, the others are
    gone, and [close_windows] itself returns. *)
Theorem close_windows_closes_all (s : State) :
  NoDup (created_qt_dialogs s) ->
  (∀ d, d ∈ created_qt_dialogs s -> is_Some (dialogs s !! d)) ->
  close_windows s
  = (Ok tt,
     Build_State (dialogs s)
       (List.filter (fun d => negb (closes s d)) (created_qt_dialogs s))
       (log s ++ flat_map (closing_log s) (created_qt_dialogs s))).
Proof.
  intros Hnd Hvalid. unfold close_windows. unfold bind at 1, get.
  by apply (close_loop (created_qt_dialogs s) []).
Qed.

Lemma close_windows_closes_all_witness :
  close_windows three_dialogs
  = (Ok tt,
     Build_State (dialogs three_dialogs) [1]
       [LoggerDebug "Closing dialog Publish."; Closed 0;
        LoggerDebug "Closing dialog Loader."; PrintExc stuck;
        LoggerError
          "Cannot close dialog Loader: wrapped C/C++ object has been deleted";
        LoggerDebug "Closing dialog File Open."; Closed 2]).
Proof.
  apply (close_windows_closes_all three_dialogs).
  - apply (bool_decide_unpack _). by vm_compute.
  - intros d Hd. apply (bool_decide_unpack _).
    revert d Hd. apply Forall_forall. by repeat constructor.
Defined.

End windows_facts.

Section engine_facts.
Import ClarisseEngine EngineSpec.
Implicit Types (platform : Platform) (settings : Settings) (s : State).

Lemma logger_debug_eq msg s :
  logger_debug msg s = (Ok tt, logged [Startup.Debug msg] s).
Proof. reflexivity. Qed.

Lemma logger_warning_eq msg s :
  logger_warning msg s = (Ok tt, logged [Startup.Warning msg] s).
Proof. reflexivity. Qed.

(** X17: [init_engine] refuses to start, with a TankError, on a platform
    that is not [darwin], [win32] or [linux64], and on a Clarisse whose
    version number is below 3.6; it has then logged that it initializes
    and done nothing else: no entry point is patched, no watcher made, no
    environment variable set and no box shown. *)
Theorem init_engine_refuses platform settings s :
  let started :=
    logged [Startup.Debug (engine_repr platform +:+ ": Initializing...")] s in
  (¬ supported platform ->
   init_engine platform settings s = (Raise unsupported_platform, started)) ∧
  (∀ v, supported platform -> version_number platform = Ok v ->
        float_lt v float_3_6 = true ->
        init_engine platform settings s = (Raise too_old, started)) ∧
  (∀ e, supported platform -> version_number platform = Raise e ->
        init_engine platform settings s = (Raise e, started)).
Proof.
  intros started. unfold init_engine, supported, version_number.
  split_and!.
  - intros Hns. rewrite (bind_Ok _ _ s tt started) by apply logger_debug_eq.
    by rewrite bool_decide_false.
  - intros v Hs Hv Hlt.
    rewrite (bind_Ok _ _ s tt started) by apply logger_debug_eq.
    rewrite bool_decide_true by done. simpl.
    unfold bind. rewrite Hv, Hlt. done.
  - intros e Hs He.
    rewrite (bind_Ok _ _ s tt started) by apply logger_debug_eq.
    rewrite bool_decide_true by done. simpl.
    unfold bind. by rewrite He.
Qed.


Lemma init_engine_refuses_witness :
  ¬ supported (a_platform "linux2" "4.0.2") ∧
  (init_engine (a_platform "linux2" "4.0.2") some_settings (a_session true)).1
  = Raise unsupported_platform ∧
  (init_engine (a_platform "darwin" "3.5.1") some_settings (a_session true)).1
  = Raise too_old.
Proof.
  assert (H : ¬ supported (a_platform "linux2" "4.0.2")).
  { apply (bool_decide_unpack _). by vm_compute. }
  split; [exact H|]. split.
  - exact (f_equal fst
             (proj1 (init_engine_refuses (a_platform "linux2" "4.0.2")
                       some_settings (a_session true)) H)).
  - refine (f_equal fst
              (proj1 (proj2 (init_engine_refuses (a_platform "darwin" "3.5.1")
                               some_settings (a_session true)))
                 (Finite (QArith_base.Qmake 7 2)) _ eq_refl eq_refl)).
    apply (bool_decide_unpack _). by vm_compute.
Defined.


(** What a computation on a part of the session leaves. *)
Lemma on_host_exec {A} (m : M Watcher.State A) s :
  exec (on_host m) s = set_host (fun _ => exec m (host s)) s.
Proof. unfold exec, on_host. by destruct (m (host s)). Qed.

Lemma on_host_result {A} (m : M Watcher.State A) s :
  (on_host m s).1 = (m (host s)).1.
Proof. unfold on_host. by destruct (m (host s)). Qed.

Lemma on_world_exec {A} (m : M Refresh.World A) s :
  exec (on_world m) s
  = set_ui (fun h => Callback.Build_Host (exec m (Callback.host_world h))
                       (Callback.message_boxes h)) s.
Proof.
  unfold exec, on_world, on_ui, Callback.lift.
  destruct (m (Callback.host_world (ui s))) as [r w] eqn:Hm.
  unfold set_ui. simpl. by rewrite Hm.
Qed.

Lemma on_world_result {A} (m : M Refresh.World A) s :
  (on_world m s).1 = (m (Callback.host_world (ui s))).1.
Proof.
  unfold on_world, on_ui, Callback.lift.
  by destruct (m (Callback.host_world (ui s))).
Qed.

Lemma exec_bind {S A B} (m : M S A) (k : A -> M S B) (st : S) :
  exec (bind m k) st
  = match m st with
    | (Ok a, st') => exec (k a) st'
    | (Raise _, st') => st'
    end.
Proof. unfold exec, bind. by destruct (m st) as [[a|e] st']. Qed.

Lemma exec_eq {S A} (m m' : M S A) (st st' : S) :
  m st = m' st' -> exec m st = exec m' st'.
Proof. unfold exec. by intros ->. Qed.

Lemma watcher_init_environ cb_fn run_once (h : Watcher.State) :
  Watcher.environ (exec (Watcher.__init__ cb_fn run_once) h)
  = Watcher.environ h.
Proof. by destruct (init_consistent cb_fn run_once h) as (_ & _ & _ & ? & _). Qed.

Lemma silent_refl s : silent s s.
Proof. done. Qed.

Lemma silent_trans s1 s2 s3 : silent s1 s2 -> silent s2 s3 -> silent s1 s3.
Proof. intros (?&?&?) (?&?&?). split_and!; congruence. Qed.

Lemma silent_bind {A B} (m : M State A) (k : A -> M State B) :
  (∀ s, silent s (exec m s)) -> (∀ a s, silent s (exec (k a) s)) ->
  ∀ s, silent s (exec (bind m k) s).
Proof.
  intros Hm Hk s. rewrite exec_bind. specialize (Hm s). unfold exec in Hm.
  destruct (m s) as [[a|e] s']; [|done].
  eapply silent_trans; [exact Hm | apply Hk].
Qed.

Lemma silent_engine_field {A} (field : Refresh.Engine -> A) s :
  silent s (exec (on_world (Refresh.engine_field field)) s).
Proof.
  rewrite on_world_exec. unfold silent, gui, exec, Refresh.engine_field. simpl.
  by destruct (Refresh.current_engine _).
Qed.

Lemma silent_logged l s : silent s (logged l s).
Proof. done. Qed.

Lemma silent_watch_scene_events platform s :
  silent s (exec (watch_scene_events platform) s).
Proof.
  unfold watch_scene_events.
  apply silent_bind; [apply silent_engine_field|]. intros ctx s1.
  apply silent_bind; [apply silent_engine_field|]. intros menu s2.
  apply silent_bind.
  - intros s3. rewrite on_host_exec. unfold silent, gui. simpl.
    by rewrite watcher_init_environ.
  - by intros w s3.
Qed.

Lemma silent_name_menu_and_watch platform settings s :
  silent s (exec (name_menu_and_watch platform settings) s).
Proof.
  unfold name_menu_and_watch. apply silent_bind.
  - intros s1. rewrite on_world_exec. done.
  - intros _ s1. destruct (automatic_context_switch settings); [|done].
    apply silent_bind; [apply silent_watch_scene_events|]. by intros _ s2.
Qed.

(** The warning about an untested version: the box, once, and the mark. *)
Lemma warn_untested_facts platform settings current_os v s :
  let m := warn_untested platform settings current_os (get_version platform) v in
  let s' := exec m s in
  (m s).1 = Ok tt ∧
  Callback.message_boxes (ui s')
  = Callback.message_boxes (ui s)
      ++ (if gui s && negb (dialog_shown s)
             && negb (below_min_version platform settings)
          then [Callback.Build_message_box (untested_message platform v)
                  "Shotgun Info | Clarisse engine"]
          else []) ∧
  dialog_shown s' = dialog_shown s || gui s ∧
  gui s' = gui s.
Proof.
  intros m s'. unfold s', exec. destruct (m s) as [r sf] eqn:Hm.
  unfold m, warn_untested in Hm.
  unfold dialog_shown, gui, below_min_version.
  assert (Ht : ∀ x : string, bool_decide (is_Some (Some x)) = true)
    by (intros x; apply bool_decide_true; eauto).
  assert (Hf : bool_decide (is_Some (@None string)) = false)
    by (apply bool_decide_false; by intros [? ?]).
  unfold bind at 1, has_ui at 1, bind at 1, get at 1, ret at 1 in Hm.
  unfold bind at 1, get at 1 in Hm.
  destruct (Refresh.is_gui_application (Callback.host_world (ui s))) eqn:Hgui.
  - destruct (Watcher.environ (host s) !! "SGTK_COMPATIBILITY_DIALOG_SHOWN")
      as [x|] eqn:Hmark.
    + rewrite bool_decide_false in Hm by done. simpl in Hm.
      unfold bind in Hm. simpl in Hm.
      destruct (String.prefix "win" current_os); simpl in Hm;
        injection Hm as <- <-; simpl; rewrite ?Hgui, ?app_nil_r;
        rewrite ?lookup_insert_ne by done; rewrite ?Hmark, ?Ht; done.
    + rewrite bool_decide_true in Hm by done. simpl in Hm.
      unfold bind at 1 in Hm. unfold bind at 1 in Hm. simpl in Hm.
      destruct (isdigit _ && _)%bool; simpl in Hm; unfold bind in Hm;
        simpl in Hm;
        destruct (String.prefix "win" current_os); simpl in Hm;
        injection Hm as <- <-; simpl; rewrite ?Hgui, ?app_nil_r;
        rewrite ?(lookup_insert_ne _ "SHOTGUN_SKIP_QTWEBENGINEWIDGETS_IMPORT")
          by done;
        rewrite lookup_insert_eq, ?Ht, ?Hf; done.
  - simpl in Hm. unfold bind in Hm. simpl in Hm.
    destruct (String.prefix "win" current_os); simpl in Hm;
      injection Hm as <- <-; simpl; rewrite ?Hgui, ?app_nil_r, ?orb_false_r;
      rewrite ?lookup_insert_ne by done; done.
Qed.


(** [init_engine] past its two checks. *)
Lemma init_engine_proceeds platform settings s v :
  supported platform ->
  version_number platform = Ok v ->
  float_lt v float_3_6 = false ->
  init_engine platform settings s
  = (let* _ := if float_lt float_5_0 v then
                 warn_untested platform settings (lower (sys_platform platform))
                   (get_version platform) v
               else ret tt in
     name_menu_and_watch platform settings)
      (logged [Startup.Debug (engine_repr platform +:+ ": Initializing...")] s).
Proof.
  intros Hs Hv Hlt. unfold init_engine, supported, version_number in *.
  rewrite (bind_Ok _ _ s tt _ (logger_debug_eq _ s)).
  rewrite bool_decide_true by done. simpl.
  unfold bind at 1. by rewrite Hv, Hlt.
Qed.

Lemma init_engine_boxes platform settings s v :
  supported platform ->
  version_number platform = Ok v ->
  float_lt v float_3_6 = false ->
  let s' := exec (init_engine platform settings) s in
  Callback.message_boxes (ui s')
  = Callback.message_boxes (ui s)
      ++ (if float_lt float_5_0 v && gui s && negb (dialog_shown s)
             && negb (below_min_version platform settings)
          then [Callback.Build_message_box (untested_message platform v)
                  "Shotgun Info | Clarisse engine"]
          else []) ∧
  dialog_shown s' = dialog_shown s || (float_lt float_5_0 v && gui s) ∧
  gui s' = gui s.
Proof.
  intros Hs Hv Hlt s'. unfold s'.
  rewrite (exec_eq _ _ _ _ (init_engine_proceeds platform settings s v Hs Hv Hlt)).
  set (s1 := logged _ s).
  rewrite exec_bind.
  destruct (float_lt float_5_0 v) eqn:H5.
  - destruct (warn_untested_facts platform settings
                (lower (sys_platform platform)) v s1) as (Hr & Hb & Hd & Hg).
    unfold exec in *.
    destruct (warn_untested platform settings (lower (sys_platform platform))
                (get_version platform) v s1) as [[[]|e] s2]; [|done].
    destruct (silent_name_menu_and_watch platform settings s2) as (Sb & Se & Sg).
    simpl in *. unfold exec in *. rewrite Sb, Sg, Hb, Hg.
    split_and!; [done| |done].
    unfold dialog_shown in *. rewrite Se. exact Hd.
  - unfold ret.
    destruct (silent_name_menu_and_watch platform settings s1) as (Sb & Se & Sg).
    unfold exec in *. rewrite Sb, Sg. simpl.
    rewrite app_nil_r, orb_false_r. split_and!; [done| |done].
    unfold dialog_shown. by rewrite Se.
Qed.

(** X18: on a supported platform with a Clarisse of version 3.6 or more,
    [init_engine] shows the box about an untested version only for a
    version above 5.0, in a GUI session, when no box was shown before in the
    session and the major version is not below the configured minimum; in a
    GUI session with a version above 5.0 it marks the session whether or not
    it shows the box, so that a second [init_engine] shows none. *)
Theorem compatibility_dialog_once platform settings s v :
  supported platform ->
  version_number platform = Ok v ->
  float_lt v float_3_6 = false ->
  let s1 := exec (init_engine platform settings) s in
  let s2 := exec (init_engine platform settings) s1 in
  Callback.message_boxes (ui s1)
  = Callback.message_boxes (ui s)
      ++ (if float_lt float_5_0 v && gui s && negb (dialog_shown s)
             && negb (below_min_version platform settings)
          then [Callback.Build_message_box (untested_message platform v)
                  "Shotgun Info | Clarisse engine"]
          else []) ∧
  (float_lt float_5_0 v = true -> gui s = true -> dialog_shown s1 = true) ∧
  Callback.message_boxes (ui s2) = Callback.message_boxes (ui s1).
Proof.
  intros Hs Hv Hlt s1 s2.
  destruct (init_engine_boxes platform settings s v Hs Hv Hlt) as (Hb & Hd & Hg).
  destruct (init_engine_boxes platform settings s1 v Hs Hv Hlt) as (Hb2 & _ & _).
  fold s1 in Hb, Hd, Hg. fold s2 in Hb2.
  split_and!; [done| |].
  - intros H5 Hgui. rewrite Hd, H5, Hgui. by rewrite orb_true_r.
  - rewrite Hb2, Hd, Hg.
    destruct (float_lt float_5_0 v), (gui s), (dialog_shown s); simpl;
      by rewrite app_nil_r.
Qed.

Lemma compatibility_dialog_once_witness :
  let platform := a_platform "darwin" "5.5.1" in
  let s1 := exec (init_engine platform some_settings) (a_session true) in
  let s2 := exec (init_engine platform some_settings) s1 in
  length (Callback.message_boxes (ui s1)) = 1 ∧
  Callback.message_boxes (ui s2) = Callback.message_boxes (ui s1).
Proof.
  intros platform s1 s2.
  assert (Hs : supported platform).
  { apply (bool_decide_unpack _). by vm_compute. }
  pose proof (compatibility_dialog_once platform some_settings (a_session true)
                (Finite (QArith_base.Qmake 11 2)) Hs eq_refl eq_refl) as H.
  split; [|exact (proj2 (proj2 H))].
  exact (f_equal length (proj1 H)).
Defined.


Lemma on_world_engine_field {A} (field : Refresh.Engine -> A) s eng :
  engine s = Some eng ->
  on_world (Refresh.engine_field field) s = (Ok (field eng), s).
Proof.
  unfold engine, on_world, on_ui, Callback.lift, Refresh.engine_field.
  destruct s as [h [w boxes] pm st cs qa wt ws ds dp mh ph cl]. simpl.
  by intros ->.
Qed.

Lemma watcher_init_result cb_fn run_once (h : Watcher.State) :
  is_Some (Watcher.application h !! Watcher.SCENE_QUIT_EVENT_NAME) ->
  Watcher.__init__ cb_fn run_once h
  = (Ok (length (Watcher.watchers h)), exec (Watcher.__init__ cb_fn run_once) h).
Proof.
  intros Hq.
  destruct (start_watching_skips_missing h cb_fn run_once Hq) as [Hr _].
  unfold exec. destruct (Watcher.__init__ cb_fn run_once h) as [r h'].
  simpl in *. by subst.
Qed.

(** The engine makes a watcher on a host whose attributes are [base]. *)
Lemma watch_scene_events_watching platform s eng :
  engine s = Some eng ->
  is_Some (Watcher.application (host s) !! Watcher.SCENE_QUIT_EVENT_NAME) ->
  let self := length (Watcher.watchers (host s)) in
  let cb_fn := scene_callback platform (Refresh.context eng)
                 (Refresh._menu_name eng) in
  let s' := set___watcher (Some self)
              (set_host (fun h => exec (Watcher.__init__ cb_fn false) h) s) in
  watch_scene_events platform s = (Ok tt, s') ∧
  watching platform (Watcher.application (host s)) (Refresh.context eng)
    (Refresh._menu_name eng) s' ∧
  Watcher.watchers (host s')
  = Watcher.watchers (host s)
      ++ [Watcher.Build_watcher cb_fn false (WatcherSpec.table self (host s'))].
Proof.
  intros Heng Hq self cb_fn s'.
  destruct (init_consistent cb_fn false (host s)) as (Hc & Hk & Hw & _).
  split_and!.
  - unfold watch_scene_events.
    rewrite (bind_Ok _ _ s _ s (on_world_engine_field _ s eng Heng)).
    rewrite (bind_Ok _ _ s _ s (on_world_engine_field _ s eng Heng)).
    fold cb_fn.
    rewrite (bind_Ok _ _ s self
               (set_host (fun h => exec (Watcher.__init__ cb_fn false) h) s)).
    + done.
    + unfold on_host. by rewrite watcher_init_result.
  - exists self, (WatcherSpec.table self (host s')). simpl.
    split_and!; [done| |done|done].
    fold self. rewrite Hw. by rewrite lookup_app_r, Nat.sub_diag by done.
  - simpl. exact Hw.
Qed.

Lemma create_shotgun_menu_eq (w : Refresh.World) eng :
  Refresh.current_engine w = Some eng ->
  Refresh.create_shotgun_menu w
  = (Ok (Refresh.is_gui_application w),
     if Refresh.is_gui_application w then
       Refresh.Build_World
         (Some (RefreshSpec.with_handle (Some (Refresh._menu_name eng +:+ ">")) eng))
         (Refresh.current_project_filename w) true
         (RefreshSpec.with_root (Refresh._menu_name eng) (Refresh.main_menu w))
         (Refresh.menu_callbacks w) (Refresh.asctime w)
         (Refresh.trace w
            ++ [Refresh.MenuGeneratorCreateMenu (Refresh._menu_name eng +:+ ">")])
     else w).
Proof.
  intros Heng. destruct w as [ce file g mm mc t tr]. simpl in *. subst ce.
  unfold Refresh.create_shotgun_menu. unfold bind at 1, get.
  destruct g; simpl; [|done].
  unfold bind at 1, Refresh.engine_field at 1. simpl.
  unfold bind at 1. rewrite get_sgtk_root_menu_eq. simpl.
  reflexivity.
Qed.


Lemma on_world_eq {A} (m : M Refresh.World A) s r w :
  m (Callback.host_world (ui s)) = (r, w) ->
  on_world m s
  = (r, set_ui (fun h => Callback.Build_Host w (Callback.message_boxes h)) s).
Proof.
  intros Hm. unfold on_world, on_ui, Callback.lift. by rewrite Hm.
Qed.

Lemma create_shotgun_menu_with_menu platform s eng :
  engine s = Some eng ->
  create_shotgun_menu s = (Ok (gui s), with_menu eng s).
Proof.
  intros Heng. unfold create_shotgun_menu.
  rewrite (on_world_eq _ s _ _ (create_shotgun_menu_eq _ eng Heng)).
  unfold with_menu, gui.
  destruct s as [h [w boxes] pm st cs qa wt ws ds dp mh ph cl]. simpl.
  destruct (Refresh.is_gui_application w); [done|].
  unfold set_ui. simpl. by destruct w.
Qed.

Lemma registered_eq platform s :
  __register_open_log_folder_command platform s = (Ok tt, registered platform s).
Proof.
  unfold __register_open_log_folder_command, registered.
  by destruct (decide _).
Qed.

Lemma stopped_length w base (h : Watcher.State) :
  length (Watcher.watchers (WatcherSpec.stopped w base h))
  = length (Watcher.watchers h).
Proof.
  unfold WatcherSpec.stopped. simpl.
  destruct (Watcher.watchers h !! w); [|done]. by rewrite length_insert.
Qed.

(** [post_context_change] on an engine that watches. *)
Lemma post_context_change_step platform settings old_context new_context
    s base ctx0 menu0 eng w :
  automatic_context_switch settings = true ->
  watching platform base ctx0 menu0 s ->
  __watcher s = Some w ->
  engine s = Some eng ->
  is_Some (base !! Watcher.SCENE_QUIT_EVENT_NAME) ->
  let s' := rewatched platform base w eng
              (bool_decide (old_context ≠ new_context)) s in
  post_context_change platform settings old_context new_context s = (Ok tt, s') ∧
  watching platform base (Refresh.context eng) (Refresh._menu_name eng) s' ∧
  __watcher s' = Some (length (Watcher.watchers (host s))).
Proof.
  intros Hauto (w' & tbl & Hw' & Hrec & Hc & Hk) Hw Heng Hq s'.
  rewrite Hw in Hw'. injection Hw' as <-.
  set (s0 := registered platform s).
  set (s1 := set_host (fun h => WatcherSpec.stopped w base h) s0).
  assert (Heng1 : engine s1 = Some eng).
  { unfold s1, s0, registered. by destruct (decide _). }
  assert (Hhost0 : host s0 = host s).
  { unfold s0, registered. by destruct (decide _). }
  assert (Hq1 : is_Some (Watcher.application (host s1)
                           !! Watcher.SCENE_QUIT_EVENT_NAME)).
  { done. }
  destruct (watch_scene_events_watching platform s1 eng Heng1 Hq1)
    as (Hrun & Hwatch & Hws).
  assert (Hlen : length (Watcher.watchers (host s1))
                 = length (Watcher.watchers (host s))).
  { unfold s1, set_host. cbn [host]. by rewrite stopped_length, Hhost0. }
  rewrite Hlen in Hrun, Hwatch, Hws.
  set (s2 := set___watcher _ _) in Hrun, Hwatch, Hws.
  assert (Hs' : s' = if bool_decide (old_context ≠ new_context)
                     then with_menu eng
                            (logged [Startup.Debug
                                       ("Registered new open and save callbacks before"
                                          +:+ " changing context.")] s2)
                     else logged [Startup.Debug
                                    ("Registered new open and save callbacks before"
                                       +:+ " changing context.")] s2).
  { unfold s', rewatched, s2, s1. fold s0.
    destruct s0 as [h u pm st cs qa wt ws ds dp mh ph cl]; simpl in *.
    by subst h. }
  assert (Hrun' : post_context_change platform settings old_context new_context s
                  = (Ok tt, s')).
  { unfold post_context_change.
    rewrite (bind_Ok _ _ s tt s0) by apply registered_eq.
    rewrite Hauto.
    rewrite (bind_Ok _ _ s0 w s0).
    2:{ unfold get___watcher, s0, registered.
        destruct (decide _); simpl; by rewrite Hw. }
    rewrite (bind_Ok _ _ s0 tt s1).
    2:{ unfold on_host. rewrite Hhost0.
        rewrite (stop_watching_consistent w base (host s)) by done.
        unfold s1. f_equal. unfold set_host. by rewrite Hhost0. }
    rewrite (bind_Ok _ _ s1 tt s2) by exact Hrun.
    rewrite (bind_Ok _ _ s2 tt _ (logger_debug_eq _ s2)).
    rewrite Hs'.
    destruct (decide (old_context ≠ new_context)) as [Hne|Heq].
    - rewrite bool_decide_true by done.
      erewrite bind_Ok; [reflexivity|].
      apply (create_shotgun_menu_with_menu platform).
      unfold s2, s1, s0, registered. by destruct (decide _).
    - by rewrite bool_decide_false by done. }
  split; [exact Hrun'|].
  rewrite Hs'.
  destruct Hwatch as (w2 & tbl2 & H1 & H2 & H3 & H4).
  split.
  - exists w2, tbl2.
    destruct (bool_decide (old_context ≠ new_context)); unfold with_menu;
      try destruct (gui _); done.
  - destruct (bool_decide (old_context ≠ new_context)); unfold with_menu;
      try destruct (gui _); done.
Qed.


Lemma RefreshSpec_menu_builds_snoc l h :
  RefreshSpec.menu_builds (l ++ [Refresh.MenuGeneratorCreateMenu h])
  = RefreshSpec.menu_builds l ++ [h].
Proof. by rewrite menu_builds_app. Qed.

(** X19: on an engine that watches the scene events, [post_context_change]
    stops the watcher and makes a new one: every watched entry point of the
    host is again patched once, over the host's own function, now by the
    new watcher, whose callback holds the context the engine has at that
    moment; the old watcher's table is empty.  The menu is built again only
    in a GUI session and only if the two contexts passed differ. *)
Theorem post_context_change_rewatches platform settings
    (old_context new_context : Refresh.Context) s base ctx0 menu0 eng :
  automatic_context_switch settings = true ->
  watching platform base ctx0 menu0 s ->
  engine s = Some eng ->
  is_Some (base !! Watcher.SCENE_QUIT_EVENT_NAME) ->
  let self := length (Watcher.watchers (host s)) in
  let s' := exec (post_context_change platform settings old_context new_context)
              s in
  (post_context_change platform settings old_context new_context s).1 = Ok tt ∧
  watching platform base (Refresh.context eng) (Refresh._menu_name eng) s' ∧
  __watcher s' = Some self ∧
  (∀ w, __watcher s = Some w -> WatcherSpec.table w (host s') = []) ∧
  (∀ n, Watcher.application (host s') !! n = WatcherSpec.patched self base n) ∧
  RefreshSpec.menu_builds (Refresh.trace (Callback.host_world (ui s')))
  = RefreshSpec.menu_builds (Refresh.trace (Callback.host_world (ui s)))
      ++ (if gui s && bool_decide (old_context ≠ new_context)
          then [Refresh._menu_name eng +:+ ">"] else []).
Proof.
  intros Hauto Hwatch Heng Hq self s'.
  destruct Hwatch as (w & tbl & Hw & Hrec & Hc & Hk).
  destruct (post_context_change_step platform settings old_context new_context
              s base ctx0 menu0 eng w Hauto)
    as (Hrun & Hwatch' & Hself); [by exists w, tbl|done..|].
  unfold s', exec. rewrite Hrun. cbn [fst snd].
  split_and!; [done|done|done| | |].
  - intros w0 Hw0. rewrite Hw in Hw0. injection Hw0 as <-.
    assert (Hhost : host (rewatched platform base w eng
                            (bool_decide (old_context ≠ new_context)) s)
                    = exec (Watcher.__init__
                              (scene_callback platform (Refresh.context eng)
                                 (Refresh._menu_name eng)) false)
                        (WatcherSpec.stopped w base (host s))).
    { unfold rewatched, with_menu, registered.
      destruct (bool_decide _); try destruct (gui _); by destruct (decide _). }
    rewrite Hhost.
    destruct (init_consistent
                (scene_callback platform (Refresh.context eng)
                   (Refresh._menu_name eng)) false
                (WatcherSpec.stopped w base (host s))) as (_ & _ & Hws & _).
    unfold WatcherSpec.table. rewrite Hws.
    assert (Hlt : (w < length (Watcher.watchers (host s)))%nat)
      by (by eapply lookup_lt_Some).
    rewrite lookup_app_l by (by rewrite stopped_length).
    unfold WatcherSpec.stopped. simpl. rewrite Hrec.
    by rewrite list_lookup_insert_eq.
  - intros n.
    assert (Hhost : host (rewatched platform base w eng
                            (bool_decide (old_context ≠ new_context)) s)
                    = exec (Watcher.__init__
                              (scene_callback platform (Refresh.context eng)
                                 (Refresh._menu_name eng)) false)
                        (WatcherSpec.stopped w base (host s))).
    { unfold rewatched, with_menu, registered.
      destruct (bool_decide _); try destruct (gui _); by destruct (decide _). }
    rewrite Hhost, new_watcher_patched. by rewrite stopped_length.
  - unfold rewatched, with_menu, registered, gui.
    destruct (bool_decide (old_context ≠ new_context));
      destruct (decide (engine_name platform ≠ SHOTGUN_ENGINE_NAME)); simpl;
      destruct (Refresh.is_gui_application (Callback.host_world (ui s))); simpl;
      rewrite ?app_nil_r; try done;
      by rewrite RefreshSpec_menu_builds_snoc.
Qed.


Lemma warn_untested_same platform settings current_os version v s :
  ∃ s', warn_untested platform settings current_os version v s = (Ok tt, s') ∧
        same_objects s s'.
Proof.
  destruct (warn_untested platform settings current_os version v s)
    as [r sf] eqn:Hm.
  unfold warn_untested in Hm.
  unfold bind at 1, has_ui at 1, bind at 1, get at 1, ret at 1 in Hm.
  unfold bind at 1, get at 1 in Hm.
  destruct (Refresh.is_gui_application (Callback.host_world (ui s)) &&
            bool_decide (Watcher.environ (host s)
                           !! "SGTK_COMPATIBILITY_DIALOG_SHOWN" = None)).
  - unfold bind at 1 in Hm. unfold bind at 1 in Hm. simpl in Hm.
    destruct (isdigit _ && _)%bool; simpl in Hm; unfold bind in Hm;
      simpl in Hm;
      destruct (String.prefix "win" current_os); simpl in Hm;
      injection Hm as <- <-; eexists; (split; [reflexivity|]);
      by unfold same_objects.
  - simpl in Hm. unfold bind in Hm. simpl in Hm.
    destruct (String.prefix "win" current_os); simpl in Hm;
      injection Hm as <- <-; eexists; (split; [reflexivity|]);
      by unfold same_objects.
Qed.

(** [init_engine] on a supported platform and version makes the engine
    watch. *)
Lemma init_engine_watching platform settings s v eng :
  supported platform ->
  version_number platform = Ok v ->
  float_lt v float_3_6 = false ->
  automatic_context_switch settings = true ->
  engine s = Some eng ->
  is_Some (Watcher.application (host s) !! Watcher.SCENE_QUIT_EVENT_NAME) ->
  ∃ s',
    init_engine platform settings s = (Ok tt, s') ∧
    watching platform (Watcher.application (host s)) (Refresh.context eng)
      (menu_name_of settings) s' ∧
    __watcher s' = Some (length (Watcher.watchers (host s))) ∧
    length (Watcher.watchers (host s')) = S (length (Watcher.watchers (host s))) ∧
    (∀ i, (i < length (Watcher.watchers (host s)))%nat ->
          Watcher.watchers (host s') !! i = Watcher.watchers (host s) !! i) ∧
    engine s'
    = Some (Refresh.Build_Engine (Refresh.context eng) (Refresh.sgtk eng)
              (menu_name_of settings) (Refresh._menu_handle eng)) ∧
    gui s' = gui s ∧ widgets s' = widgets s ∧
    __qt_dialogs s' = __qt_dialogs s ∧
    _PROXY_WIN_HWND s' = _PROXY_WIN_HWND s.
Proof.
  intros Hs Hv Hlt Hauto Heng Hq.
  rewrite (init_engine_proceeds platform settings s v Hs Hv Hlt).
  set (s1 := logged _ s).
  assert (H12 : ∃ s2, (if float_lt float_5_0 v then
                         warn_untested platform settings
                           (lower (sys_platform platform)) (get_version platform) v
                       else ret tt) s1 = (Ok tt, s2) ∧ same_objects s1 s2).
  { destruct (float_lt float_5_0 v); [apply warn_untested_same|].
    exists s1. by unfold same_objects. }
  destruct H12 as (s2 & Hrun2 & Ha & Hw & He & Hg & Hwt & Hwd & Hd & Hp & Hdp).
  rewrite (bind_Ok _ _ s1 tt s2 Hrun2).
  unfold name_menu_and_watch. rewrite Hauto.
  set (eng' := Refresh.Build_Engine (Refresh.context eng) (Refresh.sgtk eng)
                 (menu_name_of settings) (Refresh._menu_handle eng)).
  set (s3 := set_ui (fun h =>
               Callback.Build_Host
                 (Refresh.set_engine (fun eng =>
                    Refresh.Build_Engine (Refresh.context eng) (Refresh.sgtk eng)
                      (menu_name_of settings) (Refresh._menu_handle eng))
                    (Callback.host_world h))
                 (Callback.message_boxes h)) s2).
  rewrite (bind_Ok _ _ s2 tt s3) by reflexivity.
  assert (Heng3 : engine s3 = Some eng').
  { unfold s3, engine in *. simpl. rewrite He. simpl. by rewrite Heng. }
  assert (Hq3 : is_Some (Watcher.application (host s3)
                           !! Watcher.SCENE_QUIT_EVENT_NAME)).
  { unfold s3. simpl. by rewrite Ha. }
  destruct (watch_scene_events_watching platform s3 eng' Heng3 Hq3)
    as (Hrun & Hwatch & Hws).
  rewrite (bind_Ok _ _ s3 tt _ Hrun).
  rewrite logger_debug_eq.
  eexists. split; [reflexivity|].
  assert (Hhost3 : Watcher.watchers (host s3) = Watcher.watchers (host s)).
  { unfold s3. simpl. by rewrite Hw. }
  assert (Happ3 : Watcher.application (host s3) = Watcher.application (host s)).
  { unfold s3. simpl. by rewrite Ha. }
  rewrite Hhost3 in *. rewrite Happ3 in *.
  split_and!.
  - destruct Hwatch as (w2 & tbl2 & H1 & H2 & H3 & H4). by exists w2, tbl2.
  - done.
  - cbn [host logged set_startup]. rewrite Hws, length_app. simpl. lia.
  - intros i Hi. cbn [host logged set_startup]. rewrite Hws. by rewrite lookup_app_l.
  - done.
  - unfold gui in *. simpl. by rewrite Hg.
  - simpl. by rewrite Hwd.
  - simpl. by rewrite Hd.
  - simpl. by rewrite Hp.
Qed.

Lemma release_loop (ds : list nat) s :
  for_each ds (fun dialog =>
    let* _ := hide dialog in
    let* _ := setParent_None dialog in
    deleteLater dialog) s
  = (Ok tt, set_widgets (release_all ds) s).
Proof.
  revert s. induction ds as [|d ds IH]; intros s.
  { simpl. unfold ret. f_equal. by destruct s. }
  change (for_each (d :: ds) ?body)
    with (let* _ := body d in for_each ds body).
  rewrite (bind_Ok _ _ s tt
             (set_widgets (fun ws => match ws !! d with
                                     | Some w => <[d := released w]> ws
                                     | None => ws
                                     end) s)).
  - rewrite IH. by destruct s.
  - unfold bind, hide, setParent_None, deleteLater, update_widget, modify,
      set_widgets. simpl.
    destruct (widgets s !! d) as [w|] eqn:Hd; simpl; rewrite ?Hd; [|done].
    rewrite list_lookup_insert_eq by (by eapply lookup_lt_Some). simpl.
    rewrite list_lookup_insert_eq
      by (rewrite length_insert; by eapply lookup_lt_Some).
    by rewrite !list_insert_insert_eq.
Qed.


Lemma post_context_change_rewatches_witness :
  let platform := a_platform "darwin" "4.0.2" in
  let s := exec (init_engine platform some_settings) (a_session true) in
  let s' := exec (post_context_change platform some_settings
                    RefreshSpec.a_context
                    (Refresh.Build_Context "Project 65" "Shot 020")) s in
  __watcher s' = Some (length (Watcher.watchers (host s))) ∧
  ∀ n, Watcher.application (host s') !! n
       = WatcherSpec.patched (length (Watcher.watchers (host s)))
           WatcherSpec.full_host n.
Proof.
  intros platform s.
  assert (Hs : supported platform).
  { apply (bool_decide_unpack _). by vm_compute. }
  destruct (init_engine_watching platform some_settings (a_session true)
              (Finite (QArith_base.Qmake 4 1)) RefreshSpec.an_engine
              Hs eq_refl eq_refl eq_refl eq_refl ltac:(by eexists))
    as (s1 & Hrun & Hwatch & _ & _ & _ & Heng & _).
  assert (Hs1 : s = s1) by (unfold s, exec; by rewrite Hrun).
  rewrite Hs1.
  pose proof (post_context_change_rewatches platform some_settings
                RefreshSpec.a_context
                (Refresh.Build_Context "Project 65" "Shot 020")
                s1 WatcherSpec.full_host _ _ _ eq_refl Hwatch Heng
                ltac:(by eexists)) as H.
  exact (conj (proj1 (proj2 (proj2 H))) (proj1 (proj2 (proj2 (proj2 (proj2 H)))))).
Defined.

(** [destroy_engine] on an engine that watches, when no proxy window is
    to be given back. *)
Lemma destroy_engine_step platform settings s base ctx menu eng w :
  automatic_context_switch settings = true ->
  watching platform base ctx menu s ->
  __watcher s = Some w ->
  engine s = Some eng ->
  hwnd_true (_PROXY_WIN_HWND s)
    && bool_decide (sys_platform platform = "win32") = false ->
  destroy_engine platform settings s = (Ok tt, destroyed platform base w eng s).
Proof.
  intros Hauto (w' & tbl & Hw' & Hrec & Hc & Hk) Hw Heng Hproxy.
  rewrite Hw in Hw'. injection Hw' as <-.
  unfold destroy_engine.
  rewrite (bind_Ok _ _ s tt _ (logger_debug_eq _ s)).
  set (s1 := logged _ s).
  rewrite (bind_Ok _ _ s1 _ s1 (on_world_engine_field _ s1 eng Heng)).
  set (s2 := set_ui (fun h =>
               Callback.Build_Host
                 (exec (Refresh.clear_sgtk_menu (Refresh._menu_name eng))
                    (Callback.host_world h))
                 (Callback.message_boxes h)) s1).
  rewrite (bind_Ok _ _ s1 tt s2).
  2:{ rewrite (on_world_eq _ s1 (Ok tt)
                 (exec (Refresh.clear_sgtk_menu (Refresh._menu_name eng))
                    (Callback.host_world (ui s1)))); [done|].
      unfold exec. by rewrite clear_sgtk_menu_eq. }
  unfold bind at 1, get at 1.
  rewrite (bind_Ok _ _ s2 tt _ (release_loop _ s2)).
  set (s3 := set_widgets (release_all (__qt_dialogs s2)) s2).
  unfold bind at 1, get at 1.
  change (_PROXY_WIN_HWND s3) with (_PROXY_WIN_HWND s).
  rewrite Hproxy. unfold bind at 1, ret at 1. rewrite Hauto.
  rewrite (bind_Ok _ _ s3 w s3).
  2:{ unfold get___watcher. change (__watcher s3) with (__watcher s).
      by rewrite Hw. }
  unfold on_host. change (host s3) with (host s).
  rewrite (stop_watching_consistent w base (host s)) by done.
  reflexivity.
Qed.

(** X20: [destroy_engine] on an engine that watches, with no proxy window
    to give back: it returns; every attribute of the host is the host's
    own again and the watcher's table is empty; every dialog the engine
    showed is hidden, without parent and due for deletion; in a GUI
    session nothing is left below the root of the engine's menu and the
    callback table is empty, without GUI the menus are untouched. *)
Theorem destroy_engine_tears_down platform settings s base ctx menu eng :
  automatic_context_switch settings = true ->
  watching platform base ctx menu s ->
  engine s = Some eng ->
  hwnd_true (_PROXY_WIN_HWND s)
    && bool_decide (sys_platform platform = "win32") = false ->
  let s' := exec (destroy_engine platform settings) s in
  let menu' := Refresh.main_menu (Callback.host_world (ui s')) in
  (destroy_engine platform settings s).1 = Ok tt ∧
  Watcher.application (host s') = base ∧
  (∀ w, __watcher s = Some w -> WatcherSpec.table w (host s') = []) ∧
  (∀ d w, d ∈ __qt_dialogs s -> widgets s !! d = Some w ->
          widgets s' !! d = Some (released w)) ∧
  (if gui s then
     (∀ item, String.prefix (Refresh._menu_name eng +:+ ">") item = true ->
              item ≠ Refresh._menu_name eng +:+ ">" -> menu' !! item = None) ∧
     Refresh.menu_callbacks (Callback.host_world (ui s')) = ∅
   else ui s' = ui s).
Proof.
  intros Hauto Hwatch Heng Hproxy s' menu'.
  destruct Hwatch as (w & tbl & Hw & Hrec & Hc & Hk).
  assert (Hrun := destroy_engine_step platform settings s base ctx menu eng w
                    Hauto ltac:(by exists w, tbl) Hw Heng Hproxy).
  unfold menu', s', exec. rewrite Hrun. cbn [fst snd].
  split_and!; [done|done| | |].
  - intros w0 Hw0. rewrite Hw in Hw0. injection Hw0 as <-.
    unfold destroyed, WatcherSpec.table, WatcherSpec.stopped. simpl.
    rewrite Hrec. by rewrite list_lookup_insert_eq by (by eapply lookup_lt_Some).
  - intros d wd Hd Hwd. unfold destroyed. simpl.
    clear -Hd Hwd. revert Hwd. generalize (widgets s) as ws.
    induction (__qt_dialogs s) as [|x l IH]; intros ws Hwd.
    { by apply elem_of_nil in Hd. }
    assert (Hgen : ∀ l ws, ws !! d = Some (released wd) ->
                     release_all l ws !! d = Some (released wd)).
    { clear. induction l as [|x l IH]; intros ws Hws; [done|].
      simpl. apply IH. destruct (ws !! x) as [wx|] eqn:Hx; [|done].
      destruct (decide (x = d)) as [->|Hne].
      - rewrite list_lookup_insert_eq by (by eapply lookup_lt_Some).
        rewrite Hws in Hx. by injection Hx as <-.
      - by rewrite list_lookup_insert_ne. }
    simpl. destruct (decide (x = d)) as [->|Hne].
    + rewrite Hwd. apply Hgen.
      by rewrite list_lookup_insert_eq by (by eapply lookup_lt_Some).
    + apply elem_of_cons in Hd as [->|Hd]; [done|].
      apply IH; [done|].
      destruct (ws !! x) as [wx|]; [|done]. by rewrite list_lookup_insert_ne.
  - unfold destroyed, gui. simpl. unfold exec. rewrite clear_sgtk_menu_eq.
    destruct (Refresh.is_gui_application (Callback.host_world (ui s))); simpl.
    + split; [|done]. intros item Hitem _.
      apply map_lookup_filter_None. right. intros v _. simpl. by rewrite Hitem.
    + by destruct (ui s).
Qed.

Lemma destroy_engine_tears_down_witness :
  let platform := a_platform "darwin" "4.0.2" in
  let s := exec (init_engine platform some_settings) (a_session true) in
  Watcher.application (host (exec (destroy_engine platform some_settings) s))
  = WatcherSpec.full_host.
Proof.
  intros platform s.
  assert (Hs : supported platform).
  { apply (bool_decide_unpack _). by vm_compute. }
  destruct (init_engine_watching platform some_settings (a_session true)
              (Finite (QArith_base.Qmake 4 1)) RefreshSpec.an_engine
              Hs eq_refl eq_refl eq_refl eq_refl ltac:(by eexists))
    as (s1 & Hrun & Hwatch & _ & _ & _ & Heng & _ & _ & _ & Hp).
  assert (Hs1 : s = s1) by (unfold s, exec; by rewrite Hrun).
  rewrite Hs1.
  refine (proj1 (proj2 (destroy_engine_tears_down platform some_settings s1
                          WatcherSpec.full_host _ _ _ eq_refl Hwatch Heng _))).
  by rewrite Hp.
Defined.



Lemma rewatched_facts platform base w eng menu s :
  engine s = Some eng ->
  let s' := rewatched platform base w eng menu s in
  host s'
  = exec (Watcher.__init__
            (scene_callback platform (Refresh.context eng)
               (Refresh._menu_name eng)) false)
      (WatcherSpec.stopped w base (host s)) ∧
  (∃ handle, engine s' = Some (RefreshSpec.with_handle handle eng)) ∧
  _PROXY_WIN_HWND s' = _PROXY_WIN_HWND s.
Proof.
  intros Heng s'. unfold s', rewatched, with_menu, registered, engine, gui in *.
  destruct menu; destruct (decide (engine_name platform ≠ SHOTGUN_ENGINE_NAME));
    simpl; try destruct (Refresh.is_gui_application _); simpl;
    (split_and!; [done| |done]); rewrite ?Heng; eauto;
    exists (Refresh._menu_handle eng); by destruct eng.
Qed.

Lemma context_changed_step platform settings base n0 old ctx new_context s :
  automatic_context_switch settings = true ->
  is_Some (base !! Watcher.SCENE_QUIT_EVENT_NAME) ->
  engine_watches platform base n0 old ctx s ->
  ∃ s',
    context_changed platform settings new_context s = (Ok tt, s') ∧
    engine_watches platform base n0 old new_context s' ∧
    length (Watcher.watchers (host s')) = S (length (Watcher.watchers (host s))) ∧
    _PROXY_WIN_HWND s' = _PROXY_WIN_HWND s.
Proof.
  intros Hauto Hq (w & menu & eng & Hwatch & Hw & Heng & Hctx & Hmenu & Hlen
                   & Hn0 & Htbl & Hold).
  unfold context_changed.
  rewrite (bind_Ok _ _ s _ s (on_world_engine_field _ s eng Heng)).
  set (eng' := Refresh.Build_Engine new_context (Refresh.sgtk eng)
                 (Refresh._menu_name eng) (Refresh._menu_handle eng)).
  set (sa := set_ui (fun h =>
               Callback.Build_Host
                 (Refresh.set_engine (fun eng =>
                    Refresh.Build_Engine new_context (Refresh.sgtk eng)
                      (Refresh._menu_name eng) (Refresh._menu_handle eng))
                    (Callback.host_world h))
                 (Callback.message_boxes h)) s).
  rewrite (bind_Ok _ _ s tt sa) by reflexivity.
  assert (Henga : engine sa = Some eng').
  { unfold sa, engine in *. simpl. by rewrite Heng. }
  assert (Hwatcha : watching platform base ctx menu sa).
  { destruct Hwatch as (w1 & tbl & H1 & H2 & H3 & H4). by exists w1, tbl. }
  destruct (post_context_change_step platform settings (Refresh.context eng)
              new_context sa base ctx menu eng' w Hauto Hwatcha Hw Henga Hq)
    as (Hrun & Hwatch' & Hself).
  set (s' := rewatched _ _ _ _ _ _) in *.
  exists s'. split; [exact Hrun|].
  destruct (rewatched_facts platform base w eng'
              (bool_decide (Refresh.context eng ≠ new_context)) sa Henga)
    as (Hhost & (handle & Heng') & Hproxy).
  fold s' in Hhost, Heng', Hproxy.
  destruct (init_consistent
              (scene_callback platform (Refresh.context eng')
                 (Refresh._menu_name eng')) false
              (WatcherSpec.stopped w base (host sa))) as (_ & _ & Hws & _).
  rewrite <-Hhost in Hws.
  destruct Hwatch as (w1 & tbl & H1 & H2 & H3 & H4).
  rewrite Hw in H1. injection H1 as <-.
  assert (Hstopped : Watcher.watchers (WatcherSpec.stopped w base (host sa))
                     = <[w := Watcher.Build_watcher
                                (scene_callback platform ctx menu) false []]>
                         (Watcher.watchers (host s))).
  { unfold WatcherSpec.stopped. simpl. by rewrite H2. }
  rewrite Hstopped in Hws.
  assert (Hlen' : length (Watcher.watchers (host s')) = S (S w)).
  { rewrite Hws, length_app, length_insert, Hlen. simpl. lia. }
  split_and!.
  - exists (S w), (Refresh._menu_name eng), (RefreshSpec.with_handle handle eng').
    change (host sa) with (host s) in Hself. rewrite Hlen in Hself.
    split_and!; try done.
    + lia.
    + intros i Hi Hne. unfold WatcherSpec.table. rewrite Hws.
      destruct (decide (i < S w)%nat) as [Hlt|Hge].
      * rewrite lookup_app_l by (rewrite length_insert; lia).
        destruct (decide (i = w)) as [->|Hiw].
        -- by rewrite list_lookup_insert_eq by lia.
        -- rewrite list_lookup_insert_ne by done.
           apply (Htbl i Hi Hiw).
      * rewrite lookup_ge_None_2; [done|].
        rewrite length_app, length_insert. simpl. lia.
    + intros i Hi. rewrite Hws.
      rewrite lookup_app_l by (rewrite length_insert; lia).
      rewrite list_lookup_insert_ne by lia. by apply Hold.
  - rewrite Hlen'. change (host sa) with (host s). by rewrite Hlen.
  - done.
Qed.

Lemma context_changes_loop platform settings base n0 old changes ctx s :
  automatic_context_switch settings = true ->
  is_Some (base !! Watcher.SCENE_QUIT_EVENT_NAME) ->
  engine_watches platform base n0 old ctx s ->
  ∃ s',
    for_each changes (context_changed platform settings) s = (Ok tt, s') ∧
    engine_watches platform base n0 old (default ctx (last changes)) s' ∧
    length (Watcher.watchers (host s'))
    = length (Watcher.watchers (host s)) + length changes ∧
    _PROXY_WIN_HWND s' = _PROXY_WIN_HWND s.
Proof.
  intros Hauto Hq. revert ctx s.
  induction changes as [|c changes IH]; intros ctx s Hinv.
  { exists s. split_and!; [done|done|simpl; lia|done]. }
  destruct (context_changed_step platform settings base n0 old ctx c s
              Hauto Hq Hinv) as (s1 & Hrun1 & Hinv1 & Hlen1 & Hp1).
  destruct (IH c s1 Hinv1) as (s2 & Hrun2 & Hinv2 & Hlen2 & Hp2).
  exists s2. split_and!.
  - simpl. by rewrite (bind_Ok _ _ s tt s1 Hrun1).
  - replace (default ctx (last (c :: changes)))
      with (default c (last changes)); [done|].
    destruct changes as [|c' changes']; [done|].
    change (last (c :: c' :: changes')) with (last (c' :: changes')).
    by destruct (last (c' :: changes')) eqn:Hl;
      [|apply last_None in Hl].
  - rewrite Hlen2, Hlen1. simpl. lia.
  - congruence.
Qed.


(** X21: the life of an engine that switches context by itself, on a
    supported platform and version and a host that has [quit]: it starts,
    the context changes any number of times, it is destroyed.  Every call
    returns; one watcher is made at the start and one at each change; at
    the end every attribute of the host is what it was before the engine
    started, every watcher the engine made is stopped, the watchers that
    were there before are untouched, and the engine is in the last
    context. *)
Theorem engine_session_restores_host platform settings
    (changes : list Refresh.Context) s v eng :
  supported platform ->
  version_number platform = Ok v ->
  float_lt v float_3_6 = false ->
  automatic_context_switch settings = true ->
  engine s = Some eng ->
  is_Some (Watcher.application (host s) !! Watcher.SCENE_QUIT_EVENT_NAME) ->
  hwnd_true (_PROXY_WIN_HWND s)
    && bool_decide (sys_platform platform = "win32") = false ->
  let n0 := length (Watcher.watchers (host s)) in
  let s' := exec (engine_session platform settings changes) s in
  (engine_session platform settings changes s).1 = Ok tt ∧
  Watcher.application (host s') = Watcher.application (host s) ∧
  length (Watcher.watchers (host s')) = n0 + S (length changes) ∧
  (∀ i, (n0 ≤ i)%nat -> WatcherSpec.table i (host s') = []) ∧
  (∀ i, (i < n0)%nat ->
        Watcher.watchers (host s') !! i = Watcher.watchers (host s) !! i) ∧
  Refresh.context <$> engine s'
  = Some (default (Refresh.context eng) (last changes)).
Proof.
  intros Hs Hv Hlt Hauto Heng Hq Hproxy n0 s'.
  set (base := Watcher.application (host s)).
  destruct (init_engine_watching platform settings s v eng Hs Hv Hlt Hauto Heng Hq)
    as (s1 & Hrun1 & Hwatch1 & Hw1 & Hlen1 & Hold1 & Heng1 & _ & _ & _ & Hp1).
  fold n0 base in Hwatch1, Hw1, Hlen1, Hold1.
  assert (Hinv1 : engine_watches platform base n0 (Watcher.watchers (host s))
                    (Refresh.context eng) s1).
  { eexists n0, _, _. split_and!; [exact Hwatch1|done|exact Heng1|done|done|done|done| |done].
    intros i Hi Hne. unfold WatcherSpec.table.
    rewrite lookup_ge_None_2; [done|]. rewrite Hlen1. lia. }
  destruct (context_changes_loop platform settings base n0
              (Watcher.watchers (host s)) changes (Refresh.context eng) s1
              Hauto Hq Hinv1) as (s2 & Hrun2 & Hinv2 & Hlen2 & Hp2).
  destruct Hinv2 as (w & menu & eng2 & Hwatch2 & Hw2 & Heng2 & Hctx2 & Hmenu2
                     & Hlenw & Hn0 & Htbl2 & Hold2).
  assert (Hproxy2 : hwnd_true (_PROXY_WIN_HWND s2)
                      && bool_decide (sys_platform platform = "win32") = false).
  { by rewrite Hp2, Hp1. }
  assert (Hrun3 := destroy_engine_step platform settings s2 base _ _ eng2 w
                     Hauto Hwatch2 Hw2 Heng2 Hproxy2).
  assert (Hrun : engine_session platform settings changes s
                 = (Ok tt, destroyed platform base w eng2 s2)).
  { unfold engine_session.
    rewrite (bind_Ok _ _ s tt s1 Hrun1).
    by rewrite (bind_Ok _ _ s1 tt s2 Hrun2). }
  unfold s', exec. rewrite Hrun. cbn [fst snd].
  destruct Hwatch2 as (w' & tbl & Hw' & Hrec & Hc & Hk).
  rewrite Hw2 in Hw'. injection Hw' as <-.
  assert (Hws : Watcher.watchers (host (destroyed platform base w eng2 s2))
                = <[w := Watcher.Build_watcher
                           (scene_callback platform
                              (default (Refresh.context eng) (last changes)) menu)
                           false []]> (Watcher.watchers (host s2))).
  { unfold destroyed, WatcherSpec.stopped. simpl. by rewrite Hrec. }
  split_and!.
  - done.
  - done.
  - rewrite Hws, length_insert, Hlen2, Hlen1. lia.
  - intros i Hi. unfold WatcherSpec.table. rewrite Hws.
    destruct (decide (i = w)) as [->|Hne].
    + by rewrite list_lookup_insert_eq by lia.
    + rewrite list_lookup_insert_ne by done. by apply Htbl2.
  - intros i Hi. rewrite Hws. rewrite list_lookup_insert_ne by lia.
    by apply Hold2.
  - unfold destroyed, engine in *. simpl. unfold exec.
    rewrite clear_sgtk_menu_eq. simpl.
    destruct (Refresh.is_gui_application (Callback.host_world (ui s2))); simpl;
      rewrite Heng2; simpl; by rewrite Hctx2.
Qed.

Lemma engine_session_restores_host_witness :
  let platform := a_platform "darwin" "4.0.2" in
  let s' := exec (engine_session platform some_settings
                    [Refresh.Build_Context "Project 65" "Shot 020";
                     Refresh.Build_Context "Project 65" "Shot 030"])
              (a_session true) in
  Watcher.application (host s') = WatcherSpec.full_host ∧
  length (Watcher.watchers (host s')) = 3.
Proof.
  intros platform s'.
  assert (Hs : supported platform).
  { apply (bool_decide_unpack _). by vm_compute. }
  pose proof (engine_session_restores_host platform some_settings
                [Refresh.Build_Context "Project 65" "Shot 020";
                 Refresh.Build_Context "Project 65" "Shot 030"]
                (a_session true) (Finite (QArith_base.Qmake 4 1))
                RefreshSpec.an_engine Hs eq_refl eq_refl eq_refl eq_refl
                ltac:(by eexists) eq_refl) as H.
  exact (conj (proj1 (proj2 H)) (proj1 (proj2 (proj2 H)))).
Defined.


Lemma at_least_zero_max (w : Z) : at_least_zero w = PyInt (Z.max w 0).
Proof.
  unfold at_least_zero, py_and, py_or. simpl.
  destruct (Z.leb_spec 0 w) as [H|H]; simpl.
  - destruct (Z.eqb_spec w 0) as [->|Hne]; simpl; [done|].
    by rewrite Z.max_l by lia.
  - by rewrite Z.max_r by lia.
Qed.

(** X22: [set_proxy_size_to_hwnd] asks for the size of Clarisse's main
    window, gives the dialog parent that width and height, neither below
    zero, and moves it to the origin, leaving other widgets alone; without
    a dialog parent it raises AttributeError after having asked for the
    size. *)
Theorem set_proxy_size_to_hwnd_clamps platform s (width height : Z) :
  get_win_size platform (_WIN32_CLARISSE_MAIN_HWND s) = Ok (width, height) ->
  let s' := exec (set_proxy_size_to_hwnd platform) s in
  calls s' = calls s ++ [GetWinSize (_WIN32_CLARISSE_MAIN_HWND s)] ∧
  match _DIALOG_PARENT s with
  | None =>
      (set_proxy_size_to_hwnd platform s).1 = Raise (none_has_no "resize") ∧
      widgets s' = widgets s
  | Some parent =>
      (set_proxy_size_to_hwnd platform s).1 = Ok tt ∧
      (∀ w, widgets s !! parent = Some w ->
         widgets s' !! parent
         = Some (Build_Widget (windowTitle w) (isVisible w) (has_parent w)
                   (0, 0, Z.max width 0, Z.max height 0)%Z (deleted_later w))) ∧
      (∀ i, i ≠ parent -> widgets s' !! i = widgets s !! i)
  end.
Proof.
  intros Hsize s'.
  set (s1 := record_call (GetWinSize (_WIN32_CLARISSE_MAIN_HWND s)) s).
  assert (Hrun : set_proxy_size_to_hwnd platform s
    = match _DIALOG_PARENT s with
      | None => (Raise (none_has_no "resize"), s1)
      | Some parent =>
          (Ok tt,
           set_widgets (fun ws =>
             match ws !! parent with
             | Some w =>
                 <[parent := Build_Widget (windowTitle w) (isVisible w)
                               (has_parent w)
                               (0, 0, Z.max width 0, Z.max height 0)%Z
                               (deleted_later w)]> ws
             | None => ws
             end) s1)
      end).
  { unfold set_proxy_size_to_hwnd.
    unfold bind at 1, get at 1. unfold bind at 1, external.
    rewrite Hsize. fold s1. unfold bind at 1, get at 1.
    change (_DIALOG_PARENT s1) with (_DIALOG_PARENT s).
    rewrite !at_least_zero_max. cbn [as_int fst snd].
    destruct (_DIALOG_PARENT s) as [parent|]; [|done].
    unfold bind, resize, move, update_widget, modify, set_widgets. simpl.
    destruct (widgets s !! parent) as [w|] eqn:Hp; simpl; rewrite ?Hp; [|done].
    rewrite list_lookup_insert_eq by (by eapply lookup_lt_Some). simpl.
    by rewrite list_insert_insert_eq. }
  unfold s', exec. rewrite Hrun.
  destruct (_DIALOG_PARENT s) as [parent|]; [|done].
  simpl. split_and!; [done|done| |].
  - intros w Hw. rewrite Hw.
    by rewrite list_lookup_insert_eq by (by eapply lookup_lt_Some).
  - intros i Hi. destruct (widgets s !! parent); [|done].
    by rewrite list_lookup_insert_ne.
Qed.

Lemma set_proxy_size_to_hwnd_clamps_witness :
  let platform := a_windows_platform [1001%Z] (1280, -1)%Z in
  let s := Build_State (host (a_session true)) (ui (a_session true))
             Pump.initial StartupSpec.idle [] None None
             [Build_Widget "Shotgun Toolkit Parent Widget" false false
                (0, 0, 0, 0)%Z false]
             [] (Some 0) (Some 1001%Z) (Some 4242%Z) [] in
  geometry <$> widgets (exec (set_proxy_size_to_hwnd platform) s) !! 0
  = Some (0, 0, 1280, 0)%Z.
Proof.
  intros platform s.
  pose proof (set_proxy_size_to_hwnd_clamps platform s 1280 (-1) eq_refl) as H.
  destruct H as (_ & _ & H & _).
  by rewrite (H _ eq_refl).
Defined.


(** [_win32_get_proxy_window] when Clarisse's main window is not found. *)
Lemma win32_get_proxy_window_missing platform s :
  main_window_missing platform s ->
  ∃ s',
    (_win32_get_proxy_window platform s = (Ok None, s') ∨
     ∃ e, _win32_get_proxy_window platform s = (Raise e, s') ∧
          find_main_windows platform = Raise e) ∧
    _DIALOG_PARENT s' = _DIALOG_PARENT s ∧ widgets s' = widgets s.
Proof.
  intros [Hcached Hfound].
  destruct (_win32_get_proxy_window platform s) as [r sf] eqn:Hm.
  unfold _win32_get_proxy_window in Hm.
  unfold bind at 1, _win32_get_clarisse_main_hwnd at 1 in Hm.
  unfold bind at 1, get at 1 in Hm. rewrite Hcached in Hm.
  unfold bind at 1 in Hm. unfold bind at 1, external at 1 in Hm.
  cbn [negb] in Hm.
  destruct (find_main_windows platform) as [found|e] eqn:Hfind.
  - destruct (last found) as [hwnd|] eqn:Hlast.
    + unfold modify, bind, get, ret in Hm. cbn -[hwnd_true] in Hm.
      rewrite Hfound in Hm.
      cbn -[hwnd_true] in Hm. injection Hm as <- <-.
      eexists. split; [by left|done].
    + unfold modify, bind, get, ret in Hm. cbn -[hwnd_true] in Hm.
      rewrite Hcached in Hm.
      cbn -[hwnd_true] in Hm. injection Hm as <- <-.
      eexists. split; [by left|done].
  - injection Hm as <- <-. eexists. split; [right; by exists e|done].
Qed.

(** X23: without a cached dialog parent, [_get_dialog_parent] returns no
    parent.  Off Windows it raises NameError, since the module never binds
    [QtGui], and changes nothing.  On Windows, when Clarisse's main window
    is not to be found, it raises too: what the search or [get_win_size]
    raised, and else AttributeError for the [resize] of [None]; the dialog
    parent stays unset. *)
Theorem get_dialog_parent_raises platform s :
  _DIALOG_PARENT s = None ->
  (sys_platform platform ≠ "win32" ->
   _get_dialog_parent platform s
   = (Raise (Exn NameError "name 'QtGui' is not defined" []), s)) ∧
  (sys_platform platform = "win32" ->
   main_window_missing platform s ->
   let s' := exec (_get_dialog_parent platform) s in
   _DIALOG_PARENT s' = None ∧ widgets s' = widgets s ∧
   ∃ e, (_get_dialog_parent platform s).1 = Raise e ∧
        ((∃ found, find_main_windows platform = Ok found) ->
         (∀ hwnd, ∃ size, get_win_size platform hwnd = Ok size) ->
         e = none_has_no "resize")).
Proof.
  intros Hparent. split.
  - intros Hp. unfold _get_dialog_parent.
    unfold bind at 1, get at 1. rewrite Hparent.
    rewrite bool_decide_false by done. reflexivity.
  - intros Hp Hmissing s'.
    destruct (win32_get_proxy_window_missing platform s Hmissing)
      as (s1 & Hrun & Hdp & Hws).
    unfold s', exec.
    destruct (_get_dialog_parent platform s) as [r sf] eqn:Hm.
    unfold _get_dialog_parent in Hm.
    unfold bind at 1, get at 1 in Hm. rewrite Hparent in Hm.
    rewrite !bool_decide_true in Hm by done.
    unfold bind at 1 in Hm. unfold bind at 1 in Hm.
    destruct Hrun as [Hrun|(e & Hrun & Hfind)]; rewrite Hrun in Hm.
    + unfold modify at 1 in Hm. cbn beta iota in Hm.
      unfold bind at 1, set_proxy_size_to_hwnd in Hm.
      unfold bind at 1, get at 1 in Hm.
      unfold bind at 1, external at 1 in Hm.
      destruct (get_win_size platform
                  (_WIN32_CLARISSE_MAIN_HWND (set__DIALOG_PARENT None s1)))
        as [size|e] eqn:Hsize.
      * unfold bind, get in Hm. simpl in Hm. injection Hm as <- <-.
        simpl. split_and!; [done|done|].
        eexists. split; [reflexivity|done].
      * injection Hm as <- <-. simpl. split_and!; [done|done|].
        exists e. split; [done|].
        intros _ Hall.
        destruct (Hall (_WIN32_CLARISSE_MAIN_HWND s1)) as [size Hs].
        simpl in Hsize. congruence.
    + injection Hm as <- <-. simpl.
      rewrite Hdp, Hparent, Hws. split_and!; [done|done|].
      exists e. split; [done|]. intros [found Hfound] _. congruence.
Qed.


Lemma get_dialog_parent_raises_witness :
  (_get_dialog_parent (a_platform "darwin" "4.0.2") (a_session true)).1
  = Raise (Exn NameError "name 'QtGui' is not defined" []) ∧
  (_get_dialog_parent (a_windows_platform [] (1280, 720)%Z) (a_session true)).1
  = Raise (none_has_no "resize").
Proof.
  split.
  - exact (f_equal fst
             (proj1 (get_dialog_parent_raises (a_platform "darwin" "4.0.2")
                       (a_session true) eq_refl) ltac:(discriminate))).
  - destruct (proj2 (get_dialog_parent_raises
                       (a_windows_platform [] (1280, 720)%Z)
                       (a_session true) eq_refl) eq_refl (conj eq_refl eq_refl))
      as (_ & _ & e & He & Hwhich).
    rewrite He. f_equal. apply Hwhich; [by eexists|].
    intros hwnd. by eexists.
Defined.


Lemma update_widget_last (f : Widget -> Widget) s (ws : list Widget) w :
  widgets s = ws ++ [w] ->
  update_widget (length ws) f s
  = (Ok tt, set_widgets (fun _ => ws ++ [f w]) s).
Proof.
  intros Hws. unfold update_widget, modify, set_widgets. rewrite Hws.
  rewrite list_lookup_middle by done.
  by rewrite insert_app_r_alt, Nat.sub_diag by done.
Qed.

(** The main window, as [_win32_get_clarisse_main_hwnd] finds it. *)
Lemma win32_get_clarisse_main_hwnd_frame platform s :
  ∃ r s1,
    _win32_get_clarisse_main_hwnd platform s = (r, s1) ∧
    widgets s1 = widgets s ∧
    (∀ hwnd style, SetWindowLong hwnd style ∈ calls s1 ->
                   SetWindowLong hwnd style ∈ calls s).
Proof.
  destruct (_win32_get_clarisse_main_hwnd platform s) as [r s1] eqn:Hm.
  exists r, s1. split; [done|].
  unfold _win32_get_clarisse_main_hwnd in Hm.
  unfold bind at 1, get at 1 in Hm.
  destruct (hwnd_true (_WIN32_CLARISSE_MAIN_HWND s)).
  - unfold bind, get, ret in Hm. simpl in Hm. by injection Hm as <- <-.
  - cbn [negb] in Hm. unfold bind at 1 in Hm. unfold bind at 1, external in Hm.
    assert (Hcalls : ∀ hwnd style,
              SetWindowLong hwnd style
                ∈ calls s ++ [FindWindows (Some "FLTK") None] ->
              SetWindowLong hwnd style ∈ calls s).
    { intros hwnd style [H|H]%elem_of_app; [done|].
      by apply list_elem_of_singleton in H. }
    destruct (find_main_windows platform) as [found|e].
    + destruct (last found) as [hwnd|];
        unfold modify, bind, get, ret in Hm; simpl in Hm;
        by injection Hm as <- <-.
    + by injection Hm as <- <-.
Qed.

(** X24: [_win32_get_proxy_window] leaves no widget visible that was not:
    the widgets that were there are untouched, and the proxy widget it
    makes is hidden again when it returns and when it raises, though it was
    shown for the window search.  The window style it sets has the bits of
    [WS_EX_NOPARENTNOTIFY]; the widget it returns is the new one, with the
    title it is searched by. *)
Theorem win32_get_proxy_window_leaves_hidden platform s :
  let s' := exec (_win32_get_proxy_window platform) s in
  (∃ new, widgets s' = widgets s ++ new ∧
          Forall (fun w => isVisible w = false) new) ∧
  (∀ hwnd style, SetWindowLong hwnd style ∈ calls s' ->
     SetWindowLong hwnd style ∈ calls s ∨
     Z.land style (WS_EX_NOPARENTNOTIFY platform)
     = WS_EX_NOPARENTNOTIFY platform) ∧
  (∀ w, (_win32_get_proxy_window platform s).1 = Ok (Some w) ->
        w = length (widgets s) ∧
        windowTitle <$> widgets s' !! w = Some "Shotgun Toolkit Parent Widget").
Proof.
  intros s'. unfold s', exec.
  destruct (_win32_get_proxy_window platform s) as [r sf] eqn:Hm.
  cbn [fst snd].
  unfold _win32_get_proxy_window in Hm.
  destruct (win32_get_clarisse_main_hwnd_frame platform s)
    as (r1 & s1 & Hrun1 & Hws1 & Hcalls1).
  unfold bind at 1 in Hm. rewrite Hrun1 in Hm.
  destruct r1 as [sp_hwnd|e1].
  2:{ injection Hm as <- <-. split_and!.
      - exists []. by rewrite app_nil_r.
      - intros hwnd style H. left. by apply Hcalls1.
      - done. }
  assert (Hflag : ∀ style,
            Z.land (Z.lor style (WS_EX_NOPARENTNOTIFY platform))
              (WS_EX_NOPARENTNOTIFY platform)
            = WS_EX_NOPARENTNOTIFY platform).
  { intros style. apply Z.bits_inj'. intros n Hn.
    rewrite Z.land_spec, Z.lor_spec.
    by destruct (Z.testbit style n), (Z.testbit _ n). }
  destruct (hwnd_true sp_hwnd).
  - (* the proxy widget is made *)
    set (w0 := Build_Widget "" false false (0, 0, 0, 0)%Z false) in Hm.
    set (n := length (widgets s1)) in Hm.
    set (sa := set_widgets (fun ws => ws ++ [w0]) s1) in *.
    set (w1 := Build_Widget "Shotgun Toolkit Parent Widget" false false
                 (0, 0, 0, 0)%Z false).
    set (sb := set_widgets (fun _ => widgets s1 ++ [w1]) sa).
    assert (Hb : widgets sb = widgets s1 ++ [w1]) by done.
    unfold bind at 1 in Hm. unfold bind at 1, get at 1 in Hm.
    unfold bind at 1, modify at 1 in Hm. fold sa in Hm.
    unfold bind at 1 in Hm. fold n in Hm.
    unfold setWindowTitle at 1 in Hm. unfold n at 1 in Hm.
    rewrite (update_widget_last _ sa (widgets s1) w0 eq_refl) in Hm.
    cbn [windowTitle isVisible has_parent deleted_later geometry w0] in Hm.
    fold w1 sb in Hm.
    assert (Hfinal : ∀ (proxy : option Z) (sc : State),
      widgets sc = widgets s1 ++ [w1] ->
      (∀ hwnd style, SetWindowLong hwnd style ∈ calls sc ->
                     SetWindowLong hwnd style ∈ calls s) ->
      (let* _ :=
         match proxy with
         | None =>
             logger_warning
               ("Unable setup window parenting properly. Dialogs shown will "
                  +:+ "not be parented to Clarisse, but they will still function "
                  +:+ "properly otherwise.")
         | Some proxy_win_hwnd =>
             let* win_ex_style := external (CallGetWindowLong proxy_win_hwnd)
                                    (GetWindowLong platform proxy_win_hwnd) in
             let* _ := external (SetWindowLong proxy_win_hwnd
                                   (Z.lor win_ex_style
                                      (WS_EX_NOPARENTNOTIFY platform)))
                         (Ok tt) in
             let* _ := external (SetParent proxy_win_hwnd (default 0%Z sp_hwnd))
                         (Ok tt) in
             modify (set__PROXY_WIN_HWND (Some proxy_win_hwnd))
         end in
       ret (Some n)) sc = (r, sf) ->
      (∃ new, widgets sf = widgets s ++ new ∧
              Forall (fun w => isVisible w = false) new) ∧
      (∀ hwnd style, SetWindowLong hwnd style ∈ calls sf ->
         SetWindowLong hwnd style ∈ calls s ∨
         Z.land style (WS_EX_NOPARENTNOTIFY platform)
         = WS_EX_NOPARENTNOTIFY platform) ∧
      (∀ w, r = Ok (Some w) ->
            w = length (widgets s) ∧
            windowTitle <$> widgets sf !! w
            = Some "Shotgun Toolkit Parent Widget")).
    { intros proxy sc Hwsc Hcsc Hrun.
      assert (Hnew : ∃ new, widgets sc = widgets s ++ new ∧
                            Forall (fun w => isVisible w = false) new).
      { exists [w1]. rewrite Hwsc, Hws1. split; [done|]. by repeat constructor. }
      assert (Hlook : windowTitle <$> widgets sc !! length (widgets s)
                      = Some "Shotgun Toolkit Parent Widget").
      { rewrite Hwsc, <-Hws1. by rewrite list_lookup_middle. }
      destruct proxy as [proxy_win_hwnd|].
      - unfold bind at 1 in Hrun. unfold bind at 1, external at 1 in Hrun.
        destruct (GetWindowLong platform proxy_win_hwnd) as [style|e].
        + unfold bind, external, modify, ret in Hrun. simpl in Hrun.
          injection Hrun as <- <-. simpl. split_and!; [done| |].
          * intros hwnd st Hin. rewrite <-!(assoc_L (++)) in Hin.
            apply elem_of_app in Hin as [Hin|Hin].
            -- left. by apply Hcsc.
            -- right. simpl in Hin.
               apply elem_of_cons in Hin as [Hin|Hin]; [done|].
               apply elem_of_cons in Hin as [Hin|Hin].
               ++ injection Hin as -> ->. apply Hflag.
               ++ apply elem_of_cons in Hin as [Hin|Hin]; [done|].
                  by apply elem_of_nil in Hin.
          * intros w [= <-]. unfold n. by rewrite Hws1.
        + injection Hrun as <- <-. simpl. split_and!; [done| |done].
          intros hwnd st Hin. apply elem_of_app in Hin as [Hin|Hin].
          * left. by apply Hcsc.
          * by apply list_elem_of_singleton in Hin.
      - unfold bind, ret in Hrun. rewrite logger_warning_eq in Hrun.
        injection Hrun as <- <-. simpl. split_and!; [done| |].
        + intros hwnd st Hin. left. by apply Hcsc.
        + intros w [= <-]. unfold n. by rewrite Hws1. }
    destruct (String.prefix "4." (QtCore_version platform)).
    + (* Qt 4 *)
      unfold bind at 1 in Hm. unfold bind at 1 in Hm.
      unfold bind at 1, external at 1 in Hm.
      destruct (qwidget_winid_to_hwnd platform n) as [hwnd|e].
      * cbn beta iota in Hm. unfold ret at 1 2 in Hm. cbn [fst snd] in Hm.
        apply (Hfinal (Some hwnd) (record_call (QWidgetWinIdToHwnd n) sb)
                 eq_refl); [|exact Hm].
        intros h st Hin. apply Hcalls1. simpl in Hin.
        apply elem_of_app in Hin as [Hin|Hin]; [done|].
        by apply list_elem_of_singleton in Hin.
      * injection Hm as <- <-. simpl. split_and!; [|  |done].
        -- exists [w1]. rewrite Hws1. split; [done|]. by repeat constructor.
        -- intros h st Hin. left. apply Hcalls1.
           apply elem_of_app in Hin as [Hin|Hin]; [done|].
           by apply list_elem_of_singleton in Hin.
    + (* Qt 5 *)
      unfold bind at 1 in Hm. unfold bind at 1 in Hm.
      unfold bind at 1 in Hm.
      unfold setGeometry at 1 in Hm.
      rewrite (update_widget_last _ sb (widgets s1) w1 Hb) in Hm.
      cbn [windowTitle isVisible has_parent deleted_later w1] in Hm.
      set (sc := set_widgets _ sb) in Hm.
      unfold bind at 1, show at 1 in Hm.
      rewrite (update_widget_last _ sc (widgets s1) w1 eq_refl) in Hm.
      cbn [windowTitle isVisible has_parent deleted_later geometry w1] in Hm.
      set (sd := set_widgets _ sc) in Hm.
      unfold bind at 1, try_finally, external at 1 in Hm.
      unfold hide at 1 in Hm.
      rewrite (update_widget_last _ (record_call _ sd) (widgets s1)
                 (Build_Widget "Shotgun Toolkit Parent Widget" true false
                    (0, 0, 0, 0)%Z false) eq_refl) in Hm.
      cbn [windowTitle isVisible has_parent deleted_later geometry] in Hm.
      fold w1 in Hm.
      set (se := set_widgets _ (record_call _ sd)) in Hm.
      assert (Hcse : ∀ hwnd style, SetWindowLong hwnd style ∈ calls se ->
                                   SetWindowLong hwnd style ∈ calls s).
      { intros h st Hin. apply Hcalls1. simpl in Hin.
        apply elem_of_app in Hin as [Hin|Hin]; [done|].
        by apply list_elem_of_singleton in Hin. }
      destruct (find_proxy_windows platform) as [found|e].
      * cbn beta iota in Hm. unfold ret at 1 2 in Hm. cbn [fst snd] in Hm.
        by apply (Hfinal (head found) se eq_refl Hcse).
      * injection Hm as <- <-. split_and!; [| |done].
        -- exists [w1]. simpl. rewrite Hws1. split; [done|]. by repeat constructor.
        -- intros h st Hin. left. by apply Hcse.
  - (* no main window *)
    unfold bind at 1 in Hm. unfold bind at 1 in Hm.
    rewrite logger_debug_eq in Hm. cbn beta iota in Hm.
    unfold ret at 1 in Hm. cbn [fst snd] in Hm.
    unfold bind, ret in Hm. rewrite logger_warning_eq in Hm.
    injection Hm as <- <-. simpl. split_and!.
    + exists []. by rewrite app_nil_r.
    + intros hwnd style Hin. left. by apply Hcalls1.
    + done.
Qed.


Lemma run_app_instance_commands_result self_name commands run_at_startup
    (st : Startup.State) :
  (Startup._run_app_instance_commands self_name commands run_at_startup st).1
  = if forallb (fun setting => negb (StartupUse.selects commands setting))
         run_at_startup
    then Ok tt
    else Raise (Exn NameError "name 'clarisse' is not defined" []).
Proof.
  revert st. induction run_at_startup as [|setting l IH]; intros st; [done|].
  simpl. destruct (StartupUse.selects commands setting) eqn:Hsel; simpl.
  - by rewrite run_at_startup_selected.
  - rewrite run_app_instance_commands_cons.
    erewrite bind_Ok by (by apply run_at_startup_not_selected).
    apply IH.
Qed.

Lemma on_pump_eq {A} (m : M Pump.State A) s :
  on_pump m s = ((m (pump s)).1, set_pump (fun _ => exec m (pump s)) s).
Proof. unfold on_pump, exec. by destruct (m (pump s)). Qed.

Lemma on_startup_eq {A} (m : M Startup.State A) s :
  on_startup m s = ((m (startup s)).1, set_startup (fun _ => exec m (startup s)) s).
Proof. unfold on_startup, exec. by destruct (m (startup s)). Qed.

Lemma pump_exec__result application (ps : Pump.State) :
  (Pump.exec_ application ps).1 = Ok (Pump._helper (exec (Pump.exec_ application) ps)) ∧
  is_Some (Pump._helper (exec (Pump.exec_ application) ps)) ∧
  (is_Some (Pump._helper ps) -> exec (Pump.exec_ application) ps = ps) ∧
  (Pump._helper ps = None ->
   Pump.event_loop_single (exec (Pump.exec_ application) ps)
   = Pump.event_loop_single ps ++ [length (Pump.instances ps)]).
Proof.
  destruct ps as [hp ins q vis cl cs]. destruct hp as [h|]; simpl.
  - split_and!; [done|by eexists|done|done].
  - split_and!; [done|by eexists|by intros [? ?]|done].
Qed.

(** [_initialise_qapplication]: the application object, then the pump. *)
Lemma initialise_qapplication_eq s :
  ∃ s0,
    _initialise_qapplication s
    = (Ok tt,
       set_pump (fun _ => exec (Pump.exec_ (qapplication s0)) (pump s)) s0) ∧
    is_Some (qapplication s0) ∧ ui s0 = ui s ∧ pump s0 = pump s ∧
    host s0 = host s ∧ commands s0 = commands s ∧
    (is_Some (qapplication s) -> s0 = s).
Proof.
  unfold _initialise_qapplication. unfold bind at 1, get at 1.
  destruct (qapplication s) as [q|] eqn:Hq.
  - exists s. unfold bind at 1. unfold bind at 1, ret at 1.
    rewrite on_pump_eq, Hq.
    destruct (pump_exec__result (Some q) (pump s)) as (Hr & _).
    rewrite Hr. split_and!; [done|by eexists|done..].
  - eexists (record_call InitializeDarkLookAndFeel
               (record_call (SetQuitOnLastWindowClosed false)
                  (record_call SetWindowIcon
                     (set_qapplication
                        (Some "Shotgun Toolkit for Substance Painter")
                        (record_call
                           (NewQApplication "Shotgun Toolkit for Substance Painter")
                           (logged [Startup.Debug "Initialising main QApplication..."]
                              s)))))).
    split_and!; [|by eexists|done|done|done|done|by intros [? ?]].
    unfold bind at 1. unfold bind at 1. rewrite logger_debug_eq.
    unfold bind, external, modify, ret. cbn beta iota.
    rewrite on_pump_eq.
    destruct (pump_exec__result (Some "Shotgun Toolkit for Substance Painter")
                (pump s)) as (Hr & _).
    cbn [pump record_call set_qapplication logged set_startup].
    rewrite Hr. reflexivity.
Qed.

(** X25: [post_app_init] sets the session up before it runs the startup
    commands, so that their NameError comes after.  In a GUI session a
    QApplication exists afterwards, the pump has a helper, registered with
    the host once if there was none and left alone if there was one, and
    the menu generator was called once; without GUI neither Qt nor the menu
    is touched.  The call returns if no setting of [run_at_startup] names a
    registered command, and raises NameError otherwise. *)
Theorem post_app_init_sets_up_first platform settings s eng :
  engine s = Some eng ->
  let s' := exec (post_app_init platform settings) s in
  (post_app_init platform settings s).1 = startup_outcome (commands s) settings ∧
  (if gui s then
     is_Some (qapplication s') ∧
     is_Some (Pump._helper (pump s')) ∧
     (is_Some (Pump._helper (pump s)) -> pump s' = pump s) ∧
     (Pump._helper (pump s) = None ->
      Pump.event_loop_single (pump s')
      = Pump.event_loop_single (pump s)
          ++ [length (Pump.instances (pump s))]) ∧
     RefreshSpec.menu_builds (Refresh.trace (Callback.host_world (ui s')))
     = RefreshSpec.menu_builds (Refresh.trace (Callback.host_world (ui s)))
         ++ [Refresh._menu_name eng +:+ ">"]
   else
     qapplication s' = qapplication s ∧ pump s' = pump s ∧ ui s' = ui s).
Proof.
  intros Heng s'. unfold s', exec.
  destruct (post_app_init platform settings s) as [r sf] eqn:Hm.
  unfold post_app_init in Hm.
  unfold bind at 1, has_ui at 1 in Hm.
  unfold bind at 1, get at 1, ret at 1 in Hm. fold (gui s) in Hm.
  unfold startup_outcome.
  destruct (gui s) eqn:Hgui.
  - destruct (initialise_qapplication_eq s)
      as (s0 & Hrun0 & Hq0 & Hui0 & Hp0 & Hh0 & Hc0 & Hsame0).
    unfold bind at 1 in Hm. rewrite Hrun0 in Hm.
    set (s1 := set_pump _ s0) in Hm.
    assert (Heng1 : engine s1 = Some eng).
    { unfold s1, engine in *. simpl. by rewrite Hui0. }
    unfold bind at 1 in Hm.
    rewrite (create_shotgun_menu_with_menu platform s1 eng Heng1) in Hm.
    unfold _run_app_instance_commands, bind, get in Hm.
    rewrite on_startup_eq in Hm. injection Hm as <- <-.
    rewrite run_app_instance_commands_result.
    assert (Hgui1 : gui s1 = true).
    { unfold s1, gui in *. simpl. by rewrite Hui0. }
    unfold with_menu. rewrite Hgui1. cbn [fst].
    destruct (pump_exec__result (qapplication s0) (pump s))
      as (_ & Hsome & Hagain & Hnew).
    split_and!.
    + unfold s1. simpl. by rewrite Hc0.
    + done.
    + done.
    + intros Hh. simpl. by apply Hagain.
    + intros Hh. simpl. by apply Hnew.
    + simpl. rewrite Hui0. by rewrite menu_builds_app.
  - unfold bind at 1, ret at 1 in Hm. unfold bind at 1 in Hm.
    rewrite (create_shotgun_menu_with_menu platform s eng Heng) in Hm.
    unfold _run_app_instance_commands, bind, get in Hm.
    rewrite on_startup_eq in Hm. injection Hm as <- <-.
    rewrite run_app_instance_commands_result.
    unfold with_menu. rewrite Hgui. done.
Qed.

Lemma post_app_init_sets_up_first_witness :
  let platform := a_platform "darwin" "4.0.2" in
  let s' := exec (post_app_init platform settings_with_startup) (a_session true) in
  (post_app_init platform settings_with_startup (a_session true)).1
  = Raise (Exn NameError "name 'clarisse' is not defined" []) ∧
  is_Some (Pump._helper (pump s')).
Proof.
  intros platform s'.
  pose proof (post_app_init_sets_up_first platform settings_with_startup
                (a_session true) RefreshSpec.an_engine eq_refl) as H.
  exact (conj (proj1 H) (proj1 (proj2 (proj2 H)))).
Defined.

End engine_facts.
